(** * Desktop shell plug-in (src/shell.c): a shallow embedding and its properties

    The C file implements the window-management policy of the compositor.
    This development embeds the parts of it that carry the role state
    machine, the resize and rotate pointer grabs, the lock orchestrator and
    the helper supervisor, and states the properties of those parts.

    Conventions of the embedding:
    - [int32_t] and [uint32_t] values are [Z]; where the C code computes in
      32 bits the wrap-around is written with [wrap_int32] / [wrap_uint32];
    - [GLfloat] values that the code computes with are IEEE binary32 numbers
      ([spec_float] at precision 24, maximal exponent 128);
    - a C function that mutates its arguments is a computation in the monad
      [M S], which threads the state [S] and stops at the first fault
      (a read through [NULL], a list operation on a link in the wrong
      state);
    - calls into the compositor or into libwayland whose result the shell
      does not inspect are recorded, in order, in a trace of [effect]s;
    - a [wl_list] is the Rocq list of its members, head first. *)

From Stdlib Require Import ZArith List String Bool Lia.
From Stdlib Require Import Floats.SpecFloat.
Import ListNotations.

Local Open Scope string_scope.
Local Open Scope list_scope.
Local Open Scope Z_scope.

Set Implicit Arguments.

(* ================================================================== *)
(** * Part I. The embedding *)
(* ================================================================== *)

(** ** Machine integers *)

Definition wrap_uint32 (z : Z) : Z := z mod 2 ^ 32.

Definition wrap_int32 (z : Z) : Z := (z + 2 ^ 31) mod 2 ^ 32 - 2 ^ 31.

Definition is_uint32 (z : Z) : Prop := 0 <= z < 2 ^ 32.

Definition is_int32 (z : Z) : Prop := - 2 ^ 31 <= z < 2 ^ 31.

(** ** Computations that thread a state and may fault *)

Inductive outcome (A : Type) : Type :=
| Done (a : A)
| Fault (why : string).

Arguments Fault {A} why.

Definition M (S A : Type) : Type := S -> outcome (A * S).

Definition ret {S A : Type} (a : A) : M S A := fun s => Done (a, s).

Definition bind {S A B : Type} (c : M S A) (k : A -> M S B) : M S B :=
  fun s => match c s with
           | Done (a, s') => k a s'
           | Fault why => Fault why
           end.

Definition get {S : Type} : M S S := fun s => Done (s, s).

Definition modify {S : Type} (f : S -> S) : M S unit := fun s => Done (tt, f s).

Definition fault {S A : Type} (why : string) : M S A := fun _ => Fault why.

(** [deref what p]: the C expression [p->...] on a pointer that may be
    [NULL]. *)
Definition deref {S A : Type} (what : string) (p : option A) : M S A :=
  match p with
  | Some a => ret a
  | None => fault what
  end.

Declare Scope shell_scope.
Delimit Scope shell_scope with shell.
Notation "x <- c ;; k" := (bind c (fun x => k))
  (at level 61, c at next level, right associativity) : shell_scope.
Notation "c ;;; k" := (bind c (fun _ => k))
  (at level 61, right associativity) : shell_scope.
Local Open Scope shell_scope.

(** The state a computation ends in, when it does not fault. *)
Definition exec {S A : Type} (c : M S A) (s : S) : option S :=
  match c s with
  | Done (_, s') => Some s'
  | Fault _ => None
  end.

(** ** Protocol constants

    [enum wl_shell_surface_resize] and the display error codes are declared
    in the generated protocol headers, which are not part of src/; the
    values below are those of the wl_shell and wl_display protocols. The
    code itself fixes the layout of the edge bits: [weston_surface_resize]
    rejects [(edges & 3) == 3] and [(edges & 12) == 12]. *)

Definition WL_SHELL_SURFACE_RESIZE_TOP : Z := 1.
Definition WL_SHELL_SURFACE_RESIZE_BOTTOM : Z := 2.
Definition WL_SHELL_SURFACE_RESIZE_LEFT : Z := 4.
Definition WL_SHELL_SURFACE_RESIZE_RIGHT : Z := 8.

Definition WL_SHELL_SURFACE_FULLSCREEN_METHOD_DEFAULT : Z := 0.

Inductive wl_display_error : Type :=
| WL_DISPLAY_ERROR_INVALID_OBJECT
| WL_DISPLAY_ERROR_INVALID_METHOD
| WL_DISPLAY_ERROR_NO_MEMORY.

(** ** Calls that leave the shell *)

Inductive dpms_level : Type := WESTON_DPMS_STANDBY.

Inductive list_head : Type :=
| lock_layer_surface_list
| lock_surface_layer_link (lock_shsurf : nat).

Inductive effect : Type :=
| wl_resource_post_error (resource : nat) (code : wl_display_error) (msg : string)
| wl_resource_post_no_memory (resource : nat)
| wl_resource_destroy (resource : nat)
| wl_shell_surface_send_configure (resource : nat) (time edges : Z) (width height : Z)
| desktop_shell_send_prepare_lock_surface (resource : nat)
| weston_surface_destroyed (surface : nat)
| weston_client_launch (path : string)
| kill_SIGTERM (pid : Z)
| set_dpms (output : nat) (level : dpms_level)
| screensaver_shown (shsurf : nat) (after : list_head)
| screensaver_hidden (shsurf : nat)
| set_keyboard_focus_null (device : nat) (time : Z)
| weston_compositor_repick
| weston_compositor_wake
| weston_compositor_damage_all
| weston_compositor_schedule_repaint
| log_stderr (msg : string).

(** ** Data model *)

Inductive shell_surface_type : Type :=
| SHELL_SURFACE_NONE
| SHELL_SURFACE_PANEL
| SHELL_SURFACE_BACKGROUND
| SHELL_SURFACE_LOCK
| SHELL_SURFACE_SCREENSAVER
| SHELL_SURFACE_TOPLEVEL
| SHELL_SURFACE_TRANSIENT
| SHELL_SURFACE_FULLSCREEN
| SHELL_SURFACE_MAXIMIZED
| SHELL_SURFACE_POPUP.

Definition shell_surface_type_eqb (a b : shell_surface_type) : bool :=
  match a, b with
  | SHELL_SURFACE_NONE, SHELL_SURFACE_NONE
  | SHELL_SURFACE_PANEL, SHELL_SURFACE_PANEL
  | SHELL_SURFACE_BACKGROUND, SHELL_SURFACE_BACKGROUND
  | SHELL_SURFACE_LOCK, SHELL_SURFACE_LOCK
  | SHELL_SURFACE_SCREENSAVER, SHELL_SURFACE_SCREENSAVER
  | SHELL_SURFACE_TOPLEVEL, SHELL_SURFACE_TOPLEVEL
  | SHELL_SURFACE_TRANSIENT, SHELL_SURFACE_TRANSIENT
  | SHELL_SURFACE_FULLSCREEN, SHELL_SURFACE_FULLSCREEN
  | SHELL_SURFACE_MAXIMIZED, SHELL_SURFACE_MAXIMIZED
  | SHELL_SURFACE_POPUP, SHELL_SURFACE_POPUP => true
  | _, _ => false
  end.

(** The type of [geometry.x] and [geometry.y] is declared in compositor.h,
    which is not part of src/. The shell only converts such a coordinate
    from and to [int32_t] and adds two of them, so the embedding takes the
    type with these three operations as a parameter. *)
Class geometry_coord : Type := {
  coord : Type;
  coord_of_int : Z -> coord;
  int_of_coord : coord -> Z;
  coord_add : coord -> coord -> coord
}.

Record weston_mode : Type := {
  mode_width : Z;
  mode_height : Z
}.

Record weston_output : Type := {
  output_id : nat;
  output_x : Z;
  output_y : Z;
  current : weston_mode
}.

(** The fields of [struct shell_surface] that the role requests read or
    write. A [wl_list] link that is only ever tested for membership is the
    fact it encodes: [fullscreen_transform_linked] says that
    [fullscreen.transform.link] is on the surface's transformation list,
    [link] names the shell list that [shsurf->link] is on. *)
Inductive role_list : Type :=
| link_detached
| link_in_backgrounds
| link_in_panels
| link_in_screensaver_surfaces.

Record shell_surface : Type := {
  resource : nat;
  parent : option nat;
  type : shell_surface_type;
  saved_x : Z;
  saved_y : Z;
  saved_position_valid : bool;
  popup_x : Z;
  popup_y : Z;
  fullscreen_type : Z;
  fullscreen_framerate : Z;
  fullscreen_transform_linked : bool;
  black_surface : option nat;
  fullscreen_output : option weston_output;
  output : option weston_output;
  link : role_list
}.

Definition set_parent (v : option nat) (s : shell_surface) : shell_surface :=
  {| resource := resource s; parent := v; type := type s;
     saved_x := saved_x s; saved_y := saved_y s;
     saved_position_valid := saved_position_valid s;
     popup_x := popup_x s; popup_y := popup_y s;
     fullscreen_type := fullscreen_type s;
     fullscreen_framerate := fullscreen_framerate s;
     fullscreen_transform_linked := fullscreen_transform_linked s;
     black_surface := black_surface s;
     fullscreen_output := fullscreen_output s;
     output := output s; link := link s |}.

Definition set_type (v : shell_surface_type) (s : shell_surface) : shell_surface :=
  {| resource := resource s; parent := parent s; type := v;
     saved_x := saved_x s; saved_y := saved_y s;
     saved_position_valid := saved_position_valid s;
     popup_x := popup_x s; popup_y := popup_y s;
     fullscreen_type := fullscreen_type s;
     fullscreen_framerate := fullscreen_framerate s;
     fullscreen_transform_linked := fullscreen_transform_linked s;
     black_surface := black_surface s;
     fullscreen_output := fullscreen_output s;
     output := output s; link := link s |}.

Definition set_saved (x y : Z) (valid : bool) (s : shell_surface) : shell_surface :=
  {| resource := resource s; parent := parent s; type := type s;
     saved_x := x; saved_y := y;
     saved_position_valid := valid;
     popup_x := popup_x s; popup_y := popup_y s;
     fullscreen_type := fullscreen_type s;
     fullscreen_framerate := fullscreen_framerate s;
     fullscreen_transform_linked := fullscreen_transform_linked s;
     black_surface := black_surface s;
     fullscreen_output := fullscreen_output s;
     output := output s; link := link s |}.

Definition set_popup_xy (x y : Z) (s : shell_surface) : shell_surface :=
  {| resource := resource s; parent := parent s; type := type s;
     saved_x := saved_x s; saved_y := saved_y s;
     saved_position_valid := saved_position_valid s;
     popup_x := x; popup_y := y;
     fullscreen_type := fullscreen_type s;
     fullscreen_framerate := fullscreen_framerate s;
     fullscreen_transform_linked := fullscreen_transform_linked s;
     black_surface := black_surface s;
     fullscreen_output := fullscreen_output s;
     output := output s; link := link s |}.

Definition set_fullscreen_method (method framerate : Z) (s : shell_surface)
  : shell_surface :=
  {| resource := resource s; parent := parent s; type := type s;
     saved_x := saved_x s; saved_y := saved_y s;
     saved_position_valid := saved_position_valid s;
     popup_x := popup_x s; popup_y := popup_y s;
     fullscreen_type := method;
     fullscreen_framerate := framerate;
     fullscreen_transform_linked := fullscreen_transform_linked s;
     black_surface := black_surface s;
     fullscreen_output := fullscreen_output s;
     output := output s; link := link s |}.

Definition set_fullscreen_transform_linked (v : bool) (s : shell_surface)
  : shell_surface :=
  {| resource := resource s; parent := parent s; type := type s;
     saved_x := saved_x s; saved_y := saved_y s;
     saved_position_valid := saved_position_valid s;
     popup_x := popup_x s; popup_y := popup_y s;
     fullscreen_type := fullscreen_type s;
     fullscreen_framerate := fullscreen_framerate s;
     fullscreen_transform_linked := v;
     black_surface := black_surface s;
     fullscreen_output := fullscreen_output s;
     output := output s; link := link s |}.

Definition set_black_surface (v : option nat) (s : shell_surface) : shell_surface :=
  {| resource := resource s; parent := parent s; type := type s;
     saved_x := saved_x s; saved_y := saved_y s;
     saved_position_valid := saved_position_valid s;
     popup_x := popup_x s; popup_y := popup_y s;
     fullscreen_type := fullscreen_type s;
     fullscreen_framerate := fullscreen_framerate s;
     fullscreen_transform_linked := fullscreen_transform_linked s;
     black_surface := v;
     fullscreen_output := fullscreen_output s;
     output := output s; link := link s |}.

Definition set_fullscreen_output (v : option weston_output) (s : shell_surface)
  : shell_surface :=
  {| resource := resource s; parent := parent s; type := type s;
     saved_x := saved_x s; saved_y := saved_y s;
     saved_position_valid := saved_position_valid s;
     popup_x := popup_x s; popup_y := popup_y s;
     fullscreen_type := fullscreen_type s;
     fullscreen_framerate := fullscreen_framerate s;
     fullscreen_transform_linked := fullscreen_transform_linked s;
     black_surface := black_surface s;
     fullscreen_output := v;
     output := output s; link := link s |}.

Definition set_output (v : option weston_output) (s : shell_surface)
  : shell_surface :=
  {| resource := resource s; parent := parent s; type := type s;
     saved_x := saved_x s; saved_y := saved_y s;
     saved_position_valid := saved_position_valid s;
     popup_x := popup_x s; popup_y := popup_y s;
     fullscreen_type := fullscreen_type s;
     fullscreen_framerate := fullscreen_framerate s;
     fullscreen_transform_linked := fullscreen_transform_linked s;
     black_surface := black_surface s;
     fullscreen_output := fullscreen_output s;
     output := v; link := link s |}.

Definition set_link (v : role_list) (s : shell_surface) : shell_surface :=
  {| resource := resource s; parent := parent s; type := type s;
     saved_x := saved_x s; saved_y := saved_y s;
     saved_position_valid := saved_position_valid s;
     popup_x := popup_x s; popup_y := popup_y s;
     fullscreen_type := fullscreen_type s;
     fullscreen_framerate := fullscreen_framerate s;
     fullscreen_transform_linked := fullscreen_transform_linked s;
     black_surface := black_surface s;
     fullscreen_output := fullscreen_output s;
     output := output s; link := v |}.

(** ** The role state machine *)

Section RoleMachine.

Context {G : geometry_coord}.

(** The fields of [struct weston_surface] that the role requests touch. *)
Record weston_surface : Type := {
  geometry_x : coord;
  geometry_y : coord;
  geometry_width : Z;
  geometry_height : Z;
  es_output : option weston_output;
  force_configure : Z
}.

(** What a role request can reach: the shell-surface behind the resource,
    its [weston_surface], the compositor's output list, the panels bound to
    outputs (output id and height of the panel surface, in the order of
    [shell->panels]) and the trace of calls made so far. *)
Record role_world : Type := {
  shsurf : shell_surface;
  es : weston_surface;
  output_list : list weston_output;
  panels : list (nat * Z);
  trace : list effect
}.

Definition on_shsurf (f : shell_surface -> shell_surface) : M role_world unit :=
  modify (fun w => {| shsurf := f (shsurf w); es := es w;
                      output_list := output_list w; panels := panels w;
                      trace := trace w |}).

Definition on_es (f : weston_surface -> weston_surface) : M role_world unit :=
  modify (fun w => {| shsurf := shsurf w; es := f (es w);
                      output_list := output_list w; panels := panels w;
                      trace := trace w |}).

Definition emit (e : effect) : M role_world unit :=
  modify (fun w => {| shsurf := shsurf w; es := es w;
                      output_list := output_list w; panels := panels w;
                      trace := trace w ++ [e] |}).

(** Modelled from the spec: [weston_surface_set_position] is the
    compositor's "set-position" primitive (compositor.c, not part of
    src/); it stores the position in the surface's geometry. *)
Definition weston_surface_set_position (x y : coord) : M role_world unit :=
  on_es (fun s => {| geometry_x := x; geometry_y := y;
                     geometry_width := geometry_width s;
                     geometry_height := geometry_height s;
                     es_output := es_output s;
                     force_configure := force_configure s |}).

Definition set_force_configure (v : Z) : M role_world unit :=
  on_es (fun s => {| geometry_x := geometry_x s; geometry_y := geometry_y s;
                     geometry_width := geometry_width s;
                     geometry_height := geometry_height s;
                     es_output := es_output s;
                     force_configure := v |}).

(** Modelled from the spec: [weston_surface_destroy] is the compositor's
    surface "destroy" primitive (compositor.c, not part of src/). It
    releases the surface it is handed and reads through the pointer to do
    so; [destroy_shell_surface] and [debug_repaint_binding] call it only
    behind a test of the pointer. Called with [NULL] it faults. *)
Definition weston_surface_destroy (surface : option nat) : M role_world unit :=
  id <- deref "weston_surface_destroy(NULL)" surface ;;
  emit (weston_surface_destroyed id).

(** [container_of(compositor->output_list.next, ...)]: the first output.
    With no output the C expression yields a pointer into the compositor
    itself; any later read through it is a fault here. *)
Definition get_default_output (w : role_world) : option weston_output :=
  hd_error (output_list w).

Definition shell_unset_fullscreen : M role_world unit :=
  (* undo all fullscreen things here *)
  on_shsurf (set_fullscreen_method WL_SHELL_SURFACE_FULLSCREEN_METHOD_DEFAULT 0) ;;;
  on_shsurf (set_fullscreen_transform_linked false) ;;;
  w <- get ;;
  weston_surface_destroy (black_surface (shsurf w)) ;;;
  on_shsurf (set_black_surface None) ;;;
  on_shsurf (set_fullscreen_output None) ;;;
  set_force_configure 1 ;;;
  w <- get ;;
  weston_surface_set_position (coord_of_int (saved_x (shsurf w)))
                              (coord_of_int (saved_y (shsurf w))).

(** Returns the C function's [int]: [0] on success, [-1] on refusal. *)
Definition reset_shell_surface_type : M role_world Z :=
  w <- get ;;
  match type (shsurf w) with
  | SHELL_SURFACE_FULLSCREEN =>
      shell_unset_fullscreen ;;;
      on_shsurf (set_type SHELL_SURFACE_NONE) ;;;
      ret 0
  | SHELL_SURFACE_MAXIMIZED =>
      on_shsurf (set_output (get_default_output w)) ;;;
      weston_surface_set_position (coord_of_int (saved_x (shsurf w)))
                                  (coord_of_int (saved_y (shsurf w))) ;;;
      on_shsurf (set_type SHELL_SURFACE_NONE) ;;;
      ret 0
  | SHELL_SURFACE_PANEL
  | SHELL_SURFACE_BACKGROUND =>
      on_shsurf (set_link link_detached) ;;;
      on_shsurf (set_type SHELL_SURFACE_NONE) ;;;
      ret 0
  | SHELL_SURFACE_SCREENSAVER
  | SHELL_SURFACE_LOCK =>
      emit (wl_resource_post_error (resource (shsurf w))
              WL_DISPLAY_ERROR_INVALID_METHOD
              "cannot reassign surface type") ;;;
      ret (-1)
  | SHELL_SURFACE_NONE
  | SHELL_SURFACE_TOPLEVEL
  | SHELL_SURFACE_TRANSIENT
  | SHELL_SURFACE_POPUP =>
      on_shsurf (set_type SHELL_SURFACE_NONE) ;;;
      ret 0
  end.

Definition shell_surface_set_toplevel : M role_world unit :=
  r <- reset_shell_surface_type ;;
  if r =? 0 then on_shsurf (set_type SHELL_SURFACE_TOPLEVEL)
  else ret tt.

(** [pes] is the parent's [weston_surface], reached through
    [parent_resource->data]. *)
Definition shell_surface_set_transient (pes : weston_surface) (x y flags : Z)
  : M role_world unit :=
  r <- reset_shell_surface_type ;;
  if r =? 0 then
    (* assign to parents output *)
    on_shsurf (set_output (es_output pes)) ;;;
    weston_surface_set_position (coord_add (geometry_x pes) (coord_of_int x))
                                (coord_add (geometry_y pes) (coord_of_int y)) ;;;
    on_shsurf (set_type SHELL_SURFACE_TRANSIENT)
  else ret tt.

Fixpoint get_output_panel_height_loop (ps : list (nat * Z)) (o : nat) : Z :=
  match ps with
  | [] => 0
  | (po, h) :: rest =>
      if Nat.eqb po o then h else get_output_panel_height_loop rest o
  end.

Definition get_output_panel_height (ps : list (nat * Z))
  (o : option weston_output) : Z :=
  match o with
  | None => 0
  | Some out => get_output_panel_height_loop ps (output_id out)
  end.

Definition shell_surface_set_maximized (output_resource : option weston_output)
  (now : Z) : M role_world unit :=
  (* get the default output, if the client set it as NULL *)
  w0 <- get ;;
  on_shsurf (set_output (match output_resource with
                         | Some o => Some o
                         | None => get_default_output w0
                         end)) ;;;
  r <- reset_shell_surface_type ;;
  if r =? 0 then
    w <- get ;;
    on_shsurf (set_saved (int_of_coord (geometry_x (es w)))
                         (int_of_coord (geometry_y (es w))) true) ;;;
    let panel_height :=
      wrap_uint32 (get_output_panel_height (panels w) (es_output (es w))) in
    let edges :=
      Z.lor WL_SHELL_SURFACE_RESIZE_TOP WL_SHELL_SURFACE_RESIZE_LEFT in
    out <- deref "es->output->current" (es_output (es w)) ;;
    emit (wl_shell_surface_send_configure (resource (shsurf w)) now edges
            (mode_width (current out))
            (wrap_int32 (mode_height (current out) - panel_height))) ;;;
    on_shsurf (set_type SHELL_SURFACE_MAXIMIZED)
  else ret tt.

Definition shell_surface_set_fullscreen (method framerate : Z)
  (output_resource : option weston_output) (now : Z) : M role_world unit :=
  w0 <- get ;;
  on_shsurf (set_output (match output_resource with
                         | Some o => Some o
                         | None => get_default_output w0
                         end)) ;;;
  r <- reset_shell_surface_type ;;
  if r =? 0 then
    w <- get ;;
    on_shsurf (set_fullscreen_output (output (shsurf w))) ;;;
    on_shsurf (set_fullscreen_method method framerate) ;;;
    on_shsurf (set_type SHELL_SURFACE_FULLSCREEN) ;;;
    on_shsurf (set_saved (int_of_coord (geometry_x (es w)))
                         (int_of_coord (geometry_y (es w))) true) ;;;
    (match es_output (es w) with
     | Some _ => set_force_configure 1
     | None => ret tt
     end) ;;;
    out <- deref "shsurf->output->current" (output (shsurf w)) ;;
    emit (wl_shell_surface_send_configure (resource (shsurf w)) now 0
            (mode_width (current out)) (mode_height (current out)))
  else ret tt.

Definition shell_surface_set_popup (input_device time : Z) (parent_shsurf : nat)
  (x y flags : Z) : M role_world unit :=
  on_shsurf (set_type SHELL_SURFACE_POPUP) ;;;
  on_shsurf (set_parent (Some parent_shsurf)) ;;;
  on_shsurf (set_popup_xy x y).

(** The public role requests of [shell_surface_implementation]. *)
Inductive role_request : Type :=
| req_set_toplevel
| req_set_transient (pes : weston_surface) (x y flags : Z)
| req_set_fullscreen (method framerate : Z) (output_resource : option weston_output)
| req_set_popup (input_device time : Z) (parent_shsurf : nat) (x y flags : Z)
| req_set_maximized (output_resource : option weston_output).

(** [now] is what [weston_compositor_get_time()] returns during the call. *)
Definition dispatch (now : Z) (r : role_request) : M role_world unit :=
  match r with
  | req_set_toplevel => shell_surface_set_toplevel
  | req_set_transient pes x y flags => shell_surface_set_transient pes x y flags
  | req_set_fullscreen m f o => shell_surface_set_fullscreen m f o now
  | req_set_popup i t p x y flags => shell_surface_set_popup i t p x y flags
  | req_set_maximized o => shell_surface_set_maximized o now
  end.

(** The shell-surface that [shell_get_shell_surface] creates ([calloc]
    zeroes every field it does not assign). *)
Definition new_shell_surface (id : nat) : shell_surface :=
  {| resource := id; parent := None; type := SHELL_SURFACE_NONE;
     saved_x := 0; saved_y := 0; saved_position_valid := false;
     popup_x := 0; popup_y := 0;
     fullscreen_type := WL_SHELL_SURFACE_FULLSCREEN_METHOD_DEFAULT;
     fullscreen_framerate := 0;
     fullscreen_transform_linked := false;
     black_surface := None;
     fullscreen_output := None; output := None; link := link_detached |}.

End RoleMachine.

(** ** Pointer grabs: resize *)

Record weston_resize_grab : Type := {
  edges : Z;
  width : Z;
  height : Z;
  grab_shsurf : nat
}.

(** The grab installed on the input device ([device->pointer_grab]). *)
Inductive pointer_grab : Type :=
| default_pointer_grab
| resize_grab (g : weston_resize_grab).

Record wl_input_device : Type := {
  device_x : Z;
  device_y : Z;
  grab_x : Z;
  grab_y : Z;
  grab_time : Z;
  button_count : Z;
  pointer_focus : option nat;
  installed_grab : pointer_grab
}.

(** What a resize request or a resize-grab callback can reach: the input
    device, the shell-surface ([rs_shsurf], its role in [rs_type]), the
    identity and size of its [weston_surface], and the trace. *)
Record resize_world : Type := {
  device : wl_input_device;
  rs_shsurf : nat;
  rs_type : shell_surface_type;
  rs_surface : nat;
  rs_width : Z;
  rs_height : Z;
  rs_trace : list effect
}.

Definition rs_emit (e : effect) : M resize_world unit :=
  modify (fun w => {| device := device w; rs_shsurf := rs_shsurf w;
                      rs_type := rs_type w; rs_surface := rs_surface w;
                      rs_width := rs_width w; rs_height := rs_height w;
                      rs_trace := rs_trace w ++ [e] |}).

Definition on_device (f : wl_input_device -> wl_input_device)
  : M resize_world unit :=
  modify (fun w => {| device := f (device w); rs_shsurf := rs_shsurf w;
                      rs_type := rs_type w; rs_surface := rs_surface w;
                      rs_width := rs_width w; rs_height := rs_height w;
                      rs_trace := rs_trace w |}).

(** Modelled from the spec: [wl_input_device_start_pointer_grab] is
    libwayland's; it makes the grab the device's current pointer grab
    (the spec's "pointer/keyboard grab start/end"). *)
Definition wl_input_device_start_pointer_grab (g : pointer_grab)
  : M resize_world unit :=
  on_device (fun d => {| device_x := device_x d; device_y := device_y d;
                         grab_x := grab_x d; grab_y := grab_y d;
                         grab_time := grab_time d;
                         button_count := button_count d;
                         pointer_focus := pointer_focus d;
                         installed_grab := g |}).

(** Modelled from the spec: [wl_input_device_set_pointer_focus] is
    libwayland's; it records the surface that has the pointer focus
    (the spec's "pointer/keyboard focus set"). *)
Definition wl_input_device_set_pointer_focus (surface : option nat)
  : M resize_world unit :=
  on_device (fun d => {| device_x := device_x d; device_y := device_y d;
                         grab_x := grab_x d; grab_y := grab_y d;
                         grab_time := grab_time d;
                         button_count := button_count d;
                         pointer_focus := surface;
                         installed_grab := installed_grab d |}).

(** [e & bit] as a C condition. *)
Definition has_edge (e bit : Z) : bool := negb (Z.land e bit =? 0).

Section ResizeGrab.

(** [weston_surface_from_global] belongs to the compositor: it maps global
    coordinates to coordinates local to the (possibly transformed) surface.
    It is a parameter of the embedding. In the two functions below
    [malloc_ok] says whether the allocation of the grab succeeds. *)
Variable weston_surface_from_global : resize_world -> Z -> Z -> Z * Z.

(** The C function adds and subtracts [int32_t]s; the result is reduced to
    32 bits once, which agrees with reducing after each operation. *)
Definition resize_grab_motion (resize : weston_resize_grab) (time x y : Z)
  : M resize_world unit :=
  w <- get ;;
  let '(from_x, from_y) :=
    weston_surface_from_global w (grab_x (device w)) (grab_y (device w)) in
  let '(to_x, to_y) :=
    weston_surface_from_global w (device_x (device w)) (device_y (device w)) in
  let new_width :=
    if has_edge (edges resize) WL_SHELL_SURFACE_RESIZE_LEFT then
      wrap_int32 (width resize + from_x - to_x)
    else if has_edge (edges resize) WL_SHELL_SURFACE_RESIZE_RIGHT then
      wrap_int32 (width resize + to_x - from_x)
    else width resize in
  let new_height :=
    if has_edge (edges resize) WL_SHELL_SURFACE_RESIZE_TOP then
      wrap_int32 (height resize + from_y - to_y)
    else if has_edge (edges resize) WL_SHELL_SURFACE_RESIZE_BOTTOM then
      wrap_int32 (height resize + to_y - from_y)
    else height resize in
  rs_emit (wl_shell_surface_send_configure (grab_shsurf resize) time
             (edges resize) new_width new_height).

Definition weston_surface_resize (malloc_ok : bool) (time e : Z)
  : M resize_world Z :=
  w <- get ;;
  if shell_surface_type_eqb (rs_type w) SHELL_SURFACE_FULLSCREEN then ret 0
  else if (e =? 0) || (e >? 15) ||
          (Z.land e 3 =? 3) || (Z.land e 12 =? 12) then ret 0
  else if negb malloc_ok then ret (-1)
  else
    let resize := {| edges := e; width := rs_width w; height := rs_height w;
                     grab_shsurf := rs_shsurf w |} in
    wl_input_device_start_pointer_grab (resize_grab resize) ;;;
    wl_input_device_set_pointer_focus None ;;;
    ret 0.

Definition shell_surface_resize (malloc_ok : bool) (time e : Z)
  : M resize_world unit :=
  w <- get ;;
  if shell_surface_type_eqb (rs_type w) SHELL_SURFACE_FULLSCREEN then ret tt
  else if (button_count (device w) =? 0) ||
          negb (grab_time (device w) =? time) ||
          negb (match pointer_focus (device w) with
                | Some f => Nat.eqb f (rs_surface w)
                | None => false
                end) then ret tt
  else
    r <- weston_surface_resize malloc_ok time e ;;
    if r <? 0 then rs_emit (wl_resource_post_no_memory (rs_shsurf w))
    else ret tt.

End ResizeGrab.

(** ** Pointer grabs: rotate *)

(** [GLfloat]: IEEE binary32, operations rounded to nearest even. *)
Definition GLfloat : Type := spec_float.

Definition prec32 : Z := 24.
Definition emax32 : Z := 128.

Definition float_of_int (z : Z) : GLfloat := binary_normalize prec32 emax32 z 0 false.
Definition fmul (a b : GLfloat) : GLfloat := SFmul prec32 emax32 a b.
Definition fadd (a b : GLfloat) : GLfloat := SFadd prec32 emax32 a b.
Definition fdiv (a b : GLfloat) : GLfloat := SFdiv prec32 emax32 a b.
Definition fneg (a : GLfloat) : GLfloat := SFopp a.
Definition sqrtf (a : GLfloat) : GLfloat := SFsqrt prec32 emax32 a.
Definition fgt (a b : GLfloat) : bool := SFltb b a.

Definition f0 : GLfloat := S754_zero false.
Definition f1 : GLfloat := float_of_int 1.
Definition f20 : GLfloat := float_of_int 20.
Definition fhalf : GLfloat := binary_normalize prec32 emax32 1 (-1) false.

(** [struct weston_matrix]: the sixteen entries [d[0..15]]. *)
Definition weston_matrix : Type := list GLfloat.

(** Modelled from the spec: [weston_matrix_init] is the "init" of the
    compositor's transform matrix ops (matrix.c, not part of src/); it
    stores the identity. *)
Definition weston_matrix_init : weston_matrix :=
  [f1; f0; f0; f0;  f0; f1; f0; f0;  f0; f0; f1; f0;  f0; f0; f0; f1].

Fixpoint set_d (i : nat) (v : GLfloat) (m : weston_matrix) : weston_matrix :=
  match m, i with
  | [], _ => []
  | _ :: rest, O => v :: rest
  | a :: rest, S j => a :: set_d j v rest
  end.

Definition d (m : weston_matrix) (i : nat) : GLfloat := nth i m f0.

(** The links that can be on [surface->geometry.transformation_list]. *)
Inductive transform_link : Type :=
| rotation_transform
| fullscreen_transform
| popup_parent_transform.

Definition transform_link_eqb (a b : transform_link) : bool :=
  match a, b with
  | rotation_transform, rotation_transform
  | fullscreen_transform, fullscreen_transform
  | popup_parent_transform, popup_parent_transform => true
  | _, _ => false
  end.

(** What a rotate-grab callback can reach: the pointer position, the
    surface's size, dirty flag and transformation list, the shell-surface's
    rotation sub-state ([rotation.transform.matrix] and the committed
    [rotation.rotation]) and the grab's own [rotation] and [center]. *)
Record rotate_world : Type := {
  pointer_x : Z;
  pointer_y : Z;
  surface_width : Z;
  surface_height : Z;
  geometry_dirty : Z;
  transformation_list : list transform_link;
  rotation_transform_matrix : weston_matrix;
  rotation_rotation : weston_matrix;
  grab_rotation : weston_matrix;
  center_x : Z;
  center_y : Z;
  rotate_trace : list effect
}.

(** [wl_list_remove(&surface->rotation.transform.link)]: the link is either
    on the transformation list or linked to itself (it is initialised
    "empty when not in use"), so the call takes it off the list if it is
    there and has no other effect. *)
Definition remove_rotation_link (l : list transform_link) : list transform_link :=
  filter (fun t => negb (transform_link_eqb t rotation_transform)) l.

Section RotateGrab.

(** [weston_matrix_multiply] and [weston_matrix_translate] live in
    matrix.c; [weston_matrix_multiply m n] is the value left in [m]. *)
Variable weston_matrix_multiply : weston_matrix -> weston_matrix -> weston_matrix.
Variable weston_matrix_translate :
  weston_matrix -> GLfloat -> GLfloat -> GLfloat -> weston_matrix.

Definition rotate_distance (w : rotate_world) : GLfloat * GLfloat * GLfloat :=
  let dx := float_of_int (wrap_int32 (pointer_x w - center_x w)) in
  let dy := float_of_int (wrap_int32 (pointer_y w - center_y w)) in
  (dx, dy, sqrtf (fadd (fmul dx dx) (fmul dy dy))).

Definition rotate_grab_motion (time x y : Z) : M rotate_world unit :=
  modify (fun w =>
    let cx := fmul fhalf (float_of_int (surface_width w)) in
    let cy := fmul fhalf (float_of_int (surface_height w)) in
    let '(dx, dy, r) := rotate_distance w in
    let tl := remove_rotation_link (transformation_list w) in
    if fgt r f20 then
      let rot := weston_matrix_init in
      let rot := set_d 0 (fdiv dx r) rot in
      let rot := set_d 4 (fdiv (fneg dy) r) rot in
      let rot := set_d 1 (fneg (d rot 4)) rot in
      let rot := set_d 5 (d rot 0) rot in
      let matrix := weston_matrix_init in
      let matrix := weston_matrix_translate matrix (fneg cx) (fneg cy) f0 in
      let matrix := weston_matrix_multiply matrix (rotation_rotation w) in
      let matrix := weston_matrix_multiply matrix rot in
      let matrix := weston_matrix_translate matrix cx cy f0 in
      {| pointer_x := pointer_x w; pointer_y := pointer_y w;
         surface_width := surface_width w; surface_height := surface_height w;
         geometry_dirty := 1;
         transformation_list := rotation_transform :: tl;
         rotation_transform_matrix := matrix;
         rotation_rotation := rotation_rotation w;
         grab_rotation := rot;
         center_x := center_x w; center_y := center_y w;
         rotate_trace := rotate_trace w ++ [weston_compositor_schedule_repaint] |}
    else
      {| pointer_x := pointer_x w; pointer_y := pointer_y w;
         surface_width := surface_width w; surface_height := surface_height w;
         geometry_dirty := 1;
         transformation_list := tl;
         rotation_transform_matrix := rotation_transform_matrix w;
         rotation_rotation := weston_matrix_init;
         grab_rotation := weston_matrix_init;
         center_x := center_x w; center_y := center_y w;
         rotate_trace := rotate_trace w ++ [weston_compositor_schedule_repaint] |}).

End RotateGrab.

(** Modelled from the spec: the compositor's "transform matrix ops (init,
    scale, translate, multiply)" of matrix.c, which is not part of src/.
    [matrix_multiply m n] is the 4x4 product that the call leaves in [m]:
    entry [i] is the sum over [j] of [m.d[4 * (i / 4) + j] * n.d[4 * j + i mod 4]],
    accumulated from zero in that order. It is used to run
    [rotate_grab_motion] on concrete inputs. *)
Definition matrix_multiply (m n : weston_matrix) : weston_matrix :=
  map (fun i =>
         fold_left (fun acc j =>
                      fadd acc (fmul (d m (4 * (i / 4) + j)) (d n (4 * j + i mod 4))))
                   (seq 0 4) f0)
      (seq 0 16).

(** Modelled from the spec: [weston_matrix_translate] multiplies by the
    translation matrix, which has [x], [y], [z] in entries 12, 13, 14. *)
Definition matrix_translate (m : weston_matrix) (x y z : GLfloat) : weston_matrix :=
  matrix_multiply m
    [f1; f0; f0; f0;  f0; f1; f0; f0;  f0; f0; f1; f0;  x; y; z; f1].

(** ** The shell: layers, lock orchestrator, helper supervisor *)

(** The layers that can be on [compositor->layer_list]: the compositor's
    own fade and cursor layers and the five layers of [struct wl_shell]. *)
Inductive layer : Type :=
| fade_layer
| cursor_layer
| fullscreen_layer
| panel_layer
| toplevel_layer
| background_layer
| lock_layer.

Definition layer_eqb (a b : layer) : bool :=
  match a, b with
  | fade_layer, fade_layer
  | cursor_layer, cursor_layer
  | fullscreen_layer, fullscreen_layer
  | panel_layer, panel_layer
  | toplevel_layer, toplevel_layer
  | background_layer, background_layer
  | lock_layer, lock_layer => true
  | _, _ => false
  end.

Definition on_list (a : layer) (l : list layer) : bool := existsb (layer_eqb a) l.

Fixpoint list_remove (a : layer) (l : list layer) : list layer :=
  match l with
  | [] => []
  | b :: rest => if layer_eqb a b then rest else b :: list_remove a rest
  end.

Fixpoint list_insert_after (pos elm : layer) (l : list layer) : list layer :=
  match l with
  | [] => []
  | b :: rest =>
      if layer_eqb pos b then b :: elm :: rest
      else b :: list_insert_after pos elm rest
  end.

Inductive compositor_state : Type :=
| WESTON_COMPOSITOR_ACTIVE
| WESTON_COMPOSITOR_IDLE
| WESTON_COMPOSITOR_SLEEPING.

(** The fields of [struct weston_compositor] that the shell reads or
    writes: the global layer order (topmost first), the idle times, the
    state, the outputs (id, and whether [set_dpms] is set) and the input
    devices. *)
Record weston_compositor : Type := {
  layer_list : list layer;
  idle_time : Z;
  option_idle_time : Z;
  state : compositor_state;
  outputs : list (nat * bool);
  input_device_list : list nat
}.

(** [shell->child]. *)
Record child_record : Type := {
  child_pid : Z;
  child_client : option nat;
  desktop_shell : option nat;
  deathcount : Z;
  deathstamp : Z
}.

(** [shell->screensaver]; [ss_surfaces] lists the shell-surfaces on
    [screensaver.surfaces], in list order. *)
Record screensaver_record : Type := {
  ss_path : option string;
  ss_duration : Z;
  ss_binding : option nat;
  ss_surfaces : list nat;
  ss_pid : Z
}.

Record wl_shell : Type := {
  compositor : weston_compositor;
  child : child_record;
  locked : bool;
  prepare_event_sent : bool;
  lock_surface : option nat;
  screensaver : screensaver_record;
  shell_trace : list effect
}.

Definition on_compositor (f : weston_compositor -> weston_compositor)
  : M wl_shell unit :=
  modify (fun s => {| compositor := f (compositor s); child := child s;
                      locked := locked s;
                      prepare_event_sent := prepare_event_sent s;
                      lock_surface := lock_surface s;
                      screensaver := screensaver s;
                      shell_trace := shell_trace s |}).

Definition on_child (f : child_record -> child_record) : M wl_shell unit :=
  modify (fun s => {| compositor := compositor s; child := f (child s);
                      locked := locked s;
                      prepare_event_sent := prepare_event_sent s;
                      lock_surface := lock_surface s;
                      screensaver := screensaver s;
                      shell_trace := shell_trace s |}).

Definition on_screensaver (f : screensaver_record -> screensaver_record)
  : M wl_shell unit :=
  modify (fun s => {| compositor := compositor s; child := child s;
                      locked := locked s;
                      prepare_event_sent := prepare_event_sent s;
                      lock_surface := lock_surface s;
                      screensaver := f (screensaver s);
                      shell_trace := shell_trace s |}).

Definition set_locked (v : bool) : M wl_shell unit :=
  modify (fun s => {| compositor := compositor s; child := child s;
                      locked := v;
                      prepare_event_sent := prepare_event_sent s;
                      lock_surface := lock_surface s;
                      screensaver := screensaver s;
                      shell_trace := shell_trace s |}).

Definition set_prepare_event_sent (v : bool) : M wl_shell unit :=
  modify (fun s => {| compositor := compositor s; child := child s;
                      locked := locked s;
                      prepare_event_sent := v;
                      lock_surface := lock_surface s;
                      screensaver := screensaver s;
                      shell_trace := shell_trace s |}).

Definition set_lock_surface (v : option nat) : M wl_shell unit :=
  modify (fun s => {| compositor := compositor s; child := child s;
                      locked := locked s;
                      prepare_event_sent := prepare_event_sent s;
                      lock_surface := v;
                      screensaver := screensaver s;
                      shell_trace := shell_trace s |}).

Definition call (e : effect) : M wl_shell unit :=
  modify (fun s => {| compositor := compositor s; child := child s;
                      locked := locked s;
                      prepare_event_sent := prepare_event_sent s;
                      lock_surface := lock_surface s;
                      screensaver := screensaver s;
                      shell_trace := shell_trace s ++ [e] |}).

Definition set_layer_list (l : list layer) (c : weston_compositor)
  : weston_compositor :=
  {| layer_list := l; idle_time := idle_time c;
     option_idle_time := option_idle_time c; state := state c;
     outputs := outputs c; input_device_list := input_device_list c |}.

Definition set_idle_time (v : Z) (c : weston_compositor) : weston_compositor :=
  {| layer_list := layer_list c; idle_time := v;
     option_idle_time := option_idle_time c; state := state c;
     outputs := outputs c; input_device_list := input_device_list c |}.

Definition set_state (v : compositor_state) (c : weston_compositor)
  : weston_compositor :=
  {| layer_list := layer_list c; idle_time := idle_time c;
     option_idle_time := option_idle_time c; state := v;
     outputs := outputs c; input_device_list := input_device_list c |}.

(** [wl_list_remove(&l.link)] on the global layer order. Taking a link off
    a list it is not on follows stale or null pointers: a fault. *)
Definition wl_list_remove (l : layer) : M wl_shell unit :=
  s <- get ;;
  if on_list l (layer_list (compositor s)) then
    on_compositor (set_layer_list (list_remove l (layer_list (compositor s))))
  else fault "wl_list_remove: link is not on the layer list".

(** [wl_list_insert(&pos.link, &elm.link)]: [elm] goes directly after
    [pos]. Inserting after a link that is not on the list, or inserting a
    link that is still on it, corrupts the list: a fault. *)
Definition wl_list_insert (pos elm : layer) : M wl_shell unit :=
  s <- get ;;
  if on_list pos (layer_list (compositor s)) &&
     negb (on_list elm (layer_list (compositor s))) then
    on_compositor
      (set_layer_list (list_insert_after pos elm (layer_list (compositor s))))
  else fault "wl_list_insert: layer list would be corrupted".

(** Modelled from the spec: [weston_compositor_wake] is the compositor's;
    it brings the compositor back to the active state ("wake"). *)
Definition compositor_wake : M wl_shell unit :=
  call weston_compositor_wake ;;;
  on_compositor (set_state WESTON_COMPOSITOR_ACTIVE).

Fixpoint for_each {A : Type} (l : list A) (body : A -> M wl_shell unit)
  : M wl_shell unit :=
  match l with
  | [] => ret tt
  | a :: rest => body a ;;; for_each rest body
  end.

(** [launched_pid] is the pid that [weston_client_launch] leaves in
    [screensaver.process] when it is called. *)
Definition launch_screensaver (launched_pid : Z) : M wl_shell unit :=
  s <- get ;;
  match ss_binding (screensaver s), ss_path (screensaver s) with
  | Some _, _ => ret tt
  | None, None => ret tt
  | None, Some path =>
      if negb (ss_pid (screensaver s) =? 0) then
        call (log_stderr "old screensaver still running")
      else
        call (weston_client_launch path) ;;;
        on_screensaver (fun r => {| ss_path := ss_path r;
                                    ss_duration := ss_duration r;
                                    ss_binding := ss_binding r;
                                    ss_surfaces := ss_surfaces r;
                                    ss_pid := launched_pid |})
  end.

Definition terminate_screensaver : M wl_shell unit :=
  s <- get ;;
  if ss_pid (screensaver s) =? 0 then ret tt
  else call (kill_SIGTERM (ss_pid (screensaver s))).

(** The restacking of one screensaver surface is a change inside a layer's
    surface list, not of the layer order; it is recorded in the trace. *)
Definition show_screensaver (surface : nat) : M wl_shell unit :=
  s <- get ;;
  call (screensaver_shown surface
          (match lock_surface s with
           | Some l => lock_surface_layer_link l
           | None => lock_layer_surface_list
           end)).

Definition hide_screensaver (surface : nat) : M wl_shell unit :=
  call (screensaver_hidden surface).

Definition resume_desktop : M wl_shell unit :=
  s <- get ;;
  for_each (ss_surfaces (screensaver s)) hide_screensaver ;;;
  terminate_screensaver ;;;
  wl_list_remove lock_layer ;;;
  wl_list_insert cursor_layer fullscreen_layer ;;;
  wl_list_insert fullscreen_layer panel_layer ;;;
  wl_list_insert panel_layer toplevel_layer ;;;
  set_locked false ;;;
  call weston_compositor_repick ;;;
  on_compositor (fun c => set_idle_time (option_idle_time c) c) ;;;
  compositor_wake ;;;
  call weston_compositor_damage_all.

Definition desktop_shell_unlock : M wl_shell unit :=
  set_prepare_event_sent false ;;;
  s <- get ;;
  if locked s then resume_desktop else ret tt.

(** [reset_result] is what [reset_shell_surface_type] returned for the
    surface; the assignment of the lock role to the shell-surface itself is
    outside [wl_shell]. *)
Definition desktop_shell_set_lock_surface (surface : nat) (reset_result : Z)
  : M wl_shell unit :=
  if negb (reset_result =? 0) then ret tt
  else
    set_prepare_event_sent false ;;;
    s <- get ;;
    if negb (locked s) then ret tt
    else set_lock_surface (Some surface).

Definition handle_lock_surface_destroy : M wl_shell unit :=
  call (log_stderr "lock surface gone") ;;;
  set_lock_surface None.

Definition screensaver_set_surface (surface : nat) (reset_result : Z)
  : M wl_shell unit :=
  if negb (reset_result =? 0) then ret tt
  else
    on_screensaver (fun r => {| ss_path := ss_path r;
                                ss_duration := ss_duration r;
                                ss_binding := ss_binding r;
                                ss_surfaces := ss_surfaces r ++ [surface];
                                ss_pid := ss_pid r |}).

(** The body of the loop over the outputs in [lock]. *)
Definition output_standby (o : nat * bool) : M wl_shell unit :=
  if snd o then call (set_dpms (fst o) WESTON_DPMS_STANDBY) else ret tt.

(** The body of the loop over the input devices in [lock]. *)
Definition reset_keyboard_focus (now : Z) (dev : nat) : M wl_shell unit :=
  call (set_keyboard_focus_null dev now).

(** [now] is what [weston_compositor_get_time()] returns during the call. *)
Definition lock (launched_pid now : Z) : M wl_shell unit :=
  s <- get ;;
  if locked s then
    (* TODO: find a way to jump to other DPMS levels *)
    for_each (outputs (compositor s)) output_standby
  else
    set_locked true ;;;
    (* Hide all surfaces by removing the fullscreen, panel and toplevel
       layers. *)
    wl_list_remove panel_layer ;;;
    wl_list_remove toplevel_layer ;;;
    wl_list_remove fullscreen_layer ;;;
    wl_list_insert cursor_layer lock_layer ;;;
    launch_screensaver launched_pid ;;;
    for_each (ss_surfaces (screensaver s)) show_screensaver ;;;
    (match ss_surfaces (screensaver s) with
     | [] => ret tt
     | _ :: _ =>
         on_compositor (set_idle_time (ss_duration (screensaver s))) ;;;
         compositor_wake ;;;
         on_compositor (set_state WESTON_COMPOSITOR_IDLE)
     end) ;;;
    (* reset pointer foci *)
    call weston_compositor_repick ;;;
    (* reset keyboard foci *)
    for_each (input_device_list (compositor s)) (reset_keyboard_focus now).

Definition unlock : M wl_shell unit :=
  s <- get ;;
  if negb (locked s) || (match lock_surface s with Some _ => true | None => false end)
  then compositor_wake
  else
    match desktop_shell (child s) with
    | None =>
        (* If desktop-shell client has gone away, unlock immediately. *)
        resume_desktop
    | Some helper =>
        if prepare_event_sent s then ret tt
        else
          call (desktop_shell_send_prepare_lock_surface helper) ;;;
          set_prepare_event_sent true
    end.

Definition unbind_desktop_shell : M wl_shell unit :=
  s <- get ;;
  (if locked s then resume_desktop else ret tt) ;;;
  on_child (fun c => {| child_pid := child_pid c;
                        child_client := child_client c;
                        desktop_shell := None;
                        deathcount := deathcount c;
                        deathstamp := deathstamp c |}) ;;;
  set_prepare_event_sent false.

(** [resource] is the object that [wl_client_add_object] has just created
    for [client]. *)
Definition bind_desktop_shell (client resource : nat) : M wl_shell unit :=
  s <- get ;;
  if (match child_client (child s) with
      | Some helper => Nat.eqb client helper
      | None => false
      end)
  then
    on_child (fun c => {| child_pid := child_pid c;
                          child_client := child_client c;
                          desktop_shell := Some resource;
                          deathcount := deathcount c;
                          deathstamp := deathstamp c |})
  else
    call (wl_resource_post_error resource WL_DISPLAY_ERROR_INVALID_OBJECT
            "permission to bind desktop_shell denied") ;;;
    call (wl_resource_destroy resource).

Definition unbind_screensaver : M wl_shell unit :=
  on_screensaver (fun r => {| ss_path := ss_path r;
                              ss_duration := ss_duration r;
                              ss_binding := None;
                              ss_surfaces := ss_surfaces r;
                              ss_pid := ss_pid r |}).

Definition bind_screensaver (client resource : nat) : M wl_shell unit :=
  s <- get ;;
  match ss_binding (screensaver s) with
  | None =>
      on_screensaver (fun r => {| ss_path := ss_path r;
                                  ss_duration := ss_duration r;
                                  ss_binding := Some resource;
                                  ss_surfaces := ss_surfaces r;
                                  ss_pid := ss_pid r |})
  | Some _ =>
      call (wl_resource_post_error resource WL_DISPLAY_ERROR_INVALID_OBJECT
              "interface object already bound") ;;;
      call (wl_resource_destroy resource)
  end.

Definition handle_screensaver_sigchld : M wl_shell unit :=
  on_screensaver (fun r => {| ss_path := ss_path r;
                              ss_duration := ss_duration r;
                              ss_binding := ss_binding r;
                              ss_surfaces := ss_surfaces r;
                              ss_pid := 0 |}).

(** [LIBEXECDIR] is set by the build. *)
Definition shell_exe : string := "LIBEXECDIR/weston-desktop-shell".

(** Modelled from the spec: [weston_client_launch] is the compositor's
    "process launch with SIGCHLD callback", which "returns a handle to the
    privileged client". [launched] is what the call produces: nothing when
    it fails, else the new client and the pid it stores in the process
    record. *)
Definition launch_desktop_shell_process (launched : option (nat * Z))
  : M wl_shell Z :=
  call (weston_client_launch shell_exe) ;;;
  on_child (fun c => {| child_pid := match launched with
                                     | Some (_, pid) => pid
                                     | None => child_pid c
                                     end;
                        child_client := option_map fst launched;
                        desktop_shell := desktop_shell c;
                        deathcount := deathcount c;
                        deathstamp := deathstamp c |}) ;;;
  match launched with
  | None => ret (-1)
  | Some _ => ret 0
  end.

(** [time] is what [weston_compositor_get_time()] returns during the call
    (milliseconds, [uint32_t]); [deathcount] is an [unsigned]. *)
Definition desktop_shell_sigchld (time : Z) (launched : option (nat * Z))
  : M wl_shell unit :=
  on_child (fun c => {| child_pid := 0;
                        child_client := None; (* already destroyed by wayland *)
                        desktop_shell := desktop_shell c;
                        deathcount := deathcount c;
                        deathstamp := deathstamp c |}) ;;;
  (* if desktop-shell dies more than 5 times in 30 seconds, give up *)
  s <- get ;;
  (if wrap_uint32 (time - deathstamp (child s)) >? 30000 then
     on_child (fun c => {| child_pid := child_pid c;
                           child_client := child_client c;
                           desktop_shell := desktop_shell c;
                           deathcount := 0;
                           deathstamp := time |})
   else ret tt) ;;;
  on_child (fun c => {| child_pid := child_pid c;
                        child_client := child_client c;
                        desktop_shell := desktop_shell c;
                        deathcount := wrap_uint32 (deathcount c + 1);
                        deathstamp := deathstamp c |}) ;;;
  s <- get ;;
  if deathcount (child s) >? 5 then
    call (log_stderr "weston-desktop-shell died, giving up.")
  else
    call (log_stderr "weston-desktop-shell died, respawning...") ;;;
    _ <- launch_desktop_shell_process launched ;;
    ret tt.

(** One helper death after the other; each event carries the time of the
    death and what a relaunch would produce. *)
Fixpoint helper_deaths (events : list (Z * option (nat * Z))) : M wl_shell unit :=
  match events with
  | [] => ret tt
  | (time, launched) :: rest =>
      desktop_shell_sigchld time launched ;;; helper_deaths rest
  end.

(** How often the helper has been launched according to a trace. *)
Definition helper_launches (t : list effect) : nat :=
  List.length (filter (fun e => match e with
                           | weston_client_launch p => String.eqb p shell_exe
                           | _ => false
                           end) t).

(** The shell right after [memset(shell, 0, sizeof *shell)] and
    [shell->compositor = ec]. *)
Definition shell_zero (ec : weston_compositor) : wl_shell :=
  {| compositor := ec;
     child := {| child_pid := 0; child_client := None; desktop_shell := None;
                 deathcount := 0; deathstamp := 0 |};
     locked := false;
     prepare_event_sent := false;
     lock_surface := None;
     screensaver := {| ss_path := None; ss_duration := 0; ss_binding := None;
                       ss_surfaces := []; ss_pid := 0 |};
     shell_trace := [] |}.

(** Modelled from the spec: [weston_layer_init(&layer, below)] is the
    compositor's "layer init" primitive (compositor.c, not part of src/);
    it empties the layer's surface list and inserts the layer's link
    after [below] in the global order. *)
Definition weston_layer_init (l below : layer) : M wl_shell unit :=
  wl_list_insert below l.

(** [shell_init] from the point where the shell is allocated. [path] and
    [duration] are what [shell_configuration] reads from the config file,
    [globals_ok] says whether the three [wl_display_add_global] calls
    succeed, [now] is the current time. Returns the C function's [int]. *)
Definition shell_init (path : option string) (duration : Z) (globals_ok : bool)
  (now : Z) (launched : option (nat * Z)) : M wl_shell Z :=
  weston_layer_init fullscreen_layer cursor_layer ;;;
  weston_layer_init panel_layer fullscreen_layer ;;;
  weston_layer_init toplevel_layer panel_layer ;;;
  weston_layer_init background_layer toplevel_layer ;;;
  on_screensaver (fun r => {| ss_path := path; ss_duration := duration;
                              ss_binding := ss_binding r;
                              ss_surfaces := ss_surfaces r;
                              ss_pid := ss_pid r |}) ;;;
  if negb globals_ok then ret (-1)
  else
    on_child (fun c => {| child_pid := child_pid c;
                          child_client := child_client c;
                          desktop_shell := desktop_shell c;
                          deathcount := deathcount c;
                          deathstamp := now |}) ;;;
    r <- launch_desktop_shell_process launched ;;
    if negb (r =? 0) then ret (-1) else ret 0.

(** Modelled from the spec: the compositor's own layer order when it
    loads the shell, the fade layer above the cursor layer (set up by
    [weston_compositor_init] in compositor.c, not part of src/; the spec
    names the cursor layer and the fade layer). *)
Definition compositor_layers : list layer := [fade_layer; cursor_layer].

(** The layer order that [shell_init] builds. *)
Definition initial_layer_order : list layer :=
  [fade_layer; cursor_layer; fullscreen_layer; panel_layer; toplevel_layer;
   background_layer].

(** ** The shell as a transition system *)

(** The entry points that write [struct wl_shell] or the layer order. *)
Inductive shell_op : Type :=
| op_lock (launched_pid now : Z)
| op_unlock
| op_desktop_shell_unlock
| op_desktop_shell_set_lock_surface (surface : nat) (reset_result : Z)
| op_handle_lock_surface_destroy
| op_screensaver_set_surface (surface : nat) (reset_result : Z)
| op_bind_desktop_shell (client resource : nat)
| op_unbind_desktop_shell
| op_bind_screensaver (client resource : nat)
| op_unbind_screensaver
| op_desktop_shell_sigchld (time : Z) (launched : option (nat * Z))
| op_handle_screensaver_sigchld.

Definition run_op (o : shell_op) : M wl_shell unit :=
  match o with
  | op_lock pid now => lock pid now
  | op_unlock => unlock
  | op_desktop_shell_unlock => desktop_shell_unlock
  | op_desktop_shell_set_lock_surface s r => desktop_shell_set_lock_surface s r
  | op_handle_lock_surface_destroy => handle_lock_surface_destroy
  | op_screensaver_set_surface s r => screensaver_set_surface s r
  | op_bind_desktop_shell c r => bind_desktop_shell c r
  | op_unbind_desktop_shell => unbind_desktop_shell
  | op_bind_screensaver c r => bind_screensaver c r
  | op_unbind_screensaver => unbind_screensaver
  | op_desktop_shell_sigchld t l => desktop_shell_sigchld t l
  | op_handle_screensaver_sigchld => handle_screensaver_sigchld
  end.

(** The states the shell can be in: what [shell_init] builds on a freshly
    initialised compositor, closed under the entry points above and under
    [reach_frame], which stands for every other entry point of the file
    (surface requests, grabs, key bindings, the map and configure hooks)
    and for the compositor's own activity: none of them writes
    [shell->locked] or moves a layer link. *)
Inductive reachable : wl_shell -> Prop :=
| reach_init : forall ec path duration globals_ok now launched r s,
    layer_list ec = compositor_layers ->
    shell_init path duration globals_ok now launched (shell_zero ec)
      = Done (r, s) ->
    reachable s
| reach_op : forall s o s',
    reachable s -> run_op o s = Done (tt, s') -> reachable s'
| reach_frame : forall s s',
    reachable s ->
    locked s' = locked s ->
    layer_list (compositor s') = layer_list (compositor s) ->
    reachable s'.

(** Integer coordinates: the instance used to run the role machine on
    concrete surfaces. *)
#[export] Instance Z_coord : geometry_coord :=
  {| coord := Z; coord_of_int := fun z => z; int_of_coord := fun z => z;
     coord_add := Z.add |}.

(* ================================================================== *)
(** * Part II. Properties *)
(* ================================================================== *)

Ltac unfold_M :=
  unfold bind, ret, get, modify, fault, deref in *.

(** ** Role state machine *)

Section RoleFacts.

Context {G : geometry_coord}.

Definition refuses (t : shell_surface_type) : bool :=
  match t with
  | SHELL_SURFACE_LOCK | SHELL_SURFACE_SCREENSAVER => true
  | _ => false
  end.

Definition with_trace (w : role_world) (t : list effect) : role_world :=
  {| shsurf := shsurf w; es := es w; output_list := output_list w;
     panels := panels w; trace := t |}.

Definition with_shsurf (w : role_world) (s : shell_surface) : role_world :=
  {| shsurf := s; es := es w; output_list := output_list w;
     panels := panels w; trace := trace w |}.

Definition reassign_error (w : role_world) : effect :=
  wl_resource_post_error (resource (shsurf w)) WL_DISPLAY_ERROR_INVALID_METHOD
    "cannot reassign surface type".

(** The reset refuses the lock and screensaver roles: it posts the error,
    returns -1 and changes nothing else. *)
Lemma reset_refuses_lock_screensaver (w : role_world) :
  refuses (type (shsurf w)) = true ->
  reset_shell_surface_type w
  = Done (-1, with_trace w (trace w ++ [reassign_error w])).
Proof.
  intro H. unfold reset_shell_surface_type, emit, reassign_error, with_trace.
  unfold_M. destruct (type (shsurf w)); simpl in H; try discriminate; reflexivity.
Qed.

(** For every other role the reset does not post an error, and when it
    returns it has cleared the role. *)
Lemma reset_clears_other_roles (w : role_world) (r : Z) (w' : role_world) :
  refuses (type (shsurf w)) = false ->
  reset_shell_surface_type w = Done (r, w') ->
  r = 0 /\ type (shsurf w') = SHELL_SURFACE_NONE.
Proof.
  intros H. unfold reset_shell_surface_type, shell_unset_fullscreen,
    weston_surface_destroy, weston_surface_set_position, set_force_configure,
    on_shsurf, on_es, emit.
  unfold_M.
  destruct (type (shsurf w)); simpl in H; try discriminate; simpl;
    try (intro E; inversion E; subst; split; reflexivity).
  destruct (black_surface (shsurf w)); simpl; intro E;
    [inversion E; subst; split; reflexivity | discriminate].
Qed.

(** Four of the five public role requests start with the reset, so on a
    lock or screensaver surface they post the error and leave the role
    (and the saved position) as they were. [set_maximized] and
    [set_fullscreen] have already written [shsurf->output] by then. *)
Lemma reset_guarded_requests_refused (now : Z) (rq : role_request) (w : role_world) :
  refuses (type (shsurf w)) = true ->
  (forall i t p x y fl, rq <> req_set_popup i t p x y fl) ->
  exists w',
    dispatch now rq w = Done (tt, w') /\
    type (shsurf w') = type (shsurf w) /\
    trace w' = trace w ++ [reassign_error w].
Proof.
  intros H Hrq.
  destruct rq as [ | pes x y fl | m f o | i t p x y fl | o ]; simpl.
  - unfold shell_surface_set_toplevel. unfold bind at 1.
    rewrite (reset_refuses_lock_screensaver w H). simpl.
    eexists; split; [reflexivity | split; reflexivity].
  - unfold shell_surface_set_transient. unfold bind at 1.
    rewrite (reset_refuses_lock_screensaver w H). simpl.
    eexists; split; [reflexivity | split; reflexivity].
  - unfold shell_surface_set_fullscreen, on_shsurf. unfold_M.
    set (w1 := {| shsurf := _; es := es w; output_list := output_list w;
                  panels := panels w; trace := trace w |}).
    assert (H1 : refuses (type (shsurf w1)) = true) by exact H.
    rewrite (reset_refuses_lock_screensaver w1 H1). simpl.
    eexists; split; [reflexivity | split; reflexivity].
  - exfalso. exact (Hrq i t p x y fl eq_refl).
  - unfold shell_surface_set_maximized, on_shsurf. unfold_M.
    set (w1 := {| shsurf := _; es := es w; output_list := output_list w;
                  panels := panels w; trace := trace w |}).
    assert (H1 : refuses (type (shsurf w1)) = true) by exact H.
    rewrite (reset_refuses_lock_screensaver w1 H1). simpl.
    eexists; split; [reflexivity | split; reflexivity].
Qed.

(** C1 (the code departs from the claim). [shell_surface_set_popup] does
    not call the reset: whatever the current role is, the lock and
    screensaver roles included, it assigns the popup role, records parent
    and anchor, and posts no error. *)
Theorem set_popup_skips_reset (i t : Z) (p : nat) (x y fl : Z) (w : role_world) :
  exists w',
    shell_surface_set_popup i t p x y fl w = Done (tt, w') /\
    type (shsurf w') = SHELL_SURFACE_POPUP /\
    parent (shsurf w') = Some p /\
    trace w' = trace w.
Proof.
  unfold shell_surface_set_popup, on_shsurf. unfold_M. simpl.
  eexists; split; [reflexivity | repeat split].
Qed.

End RoleFacts.

(** A lock surface that receives [set_popup]: the role becomes popup and
    the trace stays empty, where [set_toplevel] on the same surface is
    refused. *)
Definition lock_surface_world : role_world :=
  {| shsurf := set_type SHELL_SURFACE_LOCK (new_shell_surface 7);
     es := {| geometry_x := 0; geometry_y := 0;
              geometry_width := 300; geometry_height := 200;
              es_output := None; force_configure := 0 |};
     output_list := [{| output_id := 0%nat; output_x := 0; output_y := 0;
                        current := {| mode_width := 1920;
                                      mode_height := 1080 |} |}];
     panels := [];
     trace := [] |}.

Example set_popup_on_lock_surface :
  exec (shell_surface_set_popup 1 0 3%nat 10 20 0) lock_surface_world
  = Some (with_shsurf lock_surface_world
            (set_popup_xy 10 20
               (set_parent (Some 3%nat)
                  (set_type SHELL_SURFACE_POPUP (shsurf lock_surface_world))))).
Proof. reflexivity. Qed.

Example set_toplevel_on_lock_surface :
  exec shell_surface_set_toplevel lock_surface_world
  = Some (with_trace lock_surface_world
            [wl_resource_post_error 7 WL_DISPLAY_ERROR_INVALID_METHOD
               "cannot reassign surface type"]).
Proof. reflexivity. Qed.

(** ** Leaving fullscreen *)

Section FullscreenFacts.

Context {G : geometry_coord}.

(** The sequence of the law: [set_toplevel; set_fullscreen; set_toplevel],
    with nothing in between (no map, no configure). *)
Definition fullscreen_cycle (method framerate : Z)
  (output_resource : option weston_output) (now : Z) : M role_world unit :=
  shell_surface_set_toplevel ;;;
  shell_surface_set_fullscreen method framerate output_resource now ;;;
  shell_surface_set_toplevel.

(** [set_fullscreen] records the position at entry and allocates no
    backdrop: the backdrop is created by the configure and map hooks. *)
Lemma set_fullscreen_saves_position (m f : Z) (o : option weston_output)
  (now : Z) (w w' : role_world) :
  shell_surface_set_fullscreen m f o now w = Done (tt, w') ->
  refuses (type (shsurf w)) = false ->
  type (shsurf w) <> SHELL_SURFACE_FULLSCREEN ->
  type (shsurf w') = SHELL_SURFACE_FULLSCREEN /\
  saved_position_valid (shsurf w') = true /\
  black_surface (shsurf w') = black_surface (shsurf w) /\
  (type (shsurf w) <> SHELL_SURFACE_MAXIMIZED ->
   saved_x (shsurf w') = int_of_coord (geometry_x (es w)) /\
   saved_y (shsurf w') = int_of_coord (geometry_y (es w))).
Proof.
  unfold shell_surface_set_fullscreen, reset_shell_surface_type,
    weston_surface_set_position, set_force_configure, on_shsurf, on_es, emit.
  unfold_M. intros E Href Hfs. cbn in E.
  destruct (type (shsurf w)) eqn:T; cbn in *; try discriminate; try congruence.
  all: destruct o as [o|]; cbn in E.
  all: destruct (es_output (es w)); cbn in E.
  all: unfold get_default_output in E.
  all: try match type of E with
           | context [hd_error (output_list ?x)] =>
               destruct (hd_error (output_list x)); cbn in E
           end.
  all: try discriminate; inversion E; subst; cbn.
  all: repeat split; try reflexivity; intros; congruence.
Qed.

(** Leaving fullscreen with a backdrop in place: the backdrop is
    destroyed, none stays allocated, and the surface is put back at the
    saved position. *)
Lemma leaving_fullscreen_restores (w : role_world) (b : nat) :
  type (shsurf w) = SHELL_SURFACE_FULLSCREEN ->
  black_surface (shsurf w) = Some b ->
  exists w',
    shell_surface_set_toplevel w = Done (tt, w') /\
    type (shsurf w') = SHELL_SURFACE_TOPLEVEL /\
    black_surface (shsurf w') = None /\
    geometry_x (es w') = coord_of_int (saved_x (shsurf w)) /\
    geometry_y (es w') = coord_of_int (saved_y (shsurf w)) /\
    trace w' = trace w ++ [weston_surface_destroyed b].
Proof.
  intros T B.
  unfold shell_surface_set_toplevel, reset_shell_surface_type,
    shell_unset_fullscreen, weston_surface_destroy,
    weston_surface_set_position, set_force_configure, on_shsurf, on_es, emit.
  unfold_M. rewrite T. simpl. rewrite B. simpl.
  eexists; split; [reflexivity | repeat split].
Qed.

(** Leaving fullscreen before any backdrop was allocated:
    [shell_unset_fullscreen] hands [NULL] to [weston_surface_destroy].
    ([destroy_shell_surface] tests the pointer before the same call.) *)
Lemma leaving_fullscreen_without_backdrop (w : role_world) :
  type (shsurf w) = SHELL_SURFACE_FULLSCREEN ->
  black_surface (shsurf w) = None ->
  shell_surface_set_toplevel w = Fault "weston_surface_destroy(NULL)".
Proof.
  intros T B.
  unfold shell_surface_set_toplevel, reset_shell_surface_type,
    shell_unset_fullscreen, weston_surface_destroy, on_shsurf.
  unfold_M. rewrite T. simpl. rewrite B. reflexivity.
Qed.

End FullscreenFacts.

(** A surface right after [get_shell_surface], at position (100, 200), on
    a compositor with one 1920x1080 output. *)
Definition fresh_surface_world : role_world :=
  {| shsurf := new_shell_surface 7;
     es := {| geometry_x := 100; geometry_y := 200;
              geometry_width := 300; geometry_height := 200;
              es_output := None; force_configure := 0 |};
     output_list := [{| output_id := 0%nat; output_x := 0; output_y := 0;
                        current := {| mode_width := 1920;
                                      mode_height := 1080 |} |}];
     panels := [];
     trace := [] |}.

(** C6 (the code departs from the claim). On every shell-surface that has
    no backdrop yet and whose role can be reset, on a compositor that can
    name an output, the sequence [set_toplevel; set_fullscreen;
    set_toplevel] does not come back with the position restored:
    [set_fullscreen] allocates no backdrop, so the fullscreen role is left
    with [fullscreen.black_surface == NULL] and the unguarded
    [weston_surface_destroy] faults. *)
Theorem fullscreen_cycle_without_backdrop_faults {G : geometry_coord}
  (method framerate : Z) (output_resource : option weston_output) (now : Z)
  (w : role_world) :
  black_surface (shsurf w) = None ->
  refuses (type (shsurf w)) = false ->
  output_resource <> None \/ output_list w <> [] ->
  fullscreen_cycle method framerate output_resource now w
  = Fault "weston_surface_destroy(NULL)".
Proof.
  intros B Href Hout.
  unfold fullscreen_cycle, shell_surface_set_toplevel,
    shell_surface_set_fullscreen, reset_shell_surface_type,
    shell_unset_fullscreen, weston_surface_destroy,
    weston_surface_set_position, set_force_configure, on_shsurf, on_es, emit,
    get_default_output.
  unfold_M.
  destruct w as [sh e ol ps tr]. cbn in B, Href, Hout |- *.
  destruct (type sh) eqn:T; cbn in Href; try discriminate; cbn;
    rewrite ?B; cbn; try reflexivity.
  all: destruct output_resource as [o|]; cbn;
    [| destruct ol as [| o rest]; cbn;
       [destruct Hout as [X | X]; exfalso; apply X; reflexivity |]].
  all: destruct (es_output e); cbn; rewrite ?B; reflexivity.
Qed.

Lemma fullscreen_cycle_without_backdrop_faults_witness :
  fullscreen_cycle 0 0 None 5 fresh_surface_world
  = Fault "weston_surface_destroy(NULL)".
Proof.
  apply fullscreen_cycle_without_backdrop_faults;
    [reflexivity | reflexivity | right; simpl; discriminate].
Defined.

(** The same sequence once the configure hook has allocated backdrop 42
    after [set_fullscreen]: the position of entry comes back and the
    backdrop is destroyed. *)
Example fullscreen_cycle_with_backdrop :
  exec (shell_surface_set_toplevel ;;;
        shell_surface_set_fullscreen 0 0 None 5 ;;;
        on_shsurf (set_black_surface (Some 42%nat)) ;;;
        weston_surface_set_position 810 440 ;;;
        shell_surface_set_toplevel) fresh_surface_world
  = Some {| shsurf :=
              set_saved 100 200 true
                (set_output (hd_error (output_list fresh_surface_world))
                   (set_type SHELL_SURFACE_TOPLEVEL (new_shell_surface 7)));
            es := {| geometry_x := 100; geometry_y := 200;
                     geometry_width := 300; geometry_height := 200;
                     es_output := None; force_configure := 1 |};
            output_list := output_list fresh_surface_world;
            panels := [];
            trace := [wl_shell_surface_send_configure 7 5 0 1920 1080;
                      weston_surface_destroyed 42] |}.
Proof. reflexivity. Qed.

(** ** Resize *)

Lemma wrap_int32_small (z : Z) : is_int32 z -> wrap_int32 z = z.
Proof.
  unfold is_int32, wrap_int32. intro H.
  rewrite Z.mod_small by lia. lia.
Qed.

Definition rs_with_trace (w : resize_world) (t : list effect) : resize_world :=
  {| device := device w; rs_shsurf := rs_shsurf w; rs_type := rs_type w;
     rs_surface := rs_surface w; rs_width := rs_width w;
     rs_height := rs_height w; rs_trace := t |}.

(** The edge sets that the claim calls invalid, on the bits of [edges]. *)
Definition both_horizontal (e : Z) : bool :=
  has_edge e WL_SHELL_SURFACE_RESIZE_LEFT && has_edge e WL_SHELL_SURFACE_RESIZE_RIGHT.

Definition both_vertical (e : Z) : bool :=
  has_edge e WL_SHELL_SURFACE_RESIZE_TOP && has_edge e WL_SHELL_SURFACE_RESIZE_BOTTOM.

Lemma small_edges_cases (e : Z) :
  0 <= e <= 15 ->
  e = 0 \/ e = 1 \/ e = 2 \/ e = 3 \/ e = 4 \/ e = 5 \/ e = 6 \/ e = 7 \/
  e = 8 \/ e = 9 \/ e = 10 \/ e = 11 \/ e = 12 \/ e = 13 \/ e = 14 \/ e = 15.
Proof. lia. Qed.

(** The test of [weston_surface_resize] is the description of the claim:
    zero, above 15, both horizontal edges or both vertical edges. *)
Lemma edges_test_meaning (e : Z) :
  0 <= e ->
  ((e =? 0) || (e >? 15) || (Z.land e 3 =? 3) || (Z.land e 12 =? 12)) = true
  <-> (e = 0 \/ e > 15 \/ both_horizontal e = true \/ both_vertical e = true).
Proof.
  intro Hpos. destruct (Z_gt_dec e 15) as [Hbig | Hsmall].
  - assert (E : (e >? 15) = true) by (apply Z.gtb_lt; lia).
    rewrite E, orb_true_r. simpl. split; auto.
  - assert (Hr : 0 <= e <= 15) by lia.
    destruct (small_edges_cases Hr) as
      [E|[E|[E|[E|[E|[E|[E|[E|[E|[E|[E|[E|[E|[E|[E|E]]]]]]]]]]]]]]];
      subst e; vm_compute; split; intro H; try reflexivity;
      try discriminate; auto;
      repeat match goal with
             | H : _ \/ _ |- _ => destruct H
             end; try discriminate; try lia.
Qed.

(** C8. A resize whose edges are 0, above 15, contain both left and right
    or both top and bottom, and any resize of a fullscreen surface, is a
    no-op: both [weston_surface_resize] (reached from the pointer chord
    too) and the client request [shell_surface_resize] return with the
    world as it was: the installed grab, the pointer focus and the trace
    (events, errors) are unchanged, whether or not memory is available. *)
Theorem rejected_resize_is_noop (malloc_ok : bool) (time e : Z) (w : resize_world) :
  0 <= e ->
  (rs_type w = SHELL_SURFACE_FULLSCREEN \/
   e = 0 \/ e > 15 \/ both_horizontal e = true \/ both_vertical e = true) ->
  weston_surface_resize malloc_ok time e w = Done (0, w) /\
  shell_surface_resize malloc_ok time e w = Done (tt, w).
Proof.
  intros Hpos H.
  assert (W : weston_surface_resize malloc_ok time e w = Done (0, w)).
  { unfold weston_surface_resize. unfold_M.
    destruct (shell_surface_type_eqb (rs_type w) SHELL_SURFACE_FULLSCREEN) eqn:T;
      [reflexivity|].
    destruct H as [H | H]; [rewrite H in T; discriminate|].
    apply (edges_test_meaning Hpos) in H. rewrite H. reflexivity. }
  split; [exact W|].
  unfold shell_surface_resize. unfold bind at 1. unfold get.
  destruct (shell_surface_type_eqb (rs_type w) SHELL_SURFACE_FULLSCREEN);
    [reflexivity|].
  match goal with |- (if ?c then _ else _) _ = _ => destruct c end;
    [reflexivity|].
  unfold bind. rewrite W. reflexivity.
Qed.

Definition resize_demo_world : resize_world :=
  {| device := {| device_x := 130; device_y := 95; grab_x := 100; grab_y := 100;
                  grab_time := 77; button_count := 1;
                  pointer_focus := Some 4%nat;
                  installed_grab := default_pointer_grab |};
     rs_shsurf := 9%nat; rs_type := SHELL_SURFACE_TOPLEVEL;
     rs_surface := 4%nat; rs_width := 640; rs_height := 480;
     rs_trace := [] |}.

(** Left and right together (12), on a toplevel surface whose request
    passes the time, button and focus checks. *)
Lemma rejected_resize_is_noop_witness :
  weston_surface_resize true 77 12 resize_demo_world = Done (0, resize_demo_world) /\
  shell_surface_resize true 77 12 resize_demo_world = Done (tt, resize_demo_world).
Proof.
  apply rejected_resize_is_noop; [lia | right; right; right; left; reflexivity].
Defined.

(** A valid request on the same world does install the grab. *)
Example accepted_resize_installs_grab :
  exec (shell_surface_resize true 77 9) resize_demo_world
  = Some {| device := {| device_x := 130; device_y := 95;
                         grab_x := 100; grab_y := 100;
                         grab_time := 77; button_count := 1;
                         pointer_focus := None;
                         installed_grab :=
                           resize_grab {| edges := 9; width := 640;
                                          height := 480;
                                          grab_shsurf := 9%nat |} |};
            rs_shsurf := 9%nat; rs_type := SHELL_SURFACE_TOPLEVEL;
            rs_surface := 4%nat; rs_width := 640; rs_height := 480;
            rs_trace := [] |}.
Proof. reflexivity. Qed.

(** Every grab that [weston_surface_resize] installs has one horizontal
    edge at most and one vertical edge at most. *)
Lemma installed_resize_grab_edges (malloc_ok : bool) (time e : Z)
  (w w' : resize_world) (r : Z) (g : weston_resize_grab) :
  0 <= e ->
  weston_surface_resize malloc_ok time e w = Done (r, w') ->
  installed_grab (device w') = resize_grab g ->
  installed_grab (device w) = default_pointer_grab ->
  both_horizontal (edges g) = false /\ both_vertical (edges g) = false.
Proof.
  intros Hpos E Hg Hd. unfold weston_surface_resize in E. unfold_M.
  destruct (shell_surface_type_eqb (rs_type w) SHELL_SURFACE_FULLSCREEN).
  { inversion E; subst. congruence. }
  destruct ((e =? 0) || (e >? 15) || (Z.land e 3 =? 3) || (Z.land e 12 =? 12))
    eqn:T.
  { inversion E; subst. congruence. }
  destruct malloc_ok; simpl in E.
  2:{ inversion E; subst. congruence. }
  unfold wl_input_device_start_pointer_grab, wl_input_device_set_pointer_focus,
    on_device, modify in E. inversion E; subst. simpl in Hg.
  inversion Hg; subst. simpl.
  destruct (both_horizontal e) eqn:Bh; destruct (both_vertical e) eqn:Bv;
    try (split; reflexivity); exfalso;
    assert (X : (e =? 0) || (e >? 15) || (Z.land e 3 =? 3) || (Z.land e 12 =? 12)
                = true) by (apply (edges_test_meaning Hpos); auto);
    congruence.
Qed.

Section ResizeMotionFacts.

Variable weston_surface_from_global : resize_world -> Z -> Z -> Z * Z.

(** C7. On a resize-grab motion the client is sent one configure event
    that carries the grab's edges; with [delta] the surface-local position
    at grab start minus the surface-local current position, its width is
    the initial width plus [delta_x] when the left edge is active, minus
    [delta_x] when the right edge is active and the initial width when
    neither is, and its height likewise with the top and bottom edges
    (sums taken in [int32_t]). The grab is one that
    [weston_surface_resize] installs (see [installed_resize_grab_edges]). *)
Theorem resize_grab_motion_configure (g : weston_resize_grab) (time x y : Z)
  (w : resize_world) :
  both_horizontal (edges g) = false ->
  both_vertical (edges g) = false ->
  let from := weston_surface_from_global w (grab_x (device w)) (grab_y (device w)) in
  let to := weston_surface_from_global w (device_x (device w)) (device_y (device w)) in
  let delta_x := fst from - fst to in
  let delta_y := snd from - snd to in
  exists W H : Z,
    resize_grab_motion weston_surface_from_global g time x y w
    = Done (tt, rs_with_trace w
                  (rs_trace w ++
                   [wl_shell_surface_send_configure (grab_shsurf g) time
                      (edges g) W H])) /\
    (has_edge (edges g) WL_SHELL_SURFACE_RESIZE_LEFT = true ->
     W = wrap_int32 (width g + delta_x)) /\
    (has_edge (edges g) WL_SHELL_SURFACE_RESIZE_RIGHT = true ->
     W = wrap_int32 (width g - delta_x)) /\
    (has_edge (edges g) WL_SHELL_SURFACE_RESIZE_LEFT = false ->
     has_edge (edges g) WL_SHELL_SURFACE_RESIZE_RIGHT = false ->
     W = width g) /\
    (has_edge (edges g) WL_SHELL_SURFACE_RESIZE_TOP = true ->
     H = wrap_int32 (height g + delta_y)) /\
    (has_edge (edges g) WL_SHELL_SURFACE_RESIZE_BOTTOM = true ->
     H = wrap_int32 (height g - delta_y)) /\
    (has_edge (edges g) WL_SHELL_SURFACE_RESIZE_TOP = false ->
     has_edge (edges g) WL_SHELL_SURFACE_RESIZE_BOTTOM = false ->
     H = height g).
Proof.
  intros Bh Bv from to delta_x delta_y.
  unfold resize_grab_motion, rs_emit, rs_with_trace. unfold_M.
  subst delta_x delta_y from to.
  destruct (weston_surface_from_global w (grab_x (device w)) (grab_y (device w)))
    as [from_x from_y].
  destruct (weston_surface_from_global w (device_x (device w)) (device_y (device w)))
    as [to_x to_y].
  simpl fst; simpl snd.
  unfold both_horizontal in Bh. unfold both_vertical in Bv.
  do 2 eexists. split; [reflexivity|].
  destruct (has_edge (edges g) WL_SHELL_SURFACE_RESIZE_LEFT);
    destruct (has_edge (edges g) WL_SHELL_SURFACE_RESIZE_RIGHT);
    destruct (has_edge (edges g) WL_SHELL_SURFACE_RESIZE_TOP);
    destruct (has_edge (edges g) WL_SHELL_SURFACE_RESIZE_BOTTOM);
    simpl in Bh, Bv; try discriminate;
    repeat split; intros; try discriminate; try reflexivity;
    f_equal; lia.
Qed.

End ResizeMotionFacts.

(** An untransformed surface at (40, 60): global to local is a
    translation. *)
Definition from_global_translate (w : resize_world) (x y : Z) : Z * Z :=
  (x - 40, y - 60).

Definition top_right_grab : weston_resize_grab :=
  {| edges := 9; width := 640; height := 480; grab_shsurf := 9%nat |}.

(** Grab started at (100, 100), pointer now at (130, 95), top and right
    edges: 30 wider and 5 higher. *)
Lemma resize_grab_motion_configure_witness :
  exists W H : Z,
    resize_grab_motion from_global_translate top_right_grab 80 130 95
      resize_demo_world
    = Done (tt, rs_with_trace resize_demo_world
                  [wl_shell_surface_send_configure 9 80 9 W H]) /\
    W = 670 /\ H = 485.
Proof.
  destruct (@resize_grab_motion_configure from_global_translate top_right_grab
              80 130 95 resize_demo_world eq_refl eq_refl)
    as (W & H & E & _ & HW & _ & HH & _).
  exists W, H. split; [exact E|].
  split; [rewrite (HW eq_refl) | rewrite (HH eq_refl)]; reflexivity.
Defined.

(** ** Rotate *)

(** The guard [r > 20.0f] of [rotate_grab_motion] on integer offsets. *)
Definition far_from_centre (dx dy : Z) : bool :=
  let fx := float_of_int dx in
  let fy := float_of_int dy in
  fgt (sqrtf (fadd (fmul fx fx) (fmul fy fy))) f20.

Definition offsets : list Z := map (fun n => Z.of_nat n - 20) (seq 0 41).

Lemma offsets_complete (z : Z) : -20 <= z <= 20 -> In z offsets.
Proof.
  intro H. unfold offsets. apply in_map_iff.
  exists (Z.to_nat (z + 20)). split; [lia|].
  apply in_seq. lia.
Qed.

(** The binary32 computation of the guard agrees with the exact distance
    on every offset of at most 20 pixels: checked on all 41 x 41 offsets. *)
Lemma guard_table :
  forallb (fun dx =>
    forallb (fun dy =>
      implb (dx * dx + dy * dy <=? 400) (negb (far_from_centre dx dy)))
      offsets) offsets = true.
Proof. vm_compute. reflexivity. Qed.

Lemma square_sum_bound (a b : Z) : a * a + b * b <= 400 -> -20 <= a <= 20.
Proof.
  intro H. pose proof (Z.square_nonneg b) as Hb.
  destruct (Z_le_gt_dec a 20) as [Hle | Hgt];
    destruct (Z_le_gt_dec (-20) a) as [Hge | Hlt]; try lia;
    assert (21 * 21 <= a * a) by nia; lia.
Qed.

Lemma near_centre_guard (dx dy : Z) :
  dx * dx + dy * dy <= 400 -> far_from_centre dx dy = false.
Proof.
  intro H.
  assert (Hx : -20 <= dx <= 20) by (apply (square_sum_bound dx dy); lia).
  assert (Hy : -20 <= dy <= 20) by (apply (square_sum_bound dy dx); lia).
  pose proof guard_table as T.
  rewrite forallb_forall in T. specialize (T dx (offsets_complete Hx)).
  rewrite forallb_forall in T. specialize (T dy (offsets_complete Hy)).
  apply Z.leb_le in H. rewrite H in T. simpl in T.
  destruct (far_from_centre dx dy); [discriminate | reflexivity].
Qed.

Section RotateFacts.

Variable weston_matrix_multiply : weston_matrix -> weston_matrix -> weston_matrix.
Variable weston_matrix_translate :
  weston_matrix -> GLfloat -> GLfloat -> GLfloat -> weston_matrix.

(** C9, as the code has it. On a rotate-grab motion with the pointer
    within 20 pixels of the stored centre, the rotation transform is taken
    off the surface's transformation list (no rotation is applied), and
    the committed rotation and the grab's rotation are both reset to the
    identity: the surface snaps back to unrotated. *)
Theorem rotate_grab_motion_near_centre (time x y : Z) (w : rotate_world) :
  (pointer_x w - center_x w) * (pointer_x w - center_x w) +
  (pointer_y w - center_y w) * (pointer_y w - center_y w) <= 400 ->
  exists w',
    rotate_grab_motion weston_matrix_multiply weston_matrix_translate time x y w
    = Done (tt, w') /\
    transformation_list w' = remove_rotation_link (transformation_list w) /\
    ~ In rotation_transform (transformation_list w') /\
    rotation_rotation w' = weston_matrix_init /\
    grab_rotation w' = weston_matrix_init /\
    rotation_transform_matrix w' = rotation_transform_matrix w.
Proof.
  intro H.
  assert (Hx : -20 <= pointer_x w - center_x w <= 20)
    by (apply (square_sum_bound _ (pointer_y w - center_y w)); lia).
  assert (Hy : -20 <= pointer_y w - center_y w <= 20)
    by (apply (square_sum_bound _ (pointer_x w - center_x w)); lia).
  pose proof (near_centre_guard _ _ H) as Gd.
  unfold rotate_grab_motion, modify, rotate_distance.
  rewrite !wrap_int32_small by (unfold is_int32; lia).
  unfold far_from_centre in Gd. rewrite Gd.
  eexists. split; [reflexivity|]. simpl.
  repeat split; try reflexivity.
  unfold remove_rotation_link. intro Hin. apply filter_In in Hin.
  destruct Hin as [_ Hin]. discriminate.
Qed.

End RotateFacts.

(** A surface that carries a committed quarter turn, with the rotation
    transform applied; the grab centre is (200, 150). *)
Definition quarter_turn : weston_matrix :=
  set_d 0 f0 (set_d 1 f1 (set_d 4 (fneg f1) (set_d 5 f0 weston_matrix_init))).

Definition rotated_world (px py : Z) : rotate_world :=
  {| pointer_x := px; pointer_y := py;
     surface_width := 400; surface_height := 300;
     geometry_dirty := 0;
     transformation_list := [rotation_transform];
     rotation_transform_matrix := quarter_turn;
     rotation_rotation := quarter_turn;
     grab_rotation := weston_matrix_init;
     center_x := 200; center_y := 150;
     rotate_trace := [] |}.

(** Pointer 12 right and 16 below the centre: exactly 20 pixels away. *)
Lemma rotate_grab_motion_near_centre_witness :
  exists w',
    rotate_grab_motion matrix_multiply matrix_translate 0 212 166
      (rotated_world 212 166) = Done (tt, w') /\
    transformation_list w' = [] /\
    rotation_rotation w' = weston_matrix_init.
Proof.
  destruct (@rotate_grab_motion_near_centre matrix_multiply matrix_translate
              0 212 166 (rotated_world 212 166) ltac:(vm_compute; discriminate))
    as (w' & E & Ht & _ & Hr & _).
  exists w'. split; [exact E|]. split; [rewrite Ht; reflexivity | exact Hr].
Defined.

(** C9 as stated fails: the committed rotation is not left unchanged. The
    surface above had a committed quarter turn; after a motion 20 pixels
    from the centre the committed rotation is the identity. *)
Lemma rotate_near_centre_changes_committed_rotation :
  (212 - 200) * (212 - 200) + (166 - 150) * (166 - 150) <= 400 /\
  exists w',
    rotate_grab_motion matrix_multiply matrix_translate 0 212 166
      (rotated_world 212 166) = Done (tt, w') /\
    rotation_rotation w' <> rotation_rotation (rotated_world 212 166).
Proof.
  split; [lia|].
  eexists. split; [vm_compute; reflexivity|].
  vm_compute. discriminate.
Qed.

(** One pixel further out the rotation transform is applied and the
    committed rotation is kept. *)
Example rotate_far_from_centre_applies_transform :
  option_map (fun w' => (transformation_list w', rotation_rotation w'))
    (exec (rotate_grab_motion matrix_multiply matrix_translate 0 212 167)
          (rotated_world 212 167))
  = Some ([rotation_transform], quarter_turn).
Proof. vm_compute. reflexivity. Qed.

(** ** Lock orchestrator *)

Definition locked_layer_order : list layer :=
  [fade_layer; cursor_layer; lock_layer; background_layer].

Definition with_shell_trace (s : wl_shell) (t : list effect) : wl_shell :=
  {| compositor := compositor s; child := child s; locked := locked s;
     prepare_event_sent := prepare_event_sent s;
     lock_surface := lock_surface s; screensaver := screensaver s;
     shell_trace := t |}.

Lemma bind_done {S A B : Type} (c : M S A) (k : A -> M S B) (s s' : S) (a : A) :
  c s = Done (a, s') -> bind c k s = k a s'.
Proof. intro E. unfold bind. rewrite E. reflexivity. Qed.

Arguments bind_done {S A B c} k {s s' a} _.

(** A loop whose body only makes calls leaves the shell as it was and
    appends the calls, in list order, to the trace. *)
Lemma for_each_calls {A : Type} (body : A -> M wl_shell unit)
  (calls : A -> list effect) (I : wl_shell -> Prop) :
  (forall s t, I s -> I (with_shell_trace s t)) ->
  (forall a s, I s ->
     body a s = Done (tt, with_shell_trace s (shell_trace s ++ calls a))) ->
  forall l s, I s ->
    for_each l body s
    = Done (tt, with_shell_trace s (shell_trace s ++ flat_map calls l)).
Proof.
  intros HI Hbody l. induction l as [| a rest IH]; intros s Hs; simpl.
  - unfold ret, with_shell_trace. rewrite app_nil_r. destruct s; reflexivity.
  - rewrite (bind_done _ (Hbody a s Hs)).
    rewrite IH by (apply HI; exact Hs).
    unfold with_shell_trace; simpl. rewrite <- app_assoc. reflexivity.
Qed.

Definition shown_after (s : wl_shell) : list_head :=
  match lock_surface s with
  | Some l => lock_surface_layer_link l
  | None => lock_layer_surface_list
  end.

Lemma hide_loop (l : list nat) (s : wl_shell) :
  for_each l hide_screensaver s
  = Done (tt, with_shell_trace s
                (shell_trace s ++ flat_map (fun a => [screensaver_hidden a]) l)).
Proof.
  apply (for_each_calls hide_screensaver (fun a => [screensaver_hidden a])
           (fun _ => True)); auto.
Qed.

Lemma show_loop (l : list nat) (s : wl_shell) :
  for_each l show_screensaver s
  = Done (tt, with_shell_trace s
                (shell_trace s ++
                 flat_map (fun a => [screensaver_shown a (shown_after s)]) l)).
Proof.
  apply (for_each_calls show_screensaver
           (fun a => [screensaver_shown a (shown_after s)])
           (fun s' => lock_surface s' = lock_surface s)); auto.
  intros a s' E. unfold show_screensaver, shown_after, call. unfold_M.
  rewrite <- E. reflexivity.
Qed.

Definition dpms_calls (o : nat * bool) : list effect :=
  if snd o then [set_dpms (fst o) WESTON_DPMS_STANDBY] else [].

Lemma dpms_loop (l : list (nat * bool)) (s : wl_shell) :
  for_each l output_standby s
  = Done (tt, with_shell_trace s (shell_trace s ++ flat_map dpms_calls l)).
Proof.
  apply (for_each_calls output_standby dpms_calls (fun _ => True)); auto.
  intros a s' _. unfold output_standby, dpms_calls, call. unfold_M.
  destruct (snd a); [reflexivity|].
  unfold with_shell_trace. rewrite app_nil_r. destruct s'; reflexivity.
Qed.

Lemma keyboard_loop (now : Z) (l : list nat) (s : wl_shell) :
  for_each l (reset_keyboard_focus now) s
  = Done (tt, with_shell_trace s
                (shell_trace s ++
                 flat_map (fun dev => [set_keyboard_focus_null dev now]) l)).
Proof.
  apply (for_each_calls (reset_keyboard_focus now)
           (fun dev => [set_keyboard_focus_null dev now]) (fun _ => True)); auto.
Qed.

(** [resume_desktop] on the locked layer order: the lock layer leaves,
    fullscreen, panel and toplevel come back in that order below the
    cursor, the flag is cleared and the configured idle time restored. *)
Lemma resume_desktop_restores (s : wl_shell) :
  layer_list (compositor s) = locked_layer_order ->
  exists s',
    resume_desktop s = Done (tt, s') /\
    locked s' = false /\
    layer_list (compositor s') = initial_layer_order /\
    idle_time (compositor s') = option_idle_time (compositor s) /\
    child s' = child s /\
    prepare_event_sent s' = prepare_event_sent s /\
    lock_surface s' = lock_surface s /\
    screensaver s' = screensaver s.
Proof.
  intro L.
  destruct s as [[ll it oit st outs devs] ch lk pes ls [sp sd sb sss spid] tr].
  cbn in L. subst ll.
  unfold resume_desktop. unfold bind at 1; unfold get.
  cbn [screensaver ss_surfaces].
  rewrite (bind_done _ (hide_loop _ _)).
  unfold terminate_screensaver, wl_list_remove, wl_list_insert, set_locked,
    compositor_wake, on_compositor, call.
  unfold_M. cbn.
  destruct (spid =? 0); cbn; eexists; (split; [reflexivity | repeat split]).
Qed.

(** [lock] on the unlocked desktop: panel, toplevel and fullscreen leave
    the layer order and the lock layer goes in below the cursor. *)
Lemma lock_hides (launched_pid now : Z) (s : wl_shell) :
  locked s = false ->
  layer_list (compositor s) = initial_layer_order ->
  exists s',
    lock launched_pid now s = Done (tt, s') /\
    locked s' = true /\
    layer_list (compositor s') = locked_layer_order /\
    child s' = child s /\
    prepare_event_sent s' = prepare_event_sent s /\
    lock_surface s' = lock_surface s.
Proof.
  intros K L.
  destruct s as [[ll it oit st outs devs] ch lk pes ls [sp sd sb sss spid] tr].
  cbn in K, L. subst ll lk.
  unfold lock. unfold bind at 1; unfold get. cbn [locked].
  unfold wl_list_remove, wl_list_insert, set_locked, launch_screensaver,
    compositor_wake, on_compositor, on_screensaver, call.
  unfold_M. cbn.
  destruct sb as [b|]; [| destruct sp as [p|]; [destruct (spid =? 0)|]]; cbn;
    rewrite show_loop; cbn;
    (destruct sss as [| x rest]; cbn -[flat_map]);
    rewrite keyboard_loop; cbn -[flat_map];
    eexists; (split; [reflexivity | repeat split]).
Qed.

(** [lock] on a desktop that is locked already: only the outputs are put
    to standby. *)
Lemma lock_again (launched_pid now : Z) (s : wl_shell) :
  locked s = true ->
  lock launched_pid now s
  = Done (tt, with_shell_trace s
                (shell_trace s ++ flat_map dpms_calls (outputs (compositor s)))).
Proof.
  intro K. unfold lock. unfold bind at 1; unfold get. rewrite K.
  apply dpms_loop.
Qed.

(** *** The layer invariant *)

(** The layer order is the unlocked one exactly when the flag is clear and
    the locked one exactly when it is set. *)
Definition layers_ok (s : wl_shell) : Prop :=
  layer_list (compositor s)
  = if locked s then locked_layer_order else initial_layer_order.

Lemma shell_init_layers (ec : weston_compositor) (path : option string)
  (duration : Z) (globals_ok : bool) (now : Z) (launched : option (nat * Z)) :
  layer_list ec = compositor_layers ->
  exists r s,
    shell_init path duration globals_ok now launched (shell_zero ec)
    = Done (r, s) /\
    locked s = false /\
    layer_list (compositor s) = initial_layer_order.
Proof.
  intro L. destruct ec as [ll it oit st outs devs]. cbn in L. subst ll.
  unfold shell_init, weston_layer_init, wl_list_insert,
    launch_desktop_shell_process, on_compositor, on_screensaver, on_child, call.
  unfold_M. cbn.
  destruct globals_ok; cbn; [destruct launched as [[c p]|]; cbn |];
    do 2 eexists; (split; [reflexivity | split; reflexivity]).
Qed.

(** Every entry point runs to completion on a state that satisfies the
    invariant, and keeps it. *)
Lemma run_op_layers_ok (o : shell_op) (s : wl_shell) :
  layers_ok s ->
  exists s', run_op o s = Done (tt, s') /\ layers_ok s'.
Proof.
  unfold layers_ok. intro Inv.
  assert (Hresume : locked s = true ->
            exists s', resume_desktop s = Done (tt, s') /\
                       locked s' = false /\
                       layer_list (compositor s') = initial_layer_order /\
                       child s' = child s).
  { intro K. rewrite K in Inv.
    destruct (resume_desktop_restores s Inv) as (s' & E & A & B & _ & C & _).
    exists s'. auto. }
  destruct o; simpl.
  - (* lock *)
    destruct (locked s) eqn:K.
    + rewrite (lock_again _ _ s K). eexists. split; [reflexivity|].
      simpl. try rewrite K; exact Inv.
    + destruct (lock_hides launched_pid now s K Inv) as (s' & E & A & B & _).
      exists s'. split; [exact E|]. rewrite A. exact B.
  - (* unlock *)
    unfold unlock. unfold bind at 1; unfold get.
    destruct (locked s) eqn:K; simpl.
    + destruct (lock_surface s); simpl.
      * unfold compositor_wake, call, on_compositor. unfold_M.
        eexists. split; [reflexivity|]. simpl. try rewrite K; exact Inv.
      * destruct (desktop_shell (child s)).
        -- destruct (prepare_event_sent s).
           ++ eexists. split; [reflexivity|]. try rewrite K; exact Inv.
           ++ unfold call, set_prepare_event_sent. unfold_M.
              eexists. split; [reflexivity|]. simpl. try rewrite K; exact Inv.
        -- destruct (Hresume eq_refl) as (s' & E & A & B & _).
           exists s'. split; [exact E|]. rewrite A. exact B.
    + unfold compositor_wake, call, on_compositor. unfold_M.
      eexists. split; [reflexivity|]. simpl. try rewrite K; exact Inv.
  - (* desktop_shell_unlock *)
    unfold desktop_shell_unlock, set_prepare_event_sent. unfold_M. simpl.
    destruct (locked s) eqn:K.
    + match goal with
      | |- exists s', resume_desktop ?x = _ /\ _ =>
          destruct (resume_desktop_restores x Inv) as (s' & E & A & B & _)
      end.
      exists s'. split; [exact E|]. rewrite A. exact B.
    + eexists. split; [reflexivity|]. simpl. try rewrite K; exact Inv.
  - (* desktop_shell_set_lock_surface *)
    unfold desktop_shell_set_lock_surface, set_prepare_event_sent,
      set_lock_surface. unfold_M.
    destruct (negb (reset_result =? 0)); simpl;
      [eexists; split; [reflexivity | exact Inv]|].
    destruct (locked s) eqn:K; simpl;
      eexists; (split; [reflexivity|]); simpl; try rewrite K; exact Inv.
  - (* handle_lock_surface_destroy *)
    unfold handle_lock_surface_destroy, call, set_lock_surface. unfold_M.
    eexists. split; [reflexivity | exact Inv].
  - (* screensaver_set_surface *)
    unfold screensaver_set_surface, on_screensaver. unfold_M.
    destruct (negb (reset_result =? 0));
      eexists; (split; [reflexivity | exact Inv]).
  - (* bind_desktop_shell *)
    unfold bind_desktop_shell, on_child, call. unfold_M.
    match goal with |- context [if ?c then _ else _] => destruct c end;
      eexists; (split; [reflexivity | exact Inv]).
  - (* unbind_desktop_shell *)
    unfold unbind_desktop_shell. unfold bind at 1; unfold get.
    destruct (locked s) eqn:K.
    + destruct (Hresume eq_refl) as (s' & E & A & B & _).
      rewrite (bind_done _ E). unfold on_child, set_prepare_event_sent.
      unfold_M. eexists. split; [reflexivity|]. simpl. rewrite A. exact B.
    + unfold on_child, set_prepare_event_sent. unfold_M.
      eexists. split; [reflexivity|]. simpl. try rewrite K; exact Inv.
  - (* bind_screensaver *)
    unfold bind_screensaver, on_screensaver, call. unfold_M.
    destruct (ss_binding (screensaver s));
      eexists; (split; [reflexivity | exact Inv]).
  - (* unbind_screensaver *)
    unfold unbind_screensaver, on_screensaver. unfold_M.
    eexists. split; [reflexivity | exact Inv].
  - (* desktop_shell_sigchld *)
    unfold desktop_shell_sigchld, launch_desktop_shell_process, on_child, call.
    unfold_M. simpl.
    destruct (wrap_uint32 (time - deathstamp (child s)) >? 30000); simpl;
      match goal with |- context [if ?c then _ else _] => destruct c end;
      simpl; try (destruct launched as [[c p]|]);
      eexists; (split; [reflexivity | exact Inv]).
  - (* handle_screensaver_sigchld *)
    unfold handle_screensaver_sigchld, on_screensaver. unfold_M.
    eexists. split; [reflexivity | exact Inv].
Qed.

Lemma reachable_layers_ok (s : wl_shell) : reachable s -> layers_ok s.
Proof.
  induction 1 as [ec path duration ok now launched r s L E
                 | s o s' _ IH E
                 | s s' _ IH K L].
  - destruct (shell_init_layers ec path duration ok now launched L)
      as (r' & s1 & E1 & A & B).
    rewrite E in E1. inversion E1; subst. unfold layers_ok. rewrite A. exact B.
  - destruct (run_op_layers_ok o IH) as (s1 & E1 & Inv).
    rewrite E in E1. inversion E1; subst. exact Inv.
  - unfold layers_ok in *. rewrite K, L. exact IH.
Qed.

(** *** Claims on locking *)

Lemma desktop_shell_unlock_resumes (s : wl_shell) :
  locked s = true ->
  layer_list (compositor s) = locked_layer_order ->
  exists s',
    desktop_shell_unlock s = Done (tt, s') /\
    locked s' = false /\
    layer_list (compositor s') = initial_layer_order /\
    prepare_event_sent s' = false.
Proof.
  intros K L. unfold desktop_shell_unlock, set_prepare_event_sent.
  unfold_M. simpl. rewrite K.
  match goal with
  | |- exists s', resume_desktop ?x = _ /\ _ =>
      destruct (resume_desktop_restores x L) as (s' & E & A & B & _ & _ & C & _)
  end.
  exists s'. auto.
Qed.

(** C2. From a reachable state whose layer order is the initial one,
    [lock()] followed by the helper's [unlock] request runs to completion
    and leaves the global layer list exactly as it was; in between the
    desktop is locked and the layers are hidden. *)
Theorem lock_then_helper_unlock_restores_layers (launched_pid now : Z)
  (s : wl_shell) :
  reachable s ->
  layer_list (compositor s) = initial_layer_order ->
  exists s1 s2,
    lock launched_pid now s = Done (tt, s1) /\
    layer_list (compositor s1) = locked_layer_order /\
    desktop_shell_unlock s1 = Done (tt, s2) /\
    layer_list (compositor s2) = layer_list (compositor s) /\
    locked s2 = false.
Proof.
  intros R L. pose proof (reachable_layers_ok R) as Inv.
  unfold layers_ok in Inv.
  assert (K : locked s = false).
  { destruct (locked s); [|reflexivity]. rewrite L in Inv. discriminate. }
  destruct (lock_hides launched_pid now s K L) as (s1 & E1 & K1 & L1 & _).
  destruct (desktop_shell_unlock_resumes s1 K1 L1) as (s2 & E2 & K2 & L2 & _).
  exists s1, s2. rewrite L. auto.
Qed.

(** C3. In every reachable state with the locked flag set, the global
    layer list contains neither the panel layer, nor the toplevel layer,
    nor the fullscreen layer, and it contains the lock layer. *)
Theorem locked_layers_hidden (s : wl_shell) :
  reachable s ->
  locked s = true ->
  ~ In panel_layer (layer_list (compositor s)) /\
  ~ In toplevel_layer (layer_list (compositor s)) /\
  ~ In fullscreen_layer (layer_list (compositor s)) /\
  In lock_layer (layer_list (compositor s)).
Proof.
  intros R K. pose proof (reachable_layers_ok R) as Inv.
  unfold layers_ok in Inv. rewrite K in Inv. rewrite Inv.
  unfold locked_layer_order. simpl.
  repeat split; try (intros [H | [H | [H | [H | []]]]]; discriminate).
  right; right; left; reflexivity.
Qed.

(** C10. When the helper's desktop_shell resource is destroyed while the
    shell is locked, the destroy hook resumes the desktop at once: it runs
    to completion, the layer order is the unlocked one again (fullscreen,
    panel and toplevel are back), the locked flag and the
    [prepare_event_sent] flag are clear and the binding is forgotten. *)
Theorem unbind_while_locked_resumes (s : wl_shell) :
  reachable s ->
  locked s = true ->
  exists s',
    unbind_desktop_shell s = Done (tt, s') /\
    locked s' = false /\
    layer_list (compositor s') = initial_layer_order /\
    prepare_event_sent s' = false /\
    desktop_shell (child s') = None /\
    idle_time (compositor s') = option_idle_time (compositor s).
Proof.
  intros R K. pose proof (reachable_layers_ok R) as Inv.
  unfold layers_ok in Inv. rewrite K in Inv.
  destruct (resume_desktop_restores s Inv) as (s1 & E & A & B & C & _).
  unfold unbind_desktop_shell. unfold bind at 1; unfold get. rewrite K.
  rewrite (bind_done _ E). unfold on_child, set_prepare_event_sent. unfold_M.
  eexists. split; [reflexivity|]. simpl. auto.
Qed.

(** A compositor with one DPMS-capable output and one input device, the
    shell that [shell_init] builds on it, and that shell after [lock()]. *)
Definition demo_compositor : weston_compositor :=
  {| layer_list := compositor_layers; idle_time := 300;
     option_idle_time := 300; state := WESTON_COMPOSITOR_ACTIVE;
     outputs := [(0%nat, true)]; input_device_list := [0%nat] |}.

Definition demo_shell : wl_shell :=
  {| compositor := set_layer_list initial_layer_order demo_compositor;
     child := {| child_pid := 4242; child_client := Some 1%nat;
                 desktop_shell := None; deathcount := 0; deathstamp := 1000 |};
     locked := false; prepare_event_sent := false; lock_surface := None;
     screensaver := {| ss_path := None; ss_duration := 60; ss_binding := None;
                       ss_surfaces := []; ss_pid := 0 |};
     shell_trace := [weston_client_launch shell_exe] |}.

Definition demo_locked_shell : wl_shell :=
  {| compositor := set_layer_list locked_layer_order demo_compositor;
     child := child demo_shell;
     locked := true; prepare_event_sent := false; lock_surface := None;
     screensaver := screensaver demo_shell;
     shell_trace := [weston_client_launch shell_exe; weston_compositor_repick;
                     set_keyboard_focus_null 0 2000] |}.

Lemma demo_shell_reachable : reachable demo_shell.
Proof.
  apply reach_init with (ec := demo_compositor) (path := None) (duration := 60)
    (globals_ok := true) (now := 1000) (launched := Some (1%nat, 4242)) (r := 0);
    reflexivity.
Defined.

Lemma demo_locked_shell_reachable : reachable demo_locked_shell.
Proof.
  apply reach_op with (s := demo_shell) (o := op_lock 0 2000);
    [exact demo_shell_reachable | reflexivity].
Defined.

Lemma lock_then_helper_unlock_restores_layers_witness :
  exists s1 s2,
    lock 0 2000 demo_shell = Done (tt, s1) /\
    layer_list (compositor s1) = locked_layer_order /\
    desktop_shell_unlock s1 = Done (tt, s2) /\
    layer_list (compositor s2) = layer_list (compositor demo_shell) /\
    locked s2 = false.
Proof.
  apply lock_then_helper_unlock_restores_layers;
    [exact demo_shell_reachable | reflexivity].
Defined.

Lemma locked_layers_hidden_witness :
  ~ In panel_layer (layer_list (compositor demo_locked_shell)) /\
  ~ In toplevel_layer (layer_list (compositor demo_locked_shell)) /\
  ~ In fullscreen_layer (layer_list (compositor demo_locked_shell)) /\
  In lock_layer (layer_list (compositor demo_locked_shell)).
Proof.
  apply locked_layers_hidden;
    [exact demo_locked_shell_reachable | reflexivity].
Defined.

Lemma unbind_while_locked_resumes_witness :
  exists s',
    unbind_desktop_shell demo_locked_shell = Done (tt, s') /\
    locked s' = false /\
    layer_list (compositor s') = initial_layer_order /\
    prepare_event_sent s' = false /\
    desktop_shell (child s') = None /\
    idle_time (compositor s') = option_idle_time (compositor demo_locked_shell).
Proof.
  apply unbind_while_locked_resumes;
    [exact demo_locked_shell_reachable | reflexivity].
Defined.

(** The layer order through one lock/unlock round, computed. *)
Example lock_unlock_layer_orders :
  option_map (fun s => layer_list (compositor s))
    (exec (lock 0 2000) demo_shell)
  = Some [fade_layer; cursor_layer; lock_layer; background_layer] /\
  option_map (fun s => layer_list (compositor s))
    (exec (lock 0 2000 ;;; desktop_shell_unlock) demo_shell)
  = Some [fade_layer; cursor_layer; fullscreen_layer; panel_layer;
          toplevel_layer; background_layer].
Proof. split; reflexivity. Qed.

(** ** The privileged-binding gate *)

Definition is_helper (s : wl_shell) (client : nat) : bool :=
  match child_client (child s) with
  | Some helper => Nat.eqb client helper
  | None => false
  end.

Definition with_desktop_shell (s : wl_shell) (r : option nat) : wl_shell :=
  {| compositor := compositor s;
     child := {| child_pid := child_pid (child s);
                 child_client := child_client (child s);
                 desktop_shell := r;
                 deathcount := deathcount (child s);
                 deathstamp := deathstamp (child s) |};
     locked := locked s; prepare_event_sent := prepare_event_sent s;
     lock_surface := lock_surface s; screensaver := screensaver s;
     shell_trace := shell_trace s |}.

Definition with_ss_binding (s : wl_shell) (r : option nat) : wl_shell :=
  {| compositor := compositor s; child := child s;
     locked := locked s; prepare_event_sent := prepare_event_sent s;
     lock_surface := lock_surface s;
     screensaver := {| ss_path := ss_path (screensaver s);
                       ss_duration := ss_duration (screensaver s);
                       ss_binding := r;
                       ss_surfaces := ss_surfaces (screensaver s);
                       ss_pid := ss_pid (screensaver s) |};
     shell_trace := shell_trace s |}.

(** C4, as the code has it. The desktop_shell gate goes by identity: the
    helper client's bind is recorded and nothing is posted, every other
    client's bind is answered with the error "permission to bind
    desktop_shell denied" and the destruction of the new resource. The
    screensaver gate goes by occupancy: while no screensaver binding is
    held any client's bind is recorded and nothing is posted; while one is
    held any client's bind is answered with the error "interface object
    already bound" and the destruction of the new resource. *)
Theorem binding_gates (client resource : nat) (s : wl_shell) :
  (is_helper s client = true ->
   bind_desktop_shell client resource s
   = Done (tt, with_desktop_shell s (Some resource))) /\
  (is_helper s client = false ->
   bind_desktop_shell client resource s
   = Done (tt, with_shell_trace s
                 (shell_trace s ++
                  [wl_resource_post_error resource
                     WL_DISPLAY_ERROR_INVALID_OBJECT
                     "permission to bind desktop_shell denied";
                   wl_resource_destroy resource]))) /\
  (ss_binding (screensaver s) = None ->
   bind_screensaver client resource s
   = Done (tt, with_ss_binding s (Some resource))) /\
  (ss_binding (screensaver s) <> None ->
   bind_screensaver client resource s
   = Done (tt, with_shell_trace s
                 (shell_trace s ++
                  [wl_resource_post_error resource
                     WL_DISPLAY_ERROR_INVALID_OBJECT
                     "interface object already bound";
                   wl_resource_destroy resource]))).
Proof.
  unfold is_helper, bind_desktop_shell, bind_screensaver, on_child,
    on_screensaver, call, with_desktop_shell, with_ss_binding, with_shell_trace.
  unfold_M. repeat split; intro H.
  - rewrite H. reflexivity.
  - rewrite H. simpl. rewrite <- app_assoc. reflexivity.
  - rewrite H. reflexivity.
  - destruct (ss_binding (screensaver s)); [|congruence].
    simpl. rewrite <- app_assoc. reflexivity.
Qed.

(** Client 1 is the helper of [demo_shell]; client 2 is not. *)
Lemma binding_gates_witness :
  bind_desktop_shell 1 50 demo_shell
  = Done (tt, with_desktop_shell demo_shell (Some 50%nat)) /\
  bind_desktop_shell 2 51 demo_shell
  = Done (tt, with_shell_trace demo_shell
                (shell_trace demo_shell ++
                 [wl_resource_post_error 51 WL_DISPLAY_ERROR_INVALID_OBJECT
                    "permission to bind desktop_shell denied";
                  wl_resource_destroy 51])) /\
  bind_screensaver 2 52 demo_shell
  = Done (tt, with_ss_binding demo_shell (Some 52%nat)) /\
  bind_screensaver 1 53 (with_ss_binding demo_shell (Some 52%nat))
  = Done (tt, with_shell_trace (with_ss_binding demo_shell (Some 52%nat))
                (shell_trace demo_shell ++
                 [wl_resource_post_error 53 WL_DISPLAY_ERROR_INVALID_OBJECT
                    "interface object already bound";
                  wl_resource_destroy 53])).
Proof.
  split; [| split; [| split]].
  - apply (proj1 (binding_gates 1 50 demo_shell)). reflexivity.
  - apply (proj1 (proj2 (binding_gates 2 51 demo_shell))). reflexivity.
  - apply (proj1 (proj2 (proj2 (binding_gates 2 52 demo_shell)))). reflexivity.
  - apply (proj2 (proj2 (proj2
             (binding_gates 1 53 (with_ss_binding demo_shell (Some 52%nat)))))).
    simpl. discriminate.
Defined.

(** C4 as stated fails for the screensaver protocol: client 2 is not the
    helper (client 1), yet its bind on the free screensaver global is
    accepted, with no error posted and no resource destroyed. *)
Lemma non_helper_binds_screensaver :
  is_helper demo_shell 2 = false /\
  exists s',
    bind_screensaver 2 52 demo_shell = Done (tt, s') /\
    ss_binding (screensaver s') = Some 52%nat /\
    shell_trace s' = shell_trace demo_shell.
Proof.
  split; [reflexivity|].
  eexists. split; [reflexivity|]. split; reflexivity.
Qed.

(** ** The helper supervisor *)

Definition window_expired (time : Z) (s : wl_shell) : bool :=
  wrap_uint32 (time - deathstamp (child s)) >? 30000.

Definition giving_up : effect :=
  log_stderr "weston-desktop-shell died, giving up.".

Definition respawning : effect :=
  log_stderr "weston-desktop-shell died, respawning...".

Lemma helper_launches_app (t u : list effect) :
  helper_launches (t ++ u) = (helper_launches t + helper_launches u)%nat.
Proof. unfold helper_launches. rewrite filter_app, length_app. reflexivity. Qed.

(** One death: the window and the counter are reset when more than 30000
    ms lie between the recorded stamp and the death, the counter is
    incremented, and the helper is relaunched exactly when the counter is
    at most 5. *)
Lemma desktop_shell_sigchld_step (time : Z) (launched : option (nat * Z))
  (s : wl_shell) :
  let stamp' := if window_expired time s then time else deathstamp (child s) in
  let count' :=
    wrap_uint32 ((if window_expired time s then 0 else deathcount (child s)) + 1) in
  exists s',
    desktop_shell_sigchld time launched s = Done (tt, s') /\
    deathstamp (child s') = stamp' /\
    deathcount (child s') = count' /\
    (count' > 5 ->
     shell_trace s' = shell_trace s ++ [giving_up] /\
     child_client (child s') = None /\
     helper_launches (shell_trace s') = helper_launches (shell_trace s)) /\
    (count' <= 5 ->
     shell_trace s' = shell_trace s ++ [respawning; weston_client_launch shell_exe] /\
     child_client (child s') = option_map fst launched /\
     helper_launches (shell_trace s') = S (helper_launches (shell_trace s))).
Proof.
  unfold window_expired.
  destruct s as [c [cp cc ds dc dst] lk pes ls ss tr].
  unfold desktop_shell_sigchld, launch_desktop_shell_process, on_child, call.
  unfold_M. cbn.
  destruct (wrap_uint32 (time - dst) >? 30000); cbn.
  - change (wrap_uint32 1 >? 5) with false. cbn.
    destruct launched as [[cl p]|]; cbn; eexists;
      (split; [reflexivity|]); cbn; change (wrap_uint32 1) with 1;
      (repeat split; try lia; try (rewrite <- app_assoc; reflexivity));
      rewrite !filter_app, !length_app; cbn; lia.
  - destruct (wrap_uint32 (dc + 1) >? 5) eqn:C; cbn.
    + apply Z.gtb_lt in C.
      eexists; (split; [reflexivity|]); cbn.
      repeat split; try lia. rewrite !filter_app, !length_app; cbn; lia.
    + assert (C' : wrap_uint32 (dc + 1) <= 5).
      { destruct (Z_gt_dec (wrap_uint32 (dc + 1)) 5) as [X|X]; [|lia].
        apply Z.gt_lt, Z.gtb_lt in X. congruence. }
      destruct launched as [[cl p]|]; cbn; eexists;
        (split; [reflexivity|]); cbn;
        (repeat split; try lia; try (rewrite <- app_assoc; reflexivity));
        rewrite !filter_app, !length_app; cbn; lia.
Qed.

(** Once the helper has been given up, every further death inside the
    same window is given up too. *)
Lemma giving_up_persists (events : list (Z * option (nat * Z))) :
  forall s : wl_shell,
    deathcount (child s) > 5 ->
    Forall (fun ev => window_expired (fst ev) s = false) events ->
    deathcount (child s) + Z.of_nat (List.length events) < 2 ^ 32 ->
    exists s',
      helper_deaths events s = Done (tt, s') /\
      helper_launches (shell_trace s') = helper_launches (shell_trace s) /\
      deathstamp (child s') = deathstamp (child s) /\
      deathcount (child s') = deathcount (child s) + Z.of_nat (List.length events).
Proof.
  induction events as [| [time launched] rest IH]; intros s C W B.
  - exists s. simpl. repeat split; try reflexivity. lia.
  - inversion W as [| ev evs W1 W2]; subst. simpl in W1.
    destruct (desktop_shell_sigchld_step time launched s)
      as (s1 & E & St & Ct & Up & _).
    rewrite W1 in St, Ct, Up.
    assert (Cw : wrap_uint32 (deathcount (child s) + 1) = deathcount (child s) + 1).
    { unfold wrap_uint32. apply Z.mod_small.
      simpl List.length in B. lia. }
    rewrite Cw in Ct, Up.
    destruct (Up ltac:(lia)) as (_ & _ & Ln).
    destruct (IH s1) as (s' & E' & Ln' & St' & Ct').
    + lia.
    + apply Forall_forall. intros ev Hin.
      rewrite Forall_forall in W2. specialize (W2 ev Hin).
      unfold window_expired in *. rewrite St. exact W2.
    + simpl List.length in B. lia.
    + exists s'. simpl. rewrite (bind_done _ E).
      split; [exact E'|]. simpl List.length.
      repeat split; try congruence. lia.
Qed.

(** C5. At each helper death (whatever the deaths before it were): if more
    than 30000 ms lie between the recorded start of the current window and
    the death, in [uint32_t] arithmetic, the window stamp becomes the time
    of this death and the counter restarts from zero; the counter is then
    incremented; if it now exceeds 5 the helper is not relaunched, else it
    is. And after a death that was given up, no death inside the same
    window relaunches the helper. *)
Theorem helper_supervisor (time : Z) (launched : option (nat * Z))
  (events : list (Z * option (nat * Z))) (s : wl_shell) :
  (let stamp' := if window_expired time s then time else deathstamp (child s) in
   let count' :=
     wrap_uint32 ((if window_expired time s then 0 else deathcount (child s)) + 1) in
   exists s',
     desktop_shell_sigchld time launched s = Done (tt, s') /\
     deathstamp (child s') = stamp' /\
     deathcount (child s') = count' /\
     (count' > 5 ->
      shell_trace s' = shell_trace s ++ [giving_up] /\
      helper_launches (shell_trace s') = helper_launches (shell_trace s)) /\
     (count' <= 5 ->
      shell_trace s' = shell_trace s ++ [respawning; weston_client_launch shell_exe] /\
      helper_launches (shell_trace s') = S (helper_launches (shell_trace s)))) /\
  (deathcount (child s) > 5 ->
   Forall (fun ev => window_expired (fst ev) s = false) events ->
   deathcount (child s) + Z.of_nat (List.length events) < 2 ^ 32 ->
   exists s',
     helper_deaths events s = Done (tt, s') /\
     helper_launches (shell_trace s') = helper_launches (shell_trace s)).
Proof.
  split.
  - destruct (desktop_shell_sigchld_step time launched s)
      as (s' & E & St & Ct & Up & Down).
    exists s'. repeat split; try assumption.
    + apply Up; assumption.
    + apply Up; assumption.
    + apply Down; assumption.
    + apply Down; assumption.
  - intros C W B.
    destruct (giving_up_persists s C W B) as (s' & E & Ln & _).
    exists s'. auto.
Qed.

(** The helper of [demo_shell] after six deaths in the window that
    started at 1000 ms. *)
Definition given_up_shell : wl_shell :=
  {| compositor := compositor demo_shell;
     child := {| child_pid := 0; child_client := None; desktop_shell := None;
                 deathcount := 6; deathstamp := 1000 |};
     locked := false; prepare_event_sent := false; lock_surface := None;
     screensaver := screensaver demo_shell;
     shell_trace := [] |}.

Lemma helper_supervisor_witness :
  exists s',
    helper_deaths [(9000, Some (3%nat, 77)); (31000, None)] given_up_shell
    = Done (tt, s') /\
    helper_launches (shell_trace s') = helper_launches (shell_trace given_up_shell).
Proof.
  apply (proj2 (helper_supervisor 0 None
                  [(9000, Some (3%nat, 77)); (31000, None)] given_up_shell)).
  - simpl. lia.
  - repeat constructor.
  - simpl. lia.
Defined.

(** The respawn storm of the spec: the helper dies six times within 30 s
    of the start of the window. It is relaunched five times; the sixth
    death is given up. *)
Example respawn_storm :
  option_map (fun s => (deathcount (child s), child_client (child s),
                        helper_launches (shell_trace s),
                        last (shell_trace s) giving_up))
    (exec (helper_deaths [(2000, Some (2%nat, 10)); (3000, Some (3%nat, 11));
                          (4000, Some (4%nat, 12)); (5000, Some (5%nat, 13));
                          (6000, Some (6%nat, 14)); (7000, Some (7%nat, 15))])
          demo_shell)
  = Some (6, None, 6%nat, giving_up).
Proof. vm_compute. reflexivity. Qed.

(** A death more than 30 s after the start of the window opens a new
    window: the counter restarts and the helper is relaunched. *)
Example new_window_after_30s :
  option_map (fun s => (deathcount (child s), deathstamp (child s),
                        child_client (child s)))
    (exec (desktop_shell_sigchld 31001 (Some (8%nat, 16))) given_up_shell)
  = Some (1, 31001, Some 8%nat).
Proof. vm_compute. reflexivity. Qed.

(* ================================================================== *)
(** * Part III. Further properties of the shell *)
(* ================================================================== *)

(** ** Role requests: what they keep and what they undo *)

Section RoleRequestFacts.

Context {G : geometry_coord}.

(** The role a request asks for. *)
Definition role_of_request (rq : role_request) : shell_surface_type :=
  match rq with
  | req_set_toplevel => SHELL_SURFACE_TOPLEVEL
  | req_set_transient _ _ _ _ => SHELL_SURFACE_TRANSIENT
  | req_set_fullscreen _ _ _ => SHELL_SURFACE_FULLSCREEN
  | req_set_popup _ _ _ _ _ _ => SHELL_SURFACE_POPUP
  | req_set_maximized _ => SHELL_SURFACE_MAXIMIZED
  end.

Ltac unfold_role :=
  unfold dispatch, shell_surface_set_toplevel, shell_surface_set_transient,
    shell_surface_set_fullscreen, shell_surface_set_maximized,
    shell_surface_set_popup, reset_shell_surface_type, shell_unset_fullscreen,
    weston_surface_destroy, weston_surface_set_position, set_force_configure,
    on_shsurf, on_es, emit, get_default_output in *;
  unfold_M.

Ltac split_matches E :=
  repeat match type of E with
         | context [match black_surface ?s with _ => _ end] =>
             destruct (black_surface s); cbn in E
         | context [match es_output ?s with _ => _ end] =>
             destruct (es_output s); cbn in E
         | context [match hd_error ?l with _ => _ end] =>
             destruct (hd_error l); cbn in E
         end.

(** X1. A second reset after a successful one changes nothing: the reset is
    idempotent on every surface it accepts. *)
Theorem reset_idempotent (w w' : role_world) :
  reset_shell_surface_type w = Done (0, w') ->
  reset_shell_surface_type w' = Done (0, w').
Proof.
  intro E.
  assert (T : type (shsurf w') = SHELL_SURFACE_NONE).
  { destruct (refuses (type (shsurf w))) eqn:R.
    - rewrite (reset_refuses_lock_screensaver w R) in E. inversion E.
    - exact (proj2 (reset_clears_other_roles w R E)). }
  clear E. unfold reset_shell_surface_type, on_shsurf. unfold_M.
  rewrite T. destruct w' as [sh e ol ps tr]. destruct sh.
  cbn in T. subst. reflexivity.
Qed.

(** X2. A public role request that returns either has assigned the role it
    asks for, or it was made on a lock or screensaver surface and has left
    the role alone. It never assigns the panel, background, lock or
    screensaver role and never leaves the role cleared. *)
Theorem public_request_role (now : Z) (rq : role_request) (w w' : role_world) :
  dispatch now rq w = Done (tt, w') ->
  type (shsurf w') = role_of_request rq \/
  (refuses (type (shsurf w)) = true /\ type (shsurf w') = type (shsurf w)).
Proof.
  intro E. destruct w as [sh e ol ps tr].
  destruct rq as [ | pes x y fl | m f o | i t p x y fl | o ]; cbn;
    unfold_role; cbn in E;
    destruct (type sh) eqn:T; cbn in E;
    try destruct o as [o|]; cbn in E; split_matches E;
    try discriminate; inversion E; subst; cbn; rewrite ?T;
    solve [left; reflexivity | right; split; reflexivity].
Qed.

(** X3. Once a position has been saved it stays marked valid: no public role
    request clears [saved_position_valid]. *)
Theorem saved_position_stays_valid (now : Z) (rq : role_request)
  (w w' : role_world) :
  dispatch now rq w = Done (tt, w') ->
  saved_position_valid (shsurf w) = true ->
  saved_position_valid (shsurf w') = true.
Proof.
  intros E V. destruct w as [sh e ol ps tr]. cbn in V.
  destruct rq as [ | pes x y fl | m f o | i t p x y fl | o ]; cbn;
    unfold_role; cbn in E;
    destruct (type sh) eqn:T; cbn in E;
    try destruct o as [o|]; cbn in E; split_matches E;
    try discriminate; inversion E; subst; cbn; auto.
Qed.



(** X5. [set_maximized] reads the mode of [es->output]: on a surface that has
    no output assigned yet the request faults, after the role has been
    reset. *)
Theorem set_maximized_without_output_faults (o : option weston_output)
  (now : Z) (w : role_world) :
  refuses (type (shsurf w)) = false ->
  type (shsurf w) <> SHELL_SURFACE_FULLSCREEN ->
  es_output (es w) = None ->
  shell_surface_set_maximized o now w = Fault "es->output->current".
Proof.
  intros R Nf O. destruct w as [sh e ol ps tr]. cbn in R, Nf, O.
  unfold_role. cbn.
  destruct (type sh) eqn:T; cbn in R; try discriminate; try congruence;
    destruct o as [o|]; cbn; rewrite O; reflexivity.
Qed.

(** X6. Going fullscreen from the maximized role loses the requested output:
    the reset of the maximized role rebinds the surface to the default
    output after the request has stored the output it was given, so the
    fullscreen target and the size in the configure event are those of the
    default output. *)
Theorem fullscreen_from_maximized_uses_default_output (m f : Z)
  (o d : weston_output) (rest : list weston_output) (now : Z) (w : role_world) :
  type (shsurf w) = SHELL_SURFACE_MAXIMIZED ->
  output_list w = d :: rest ->
  exists w',
    shell_surface_set_fullscreen m f (Some o) now w = Done (tt, w') /\
    type (shsurf w') = SHELL_SURFACE_FULLSCREEN /\
    fullscreen_output (shsurf w') = Some d /\
    output (shsurf w') = Some d /\
    trace w' = trace w ++
      [wl_shell_surface_send_configure (resource (shsurf w)) now 0
         (mode_width (current d)) (mode_height (current d))].
Proof.
  intros T L. destruct w as [sh e ol ps tr]. cbn in T, L. subst ol.
  unfold_role. cbn. rewrite T. cbn.
  destruct (es_output e); cbn;
    eexists; (split; [reflexivity|]); cbn; repeat split.
Qed.

End RoleRequestFacts.

(** A toplevel surface mapped on the only output, at (100, 200), under a
    32-pixel panel. *)
Definition first_output : weston_output :=
  {| output_id := 0%nat; output_x := 0; output_y := 0;
     current := {| mode_width := 1920; mode_height := 1080 |} |}.

Definition mapped_surface_world : role_world :=
  {| shsurf := set_type SHELL_SURFACE_TOPLEVEL (new_shell_surface 7);
     es := {| geometry_x := 100; geometry_y := 200;
              geometry_width := 300; geometry_height := 200;
              es_output := Some first_output; force_configure := 0 |};
     output_list := [first_output];
     panels := [(0%nat, 32)];
     trace := [] |}.

Definition second_output : weston_output :=
  {| output_id := 1%nat; output_x := 1920; output_y := 0;
     current := {| mode_width := 1280; mode_height := 1024 |} |}.

Lemma reset_idempotent_witness :
  reset_shell_surface_type
    (with_shsurf mapped_surface_world
       (set_type SHELL_SURFACE_NONE (shsurf mapped_surface_world)))
  = Done (0, with_shsurf mapped_surface_world
               (set_type SHELL_SURFACE_NONE (shsurf mapped_surface_world))).
Proof.
  apply (@reset_idempotent Z_coord mapped_surface_world). reflexivity.
Defined.

Lemma public_request_role_witness :
  type (shsurf (with_trace lock_surface_world
                  [wl_resource_post_error 7 WL_DISPLAY_ERROR_INVALID_METHOD
                     "cannot reassign surface type"]))
  = role_of_request req_set_toplevel \/
  (refuses (type (shsurf lock_surface_world)) = true /\
   type (shsurf (with_trace lock_surface_world
                   [wl_resource_post_error 7 WL_DISPLAY_ERROR_INVALID_METHOD
                      "cannot reassign surface type"]))
   = type (shsurf lock_surface_world)).
Proof.
  apply (@public_request_role Z_coord 0 req_set_toplevel lock_surface_world).
  reflexivity.
Defined.

Definition maximized_world : role_world :=
  {| shsurf := set_saved 100 200 true
                 (set_output (Some second_output)
                    (set_type SHELL_SURFACE_MAXIMIZED (new_shell_surface 7)));
     es := es mapped_surface_world;
     output_list := output_list mapped_surface_world;
     panels := panels mapped_surface_world;
     trace := [wl_shell_surface_send_configure 7 5 5 1920 1048] |}.

Lemma saved_position_stays_valid_witness :
  saved_position_valid
    (shsurf (with_shsurf maximized_world
               (set_output (hd_error (output_list maximized_world))
                  (set_type SHELL_SURFACE_TOPLEVEL (shsurf maximized_world)))))
  = true.
Proof.
  apply (@saved_position_stays_valid Z_coord 0 req_set_toplevel maximized_world);
    reflexivity.
Defined.


Lemma set_maximized_without_output_faults_witness :
  shell_surface_set_maximized None 5 fresh_surface_world
  = Fault "es->output->current".
Proof.
  apply set_maximized_without_output_faults;
    [reflexivity | discriminate | reflexivity].
Defined.

Lemma fullscreen_from_maximized_uses_default_output_witness :
  exists w',
    shell_surface_set_fullscreen 0 0 (Some second_output) 9 maximized_world
    = Done (tt, w') /\
    type (shsurf w') = SHELL_SURFACE_FULLSCREEN /\
    fullscreen_output (shsurf w') = Some first_output /\
    output (shsurf w') = Some first_output /\
    trace w' = trace maximized_world ++
                 [wl_shell_surface_send_configure 7 9 0 1920 1080].
Proof.
  apply (@fullscreen_from_maximized_uses_default_output Z_coord 0 0
           second_output first_output [] 9 maximized_world); reflexivity.
Defined.

(** ** Resize: the request, the pointer chord and the grab together *)

(** [resize_binding], run on the world of the surface that has the pointer
    focus. [has_shell_surface] says whether [get_shell_surface] finds a
    shell-surface for it. The thirds are C integer divisions, and
    [2 * width] is an [int32_t] product. *)
Section ResizeBinding.

Variable weston_surface_from_global : resize_world -> Z -> Z -> Z * Z.

Definition binding_edges (w : resize_world) : Z :=
  let '(x, y) :=
    weston_surface_from_global w (grab_x (device w)) (grab_y (device w)) in
  let horizontal :=
    if x <? Z.quot (rs_width w) 3 then WL_SHELL_SURFACE_RESIZE_LEFT
    else if x <? Z.quot (wrap_int32 (2 * rs_width w)) 3 then 0
    else WL_SHELL_SURFACE_RESIZE_RIGHT in
  let vertical :=
    if y <? Z.quot (rs_height w) 3 then WL_SHELL_SURFACE_RESIZE_TOP
    else if y <? Z.quot (wrap_int32 (2 * rs_height w)) 3 then 0
    else WL_SHELL_SURFACE_RESIZE_BOTTOM in
  Z.lor (Z.lor 0 horizontal) vertical.

Definition resize_binding (has_shell_surface malloc_ok : bool) (time : Z)
  : M resize_world unit :=
  w <- get ;;
  match pointer_focus (device w) with
  | None => ret tt
  | Some _ =>
      if negb has_shell_surface then ret tt
      else
        match rs_type w with
        | SHELL_SURFACE_PANEL
        | SHELL_SURFACE_BACKGROUND
        | SHELL_SURFACE_FULLSCREEN
        | SHELL_SURFACE_SCREENSAVER => ret tt
        | _ =>
            _ <- weston_surface_resize malloc_ok time (binding_edges w) ;;
            ret tt
        end
  end.

Definition installed (w : resize_world) (e : Z) : resize_world :=
  {| device := {| device_x := device_x (device w);
                  device_y := device_y (device w);
                  grab_x := grab_x (device w); grab_y := grab_y (device w);
                  grab_time := grab_time (device w);
                  button_count := button_count (device w);
                  pointer_focus := None;
                  installed_grab :=
                    resize_grab {| edges := e; width := rs_width w;
                                   height := rs_height w;
                                   grab_shsurf := rs_shsurf w |} |};
     rs_shsurf := rs_shsurf w; rs_type := rs_type w;
     rs_surface := rs_surface w; rs_width := rs_width w;
     rs_height := rs_height w; rs_trace := rs_trace w |}.



(** X8. A grab whose pointer has not moved since the grab started asks the
    client for the size the surface had: the configure event carries the
    snapshot taken when the grab was installed. *)
Theorem resize_motion_without_movement (g : weston_resize_grab) (time x y : Z)
  (w : resize_world) :
  device_x (device w) = grab_x (device w) ->
  device_y (device w) = grab_y (device w) ->
  is_int32 (width g) ->
  is_int32 (height g) ->
  resize_grab_motion weston_surface_from_global g time x y w
  = Done (tt, rs_with_trace w
                (rs_trace w ++
                 [wl_shell_surface_send_configure (grab_shsurf g) time (edges g)
                    (width g) (height g)])).
Proof.
  intros X Y Hw Hh. unfold resize_grab_motion, rs_emit, rs_with_trace.
  unfold_M. rewrite X, Y.
  destruct (weston_surface_from_global w (grab_x (device w)) (grab_y (device w)))
    as [fx fy].
  replace (width g + fx - fx) with (width g) by lia.
  replace (height g + fy - fy) with (height g) by lia.
  rewrite !wrap_int32_small by assumption.
  destruct (has_edge (edges g) WL_SHELL_SURFACE_RESIZE_LEFT);
    destruct (has_edge (edges g) WL_SHELL_SURFACE_RESIZE_RIGHT);
    destruct (has_edge (edges g) WL_SHELL_SURFACE_RESIZE_TOP);
    destruct (has_edge (edges g) WL_SHELL_SURFACE_RESIZE_BOTTOM);
    reflexivity.
Qed.

End ResizeBinding.

(** X9. A resize request whose time is not the device's grab time, or that
    comes with no button pressed, or for a surface that does not have the
    pointer focus, is ignored without a trace. *)
Theorem stale_resize_request_ignored (malloc_ok : bool) (time e : Z)
  (w : resize_world) :
  button_count (device w) = 0 \/
  grab_time (device w) <> time \/
  pointer_focus (device w) <> Some (rs_surface w) ->
  shell_surface_resize malloc_ok time e w = Done (tt, w).
Proof.
  intro H. unfold shell_surface_resize. unfold_M.
  destruct (shell_surface_type_eqb (rs_type w) SHELL_SURFACE_FULLSCREEN);
    [reflexivity|].
  assert (C : (button_count (device w) =? 0)
              || negb (grab_time (device w) =? time)
              || negb match pointer_focus (device w) with
                      | Some f => Nat.eqb f (rs_surface w)
                      | None => false
                      end = true).
  { destruct H as [H | [H | H]].
    - rewrite H. reflexivity.
    - apply Z.eqb_neq in H. rewrite H. simpl. rewrite orb_true_r. reflexivity.
    - destruct (pointer_focus (device w)) as [f|]; [| apply orb_true_r].
      destruct (Nat.eqb f (rs_surface w)) eqn:F; [| apply orb_true_r].
      apply Nat.eqb_eq in F. subst. congruence. }
  rewrite C. reflexivity.
Qed.

(** X10. A request that passes the checks, with valid edges on a surface that
    is not fullscreen, installs the grab (edges and size snapshot) and
    takes the pointer focus away; when the grab cannot be allocated the
    only effect is the out-of-memory error on the resource. *)
Theorem accepted_resize_request (time e : Z) (w : resize_world) :
  rs_type w <> SHELL_SURFACE_FULLSCREEN ->
  button_count (device w) <> 0 ->
  grab_time (device w) = time ->
  pointer_focus (device w) = Some (rs_surface w) ->
  0 < e <= 15 ->
  both_horizontal e = false ->
  both_vertical e = false ->
  shell_surface_resize true time e w = Done (tt, installed w e) /\
  shell_surface_resize false time e w
  = Done (tt, rs_with_trace w
                (rs_trace w ++ [wl_resource_post_no_memory (rs_shsurf w)])).
Proof.
  intros T B Gt F He Bh Bv. subst time.
  assert (Tb : shell_surface_type_eqb (rs_type w) SHELL_SURFACE_FULLSCREEN = false)
    by (destruct (rs_type w); try reflexivity; congruence).
  assert (Eb : (e =? 0) || (e >? 15) || (Z.land e 3 =? 3) || (Z.land e 12 =? 12)
               = false).
  { destruct ((e =? 0) || (e >? 15) || (Z.land e 3 =? 3) || (Z.land e 12 =? 12))
      eqn:X; [| reflexivity].
    apply edges_test_meaning in X; [| lia].
    destruct X as [X | [X | [X | X]]]; try lia; congruence. }
  unfold shell_surface_resize, weston_surface_resize,
    wl_input_device_start_pointer_grab, wl_input_device_set_pointer_focus,
    on_device, rs_emit, installed, rs_with_trace. unfold_M.
  apply Z.eqb_neq in B.
  rewrite ?Tb, ?F, ?Nat.eqb_refl, ?Z.eqb_refl, ?B. simpl.
  rewrite ?Tb, ?Eb. simpl. rewrite ?Tb, ?Eb. simpl. split; reflexivity.
Qed.

Lemma stale_resize_request_ignored_witness :
  shell_surface_resize true 78 9 resize_demo_world = Done (tt, resize_demo_world).
Proof.
  apply stale_resize_request_ignored. right; left. simpl. discriminate.
Defined.

Lemma accepted_resize_request_witness :
  shell_surface_resize true 77 9 resize_demo_world
  = Done (tt, installed resize_demo_world 9) /\
  shell_surface_resize false 77 9 resize_demo_world
  = Done (tt, rs_with_trace resize_demo_world [wl_resource_post_no_memory 9]).
Proof.
  apply accepted_resize_request;
    try reflexivity; try (simpl; discriminate); lia.
Defined.

Definition unmoved_world : resize_world :=
  {| device := {| device_x := 100; device_y := 100;
                  grab_x := 100; grab_y := 100;
                  grab_time := 77; button_count := 1;
                  pointer_focus := None;
                  installed_grab := resize_grab top_right_grab |};
     rs_shsurf := 9%nat; rs_type := SHELL_SURFACE_TOPLEVEL;
     rs_surface := 4%nat; rs_width := 640; rs_height := 480;
     rs_trace := [] |}.

Lemma resize_motion_without_movement_witness :
  resize_grab_motion from_global_translate top_right_grab 80 100 100
    unmoved_world
  = Done (tt, rs_with_trace unmoved_world
                [wl_shell_surface_send_configure 9 80 9 640 480]).
Proof.
  apply (@resize_motion_without_movement from_global_translate top_right_grab
           80 100 100 unmoved_world);
    try reflexivity; unfold is_int32; simpl; lia.
Defined.

(** The chord on the demo surface: the grab started at local (60, 40) of
    a 640x480 surface, in the left and top thirds. *)
Example resize_binding_top_left :
  exec (resize_binding from_global_translate true true 90) resize_demo_world
  = Some (installed resize_demo_world 5).
Proof. reflexivity. Qed.

(** ** Unlocking, relocking and the screensaver process *)

(** X11. While the desktop is locked, no lock surface is on screen and the
    helper is bound, [unlock()] asks the helper for a lock surface once:
    the first call sends [prepare_lock_surface] unless it is pending
    already, and a second call changes nothing at all. *)
Theorem unlock_sends_prepare_once (helper : nat) (s : wl_shell) :
  locked s = true ->
  lock_surface s = None ->
  desktop_shell (child s) = Some helper ->
  exists s1,
    unlock s = Done (tt, s1) /\
    unlock s1 = Done (tt, s1) /\
    prepare_event_sent s1 = true /\
    shell_trace s1
    = shell_trace s ++
      (if prepare_event_sent s then []
       else [desktop_shell_send_prepare_lock_surface helper]) /\
    locked s1 = true /\
    layer_list (compositor s1) = layer_list (compositor s).
Proof.
  intros K L H.
  destruct s as [c ch lk pes ls ss tr]. cbn in K, L, H. subst lk ls.
  unfold unlock, call, set_prepare_event_sent. unfold_M. cbn. rewrite H.
  destruct pes; cbn.
  - eexists. split; [reflexivity|]. cbn. rewrite H.
    repeat split. rewrite app_nil_r. reflexivity.
  - eexists. split; [reflexivity|]. cbn. rewrite H. repeat split.
Qed.

(** X12. When the helper is gone ([child.desktop_shell] is [NULL]), [unlock()]
    on a locked desktop without a lock surface does not wait: it resumes
    the desktop at once. *)
Theorem unlock_without_helper_resumes (s : wl_shell) :
  reachable s ->
  locked s = true ->
  lock_surface s = None ->
  desktop_shell (child s) = None ->
  exists s',
    unlock s = Done (tt, s') /\
    locked s' = false /\
    layer_list (compositor s') = initial_layer_order /\
    idle_time (compositor s') = option_idle_time (compositor s).
Proof.
  intros R K L H. pose proof (reachable_layers_ok R) as Inv.
  unfold layers_ok in Inv. rewrite K in Inv.
  destruct (resume_desktop_restores s Inv) as (s' & E & A & B & C & _).
  exists s'. unfold unlock. unfold bind, get. rewrite K, L, H. simpl.
  rewrite E. auto.
Qed.

(** X13. [lock()] on a desktop that is locked already touches nothing in the
    shell: it only puts the outputs that have a DPMS hook into standby, in
    the order of the output list. *)
Theorem lock_while_locked_only_standby (launched_pid now : Z) (s : wl_shell) :
  locked s = true ->
  exists s',
    lock launched_pid now s = Done (tt, s') /\
    s' = with_shell_trace s
           (shell_trace s ++
            map (fun o => set_dpms (fst o) WESTON_DPMS_STANDBY)
                (filter snd (outputs (compositor s)))).
Proof.
  intro K. rewrite (lock_again launched_pid now s K).
  eexists. split; [reflexivity|]. f_equal. f_equal.
  induction (outputs (compositor s)) as [| [o has] rest IH];
    [reflexivity|].
  simpl. unfold dpms_calls at 1. simpl. destruct has; simpl; rewrite IH;
    reflexivity.
Qed.

Definition screensaver_launches (t : list effect) : nat :=
  List.length (filter (fun e => match e with
                                | weston_client_launch p =>
                                    negb (String.eqb p shell_exe)
                                | _ => false
                                end) t).

(** X14. The shell runs one screensaver process at a time. After a launch that
    recorded a pid, a further [launch_screensaver] starts nothing as long
    as the SIGCHLD handler has not cleared the pid; once it has, the next
    one starts a new process. *)
Theorem one_screensaver_at_a_time (path : string) (pid pid2 : Z) (s : wl_shell) :
  ss_binding (screensaver s) = None ->
  ss_path (screensaver s) = Some path ->
  ss_pid (screensaver s) = 0 ->
  pid <> 0 ->
  String.eqb path shell_exe = false ->
  exists s1 s2 s3,
    launch_screensaver pid s = Done (tt, s1) /\
    screensaver_launches (shell_trace s1) = S (screensaver_launches (shell_trace s)) /\
    ss_pid (screensaver s1) = pid /\
    launch_screensaver pid2 s1 = Done (tt, s2) /\
    screensaver_launches (shell_trace s2) = screensaver_launches (shell_trace s1) /\
    ss_pid (screensaver s2) = pid /\
    (handle_screensaver_sigchld ;;; launch_screensaver pid2) s2 = Done (tt, s3) /\
    screensaver_launches (shell_trace s3) = S (screensaver_launches (shell_trace s2)) /\
    ss_pid (screensaver s3) = pid2.
Proof.
  intros B P Z0 Np Ne.
  destruct s as [c ch lk pes ls [sp sd sb sss spid] tr].
  cbn in B, P, Z0. subst sb sp spid.
  unfold launch_screensaver, handle_screensaver_sigchld, on_screensaver, call,
    screensaver_launches.
  unfold_M.
  destruct pid as [| q | q]; [congruence | |]; cbn -[String.eqb shell_exe];
    do 3 eexists; repeat split; cbn -[String.eqb shell_exe];
    rewrite ?filter_app, ?length_app; cbn -[String.eqb shell_exe];
    rewrite ?Ne; cbn; lia.
Qed.

(** X15. Binding the screensaver global and releasing the binding again leaves
    the shell exactly as it was, so the global can be bound anew. *)
Theorem screensaver_bind_unbind_round_trip (client resource : nat) (s : wl_shell) :
  ss_binding (screensaver s) = None ->
  (bind_screensaver client resource ;;; unbind_screensaver) s = Done (tt, s).
Proof.
  intro B. destruct s as [c ch lk pes ls [sp sd sb sss spid] tr].
  cbn in B. subst sb.
  unfold bind_screensaver, unbind_screensaver, on_screensaver. unfold_M.
  reflexivity.
Qed.

(** X16. Who may bind desktop_shell after the helper has died: if the death
    was answered with a relaunch, exactly the relaunched client, and if
    the helper was given up (or the relaunch failed), nobody. *)
Theorem helper_identity_after_death (time : Z) (launched : option (nat * Z))
  (client resource : nat) (s s' : wl_shell) :
  desktop_shell_sigchld time launched s = Done (tt, s') ->
  (deathcount (child s') <= 5 /\ option_map fst launched = Some client ->
   bind_desktop_shell client resource s'
   = Done (tt, with_desktop_shell s' (Some resource))) /\
  (deathcount (child s') > 5 \/ option_map fst launched <> Some client ->
   bind_desktop_shell client resource s'
   = Done (tt, with_shell_trace s'
                 (shell_trace s' ++
                  [wl_resource_post_error resource
                     WL_DISPLAY_ERROR_INVALID_OBJECT
                     "permission to bind desktop_shell denied";
                   wl_resource_destroy resource]))).
Proof.
  intro E.
  destruct (desktop_shell_sigchld_step time launched s)
    as (s1 & E1 & _ & Ct & Up & Down).
  rewrite E in E1. inversion E1; subst s1. clear E1.
  unfold bind_desktop_shell, on_child, call, with_desktop_shell,
    with_shell_trace. unfold_M.
  split.
  - intros [C L]. rewrite Ct in C.
    destruct (Down C) as (_ & Cl & _).
    assert (Hy : match child_client (child s') with
                 | Some helper => Nat.eqb client helper
                 | None => false
                 end = true)
      by (rewrite Cl, L; apply Nat.eqb_refl).
    rewrite Hy. reflexivity.
  - intros H.
    assert (Hn : match child_client (child s') with
                 | Some helper => Nat.eqb client helper
                 | None => false
                 end = false).
    { destruct (Z_gt_dec (deathcount (child s')) 5) as [C | C].
      - rewrite Ct in C. destruct (Up C) as (_ & Cl & _). rewrite Cl.
        reflexivity.
      - destruct H as [H | H]; [lia|].
        rewrite Ct in C. destruct (Down ltac:(lia)) as (_ & Cl & _).
        rewrite Cl. destruct (option_map fst launched) as [h|]; [|reflexivity].
        apply Nat.eqb_neq. congruence. }
    rewrite Hn. simpl. rewrite <- app_assoc. reflexivity.
Qed.

(** X17. [shell_init] on a freshly initialised compositor builds the layer
    order fade, cursor, fullscreen, panel, toplevel, background, leaves
    the desktop unlocked, stores the screensaver configuration, and
    returns 0 exactly when the globals were registered and the helper was
    launched (-1 otherwise). *)
Theorem shell_init_outcome (ec : weston_compositor) (path : option string)
  (duration : Z) (globals_ok : bool) (now : Z) (launched : option (nat * Z)) :
  layer_list ec = compositor_layers ->
  exists r s,
    shell_init path duration globals_ok now launched (shell_zero ec)
    = Done (r, s) /\
    layer_list (compositor s) = initial_layer_order /\
    locked s = false /\
    ss_path (screensaver s) = path /\
    ss_duration (screensaver s) = duration /\
    r = (if globals_ok && (match launched with Some _ => true | None => false end)
         then 0 else -1) /\
    (globals_ok = true ->
     deathstamp (child s) = now /\
     child_client (child s) = option_map fst launched /\
     helper_launches (shell_trace s) = 1%nat).
Proof.
  intro L. destruct ec as [ll it oit st outs devs]. cbn in L. subst ll.
  unfold shell_init, weston_layer_init, wl_list_insert,
    launch_desktop_shell_process, on_compositor, on_screensaver, on_child, call.
  unfold_M. cbn.
  destruct globals_ok; cbn; [destruct launched as [[c p]|]; cbn |];
    do 2 eexists; (split; [reflexivity|]); cbn; repeat split;
    discriminate.
Qed.

Definition bound_locked_shell : wl_shell :=
  with_desktop_shell demo_locked_shell (Some 50%nat).

Lemma unlock_sends_prepare_once_witness :
  exists s1,
    unlock bound_locked_shell = Done (tt, s1) /\
    unlock s1 = Done (tt, s1) /\
    prepare_event_sent s1 = true /\
    shell_trace s1
    = shell_trace bound_locked_shell ++
      [desktop_shell_send_prepare_lock_surface 50] /\
    locked s1 = true /\
    layer_list (compositor s1) = layer_list (compositor bound_locked_shell).
Proof.
  apply (@unlock_sends_prepare_once 50%nat bound_locked_shell); reflexivity.
Defined.

Lemma unlock_without_helper_resumes_witness :
  exists s',
    unlock demo_locked_shell = Done (tt, s') /\
    locked s' = false /\
    layer_list (compositor s') = initial_layer_order /\
    idle_time (compositor s') = option_idle_time (compositor demo_locked_shell).
Proof.
  apply unlock_without_helper_resumes;
    [exact demo_locked_shell_reachable | reflexivity | reflexivity | reflexivity].
Defined.

Lemma lock_while_locked_only_standby_witness :
  exists s',
    lock 0 3000 demo_locked_shell = Done (tt, s') /\
    s' = with_shell_trace demo_locked_shell
           (shell_trace demo_locked_shell ++ [set_dpms 0 WESTON_DPMS_STANDBY]).
Proof.
  apply (@lock_while_locked_only_standby 0 3000 demo_locked_shell). reflexivity.
Defined.

Definition screensaver_shell : wl_shell :=
  {| compositor := compositor demo_shell; child := child demo_shell;
     locked := false; prepare_event_sent := false; lock_surface := None;
     screensaver := {| ss_path := Some "/usr/bin/ss"; ss_duration := 120;
                       ss_binding := None; ss_surfaces := []; ss_pid := 0 |};
     shell_trace := [] |}.

Lemma one_screensaver_at_a_time_witness :
  exists s1 s2 s3,
    launch_screensaver 500 screensaver_shell = Done (tt, s1) /\
    screensaver_launches (shell_trace s1)
    = S (screensaver_launches (shell_trace screensaver_shell)) /\
    ss_pid (screensaver s1) = 500 /\
    launch_screensaver 501 s1 = Done (tt, s2) /\
    screensaver_launches (shell_trace s2) = screensaver_launches (shell_trace s1) /\
    ss_pid (screensaver s2) = 500 /\
    (handle_screensaver_sigchld ;;; launch_screensaver 501) s2 = Done (tt, s3) /\
    screensaver_launches (shell_trace s3)
    = S (screensaver_launches (shell_trace s2)) /\
    ss_pid (screensaver s3) = 501.
Proof.
  apply (@one_screensaver_at_a_time "/usr/bin/ss" 500 501 screensaver_shell);
    try reflexivity. discriminate.
Defined.

Lemma screensaver_bind_unbind_round_trip_witness :
  (bind_screensaver 2 52 ;;; unbind_screensaver) demo_shell = Done (tt, demo_shell).
Proof.
  apply screensaver_bind_unbind_round_trip. reflexivity.
Defined.

(** The sixth death in the window: nobody can bind afterwards, not even
    the client a relaunch would have produced. *)
Lemma helper_identity_after_death_witness :
  bind_desktop_shell 3 60
    {| compositor := compositor demo_shell;
       child := {| child_pid := 0; child_client := None; desktop_shell := None;
                   deathcount := 6; deathstamp := 1000 |};
       locked := false; prepare_event_sent := false; lock_surface := None;
       screensaver := screensaver demo_shell;
       shell_trace := [giving_up] |}
  = Done (tt,
          {| compositor := compositor demo_shell;
             child := {| child_pid := 0; child_client := None;
                         desktop_shell := None;
                         deathcount := 6; deathstamp := 1000 |};
             locked := false; prepare_event_sent := false; lock_surface := None;
             screensaver := screensaver demo_shell;
             shell_trace :=
               [giving_up;
                wl_resource_post_error 60 WL_DISPLAY_ERROR_INVALID_OBJECT
                  "permission to bind desktop_shell denied";
                wl_resource_destroy 60] |}).
Proof.
  apply (proj2 (@helper_identity_after_death 7000 (Some (3%nat, 77)) 3%nat 60%nat
                  {| compositor := compositor demo_shell;
                     child := {| child_pid := 4242; child_client := Some 1%nat;
                                 desktop_shell := None;
                                 deathcount := 5; deathstamp := 1000 |};
                     locked := false; prepare_event_sent := false;
                     lock_surface := None;
                     screensaver := screensaver demo_shell;
                     shell_trace := [] |} _ eq_refl)).
  left. vm_compute. reflexivity.
Defined.

Lemma shell_init_outcome_witness :
  exists r s,
    shell_init None 60 true 1000 (Some (1%nat, 4242)) (shell_zero demo_compositor)
    = Done (r, s) /\
    layer_list (compositor s) = initial_layer_order /\
    locked s = false /\
    ss_path (screensaver s) = None /\
    ss_duration (screensaver s) = 60 /\
    r = 0 /\
    (true = true ->
     deathstamp (child s) = 1000 /\
     child_client (child s) = Some 1%nat /\
     helper_launches (shell_trace s) = 1%nat).
Proof.
  apply (@shell_init_outcome demo_compositor None 60 true 1000
           (Some (1%nat, 4242))). reflexivity.
Defined.

(** ** The popup grab *)

(** Calls made by the grabs and bindings below. *)
Inductive input_call : Type :=
| wl_input_device_send_button (resource : nat) (time button state : Z)
| wl_input_device_send_motion (resource : nat) (time sx sy : Z)
| wl_shell_surface_send_popup_done (shsurf : nat)
| wl_input_device_end_pointer_grab (device : nat) (time : Z)
| set_pointer_focus (device : nat) (surface : option nat) (time x y : Z)
| set_backlight (output : nat) (value : Z)
| weston_output_update_zoom (output : nat) (x y : Z)
| weston_surface_damage (surface : nat)
| shell_activate (surface : nat) (time : Z)
| wl_input_device_end_keyboard_grab (device : nat) (time : Z).

(** What the popup grab callbacks reach: the popup's shell-surface (its
    resource, the client that owns its surface, [popup.time],
    [popup.initial_up], [popup.grab.input_device], [popup.grab.focus]) and
    the device's [pointer_focus_resource]. *)
Record popup_world : Type := {
  popup_shsurf : nat;
  popup_client : nat;
  popup_time : Z;
  initial_up : Z;
  popup_input_device : option nat;
  popup_focus : option nat;
  pointer_focus_resource : option nat;
  popup_calls : list input_call
}.

Definition popup_call (c : input_call) : M popup_world unit :=
  modify (fun w => {| popup_shsurf := popup_shsurf w;
                      popup_client := popup_client w;
                      popup_time := popup_time w;
                      initial_up := initial_up w;
                      popup_input_device := popup_input_device w;
                      popup_focus := popup_focus w;
                      pointer_focus_resource := pointer_focus_resource w;
                      popup_calls := popup_calls w ++ [c] |}).

Definition set_initial_up (v : Z) : M popup_world unit :=
  modify (fun w => {| popup_shsurf := popup_shsurf w;
                      popup_client := popup_client w;
                      popup_time := popup_time w;
                      initial_up := v;
                      popup_input_device := popup_input_device w;
                      popup_focus := popup_focus w;
                      pointer_focus_resource := pointer_focus_resource w;
                      popup_calls := popup_calls w |}).

Definition set_popup_input_device (v : option nat) : M popup_world unit :=
  modify (fun w => {| popup_shsurf := popup_shsurf w;
                      popup_client := popup_client w;
                      popup_time := popup_time w;
                      initial_up := initial_up w;
                      popup_input_device := v;
                      popup_focus := popup_focus w;
                      pointer_focus_resource := pointer_focus_resource w;
                      popup_calls := popup_calls w |}).

(** Modelled from the spec: [wl_input_device_set_pointer_focus] is
    libwayland's "pointer/keyboard focus set". [resource] is the input
    resource that the client of [surface] has bound, if any; it becomes
    the device's [pointer_focus_resource], and with no surface there is
    none. *)
Definition popup_set_pointer_focus (device : nat) (surface resource : option nat)
  (time x y : Z) : M popup_world unit :=
  popup_call (set_pointer_focus device surface time x y) ;;;
  modify (fun w => {| popup_shsurf := popup_shsurf w;
                      popup_client := popup_client w;
                      popup_time := popup_time w;
                      initial_up := initial_up w;
                      popup_input_device := popup_input_device w;
                      popup_focus := popup_focus w;
                      pointer_focus_resource :=
                        match surface with
                        | Some _ => resource
                        | None => None
                        end;
                      popup_calls := popup_calls w |}).

Definition set_popup_focus (v : option nat) : M popup_world unit :=
  modify (fun w => {| popup_shsurf := popup_shsurf w;
                      popup_client := popup_client w;
                      popup_time := popup_time w;
                      initial_up := initial_up w;
                      popup_input_device := popup_input_device w;
                      popup_focus := v;
                      pointer_focus_resource := pointer_focus_resource w;
                      popup_calls := popup_calls w |}).

(** [surface] is the surface under the pointer with the client that owns
    it; [resource] as in [popup_set_pointer_focus]. *)
Definition popup_grab_focus (time : Z) (surface : option (nat * nat))
  (resource : option nat) (x y : Z) : M popup_world unit :=
  w <- get ;;
  device <- deref "grab->input_device" (popup_input_device w) ;;
  match surface with
  | Some (sid, client) =>
      if Nat.eqb client (popup_client w) then
        popup_set_pointer_focus device (Some sid) resource time x y ;;;
        set_popup_focus (Some sid)
      else
        popup_set_pointer_focus device None None time 0 0 ;;;
        set_popup_focus None
  | None =>
      popup_set_pointer_focus device None None time 0 0 ;;;
      set_popup_focus None
  end.

Definition popup_grab_motion (time sx sy : Z) : M popup_world unit :=
  w <- get ;;
  _ <- deref "grab->input_device" (popup_input_device w) ;;
  match pointer_focus_resource w with
  | Some resource => popup_call (wl_input_device_send_motion resource time sx sy)
  | None => ret tt
  end.

(** [time] and [popup.time] are [uint32_t]; [state] is 0 for a release. *)
Definition popup_grab_button (time button state : Z) : M popup_world unit :=
  w <- get ;;
  device <- deref "grab->input_device" (popup_input_device w) ;;
  (match pointer_focus_resource w with
   | Some resource =>
       popup_call (wl_input_device_send_button resource time button state)
   | None =>
       if (state =? 0) &&
          (negb (initial_up w =? 0) ||
           (wrap_uint32 (time - popup_time w) >? 500)) then
         popup_call (wl_shell_surface_send_popup_done (popup_shsurf w)) ;;;
         popup_call (wl_input_device_end_pointer_grab device time) ;;;
         set_popup_input_device None
       else ret tt
   end) ;;;
  if state =? 0 then set_initial_up 1 else ret tt.

(** The popup after it has been dismissed by a release at [time]. *)
Definition dismissed (w : popup_world) (device : nat) (time : Z) : popup_world :=
  {| popup_shsurf := popup_shsurf w; popup_client := popup_client w;
     popup_time := popup_time w; initial_up := 1;
     popup_input_device := None; popup_focus := popup_focus w;
     pointer_focus_resource := pointer_focus_resource w;
     popup_calls := popup_calls w ++
       [wl_shell_surface_send_popup_done (popup_shsurf w);
        wl_input_device_end_pointer_grab device time] |}.

Definition released_once (w : popup_world) : popup_world :=
  {| popup_shsurf := popup_shsurf w; popup_client := popup_client w;
     popup_time := popup_time w; initial_up := 1;
     popup_input_device := popup_input_device w; popup_focus := popup_focus w;
     pointer_focus_resource := pointer_focus_resource w;
     popup_calls := popup_calls w |}.

(** X18. A popup is dismissed by the second button release outside its client
    at the latest. The first such release dismisses it when an earlier
    release was seen or more than 500 ms have passed since the grab
    started; otherwise it only records that a release was seen, and then
    any further release outside the client dismisses the popup, however
    soon it comes. *)
Theorem popup_dismissed_by_second_release (device : nat) (t1 b1 : Z)
  (w : popup_world) :
  popup_input_device w = Some device ->
  pointer_focus_resource w = None ->
  (initial_up w <> 0 \/ wrap_uint32 (t1 - popup_time w) > 500 ->
   popup_grab_button t1 b1 0 w = Done (tt, dismissed w device t1)) /\
  (initial_up w = 0 /\ wrap_uint32 (t1 - popup_time w) <= 500 ->
   popup_grab_button t1 b1 0 w = Done (tt, released_once w) /\
   forall t2 b2,
     popup_grab_button t2 b2 0 (released_once w)
     = Done (tt, dismissed (released_once w) device t2)).
Proof.
  intros D R.
  destruct w as [sh cl pt iu dev fo res calls]. cbn in D, R. subst dev res.
  unfold popup_grab_button, popup_call, set_popup_input_device, set_initial_up,
    dismissed, released_once. unfold_M. cbn.
  split.
  - intros H.
    assert (C : negb (iu =? 0) || (wrap_uint32 (t1 - pt) >? 500) = true).
    { destruct H as [H | H].
      - apply Z.eqb_neq in H. rewrite H. reflexivity.
      - apply Z.gt_lt, Z.gtb_lt in H. rewrite H. apply orb_true_r. }
    rewrite C. cbn. rewrite <- app_assoc. reflexivity.
  - intros [H0 H].
    assert (C : negb (iu =? 0) || (wrap_uint32 (t1 - pt) >? 500) = false).
    { subst iu. simpl.
      destruct (wrap_uint32 (t1 - pt) >? 500) eqn:X; [| reflexivity].
      apply Z.gtb_lt in X. lia. }
    rewrite C. cbn. split; [reflexivity|].
    intros t2 b2. rewrite <- app_assoc. reflexivity.
Qed.

(** X19. Button events never dismiss a popup while the pointer is on a surface
    of its client, and presses never do: such an event is forwarded to the
    client when there is a focus resource and dropped otherwise, and the
    grab stays installed. *)
Theorem popup_survives_other_buttons (device : nat) (time button state : Z)
  (w : popup_world) :
  popup_input_device w = Some device ->
  pointer_focus_resource w <> None \/ state <> 0 ->
  exists w',
    popup_grab_button time button state w = Done (tt, w') /\
    popup_input_device w' = popup_input_device w /\
    popup_calls w'
    = popup_calls w ++
      match pointer_focus_resource w with
      | Some resource => [wl_input_device_send_button resource time button state]
      | None => []
      end.
Proof.
  intros D H. destruct w as [sh cl pt iu dev fo res calls]. cbn in D, H.
  subst dev.
  unfold popup_grab_button, popup_call, set_popup_input_device, set_initial_up.
  unfold_M. cbn.
  destruct res as [r|]; cbn.
  - destruct (state =? 0); eexists; (split; [reflexivity|]); split; reflexivity.
  - destruct H as [H | H]; [congruence|].
    apply Z.eqb_neq in H. rewrite H. cbn.
    eexists; (split; [reflexivity|]); cbn. rewrite app_nil_r.
    split; reflexivity.
Qed.

(** X20. While the pointer is over a surface of another client (or over none),
    the grab holds no focus and pointer motion reaches nobody. *)
Theorem popup_suppresses_foreign_motion (device : nat) (t1 t2 x y sx sy : Z)
  (surface : option (nat * nat)) (resource : option nat) (w : popup_world) :
  popup_input_device w = Some device ->
  (forall sid client, surface = Some (sid, client) -> client <> popup_client w) ->
  exists w',
    (popup_grab_focus t1 surface resource x y ;;; popup_grab_motion t2 sx sy) w
    = Done (tt, w') /\
    popup_focus w' = None /\
    pointer_focus_resource w' = None /\
    popup_calls w' = popup_calls w ++ [set_pointer_focus device None t1 0 0].
Proof.
  intros D F. destruct w as [sh cl pt iu dev fo res calls]. cbn in D, F.
  subst dev.
  unfold popup_grab_focus, popup_grab_motion, popup_set_pointer_focus,
    set_popup_focus, popup_call. unfold_M. cbn.
  destruct surface as [[sid client]|]; cbn.
  - specialize (F sid client eq_refl). apply Nat.eqb_neq in F. rewrite F. cbn.
    eexists; (split; [reflexivity|]); repeat split.
  - eexists; (split; [reflexivity|]); repeat split.
Qed.

Definition demo_popup : popup_world :=
  {| popup_shsurf := 11%nat; popup_client := 3%nat; popup_time := 1000;
     initial_up := 0; popup_input_device := Some 0%nat; popup_focus := None;
     pointer_focus_resource := None; popup_calls := [] |}.

(** Release 200 ms after the grab started, then another 50 ms later. *)
Lemma popup_dismissed_by_second_release_witness :
  popup_grab_button 1200 272 0 demo_popup = Done (tt, released_once demo_popup) /\
  forall t2 b2,
    popup_grab_button t2 b2 0 (released_once demo_popup)
    = Done (tt, dismissed (released_once demo_popup) 0%nat t2).
Proof.
  apply (proj2 (@popup_dismissed_by_second_release 0%nat 1200 272 demo_popup
                  eq_refl eq_refl)).
  split; [reflexivity | vm_compute; discriminate].
Defined.

Lemma popup_survives_other_buttons_witness :
  exists w',
    popup_grab_button 1200 272 1 demo_popup = Done (tt, w') /\
    popup_input_device w' = popup_input_device demo_popup /\
    popup_calls w' = popup_calls demo_popup ++ [].
Proof.
  apply (@popup_survives_other_buttons 0%nat 1200 272 1 demo_popup eq_refl).
  right. discriminate.
Defined.

Lemma popup_suppresses_foreign_motion_witness :
  exists w',
    (popup_grab_focus 1100 (Some (20%nat, 4%nat)) (Some 30%nat) 5 6 ;;;
     popup_grab_motion 1101 7 8) demo_popup = Done (tt, w') /\
    popup_focus w' = None /\
    pointer_focus_resource w' = None /\
    popup_calls w' = popup_calls demo_popup ++ [set_pointer_focus 0 None 1100 0 0].
Proof.
  apply (@popup_suppresses_foreign_motion 0%nat 1100 1101 5 6 7 8
           (Some (20%nat, 4%nat)) (Some 30%nat) demo_popup eq_refl).
  intros sid client E. inversion E; subst. simpl. discriminate.
Defined.

(** ** Key bindings: backlight and zoom *)

Section KeyBindings.

(** The key codes come from linux/input.h. *)
Variables KEY_F9 KEY_F10 KEY_BRIGHTNESSDOWN KEY_BRIGHTNESSUP KEY_UP KEY_DOWN : Z.

(** The default output as [backlight_binding] sees it: whether it has a
    [set_backlight] hook, and [backlight_current]. *)
Record backlight_world : Type := {
  bl_output : nat;
  has_set_backlight : bool;
  backlight_current : Z;
  bl_calls : list input_call
}.

Definition backlight_binding (time key button state : Z)
  : M backlight_world unit :=
  w <- get ;;
  if negb (has_set_backlight w) then ret tt
  else
    let current :=
      if ((key =? KEY_F9) || (key =? KEY_BRIGHTNESSDOWN)) &&
         (backlight_current w >? 1) then backlight_current w - 1
      else if ((key =? KEY_F10) || (key =? KEY_BRIGHTNESSUP)) &&
              (backlight_current w <? 10) then backlight_current w + 1
      else backlight_current w in
    modify (fun w => {| bl_output := bl_output w;
                        has_set_backlight := has_set_backlight w;
                        backlight_current := current;
                        bl_calls := bl_calls w ++
                                      [set_backlight (bl_output w) current] |}).

(** X21. The backlight stays within 1..10 and moves by one step at most per
    event; the hook is called once with the value that is stored. Without
    a hook the binding does nothing. *)
Theorem backlight_stays_in_range (time key button state : Z)
  (w : backlight_world) :
  1 <= backlight_current w <= 10 ->
  exists w',
    backlight_binding time key button state w = Done (tt, w') /\
    1 <= backlight_current w' <= 10 /\
    -1 <= backlight_current w' - backlight_current w <= 1 /\
    (has_set_backlight w = true ->
     bl_calls w' = bl_calls w ++ [set_backlight (bl_output w) (backlight_current w')]) /\
    (has_set_backlight w = false -> w' = w).
Proof.
  intro R. destruct w as [o has cur calls]. cbn in R.
  unfold backlight_binding. unfold_M. cbn.
  destruct has; cbn.
  - destruct (((key =? KEY_F9) || (key =? KEY_BRIGHTNESSDOWN)) && (cur >? 1))
      eqn:Dn.
    + apply andb_prop in Dn. destruct Dn as [_ Dn]. apply Z.gtb_lt in Dn.
      eexists; (split; [reflexivity|]); cbn.
      repeat split; try lia; discriminate.
    + destruct (((key =? KEY_F10) || (key =? KEY_BRIGHTNESSUP)) && (cur <? 10))
        eqn:Up.
      * apply andb_prop in Up. destruct Up as [_ Up]. apply Z.ltb_lt in Up.
        eexists; (split; [reflexivity|]); cbn.
        repeat split; try lia; discriminate.
      * eexists; (split; [reflexivity|]); cbn.
        repeat split; try lia; discriminate.
  - eexists; (split; [reflexivity|]); cbn.
    repeat split; try lia; discriminate.
Qed.

(** The zoom fields are floating-point numbers of the format given by
    [prec] and [emax] (their declaration is in compositor.h). *)
Variables prec emax : Z.

Definition zoom_one : spec_float := binary_normalize prec emax 1 0 false.

(** An output as [zoom_binding] sees it: whether its region contains the
    pointer, and its [zoom] fields. *)
Record zoom_output : Type := {
  zo_id : nat;
  contains_pointer : bool;
  zoom_active : Z;
  zoom_increment : spec_float;
  zoom_level : spec_float
}.

(** The body of the loop over the outputs, for an output that contains
    the pointer. [state] is non-zero for a key press. *)
Definition zoom_step (key state : Z) (o : zoom_output) : zoom_output :=
  let up := negb (state =? 0) && (key =? KEY_UP) in
  let down := negb (state =? 0) && (key =? KEY_DOWN) in
  let active1 := if up then 1 else zoom_active o in
  let level1 :=
    if up then SFsub prec emax (zoom_level o) (zoom_increment o)
    else zoom_level o in
  let level2 :=
    if down then SFadd prec emax level1 (zoom_increment o) else level1 in
  let high := SFleb zoom_one level2 in
  let active3 := if high then 0 else active1 in
  let level3 := if high then zoom_one else level2 in
  let level4 :=
    if SFltb level3 (zoom_increment o) then zoom_increment o else level3 in
  {| zo_id := zo_id o; contains_pointer := contains_pointer o;
     zoom_active := active3; zoom_increment := zoom_increment o;
     zoom_level := level4 |}.

(** Returns the outputs after the binding and the calls to
    [weston_output_update_zoom], in output order. *)
Definition zoom_binding (x y key state : Z) (outputs : list zoom_output)
  : list zoom_output * list input_call :=
  (map (fun o => if contains_pointer o then zoom_step key state o else o) outputs,
   flat_map (fun o => if contains_pointer o
                      then [weston_output_update_zoom (zo_id o) x y] else [])
            outputs).

Lemma SFltb_irrefl (a : spec_float) : SFltb a a = false.
Proof.
  unfold SFltb, SFcompare.
  destruct a as [s | s | | s m e]; try reflexivity.
  - destruct s; reflexivity.
  - rewrite Z.compare_refl. fold (Pos.compare m m). rewrite Pos.compare_refl.
    destruct s; reflexivity.
Qed.

Lemma SFleb_false_SFltb (a b : spec_float) : SFleb a b = false -> SFltb a b = false.
Proof.
  unfold SFleb, SFltb. destruct (SFcompare a b) as [[ | | ]|];
    try reflexivity; discriminate.
Qed.

(** X22. The zoom level is clamped: on every output that contains the pointer
    the level ends up not below the increment and, when the increment is
    not above one, not above one. Outputs that do not contain the pointer
    are untouched, and [weston_output_update_zoom] is called for exactly
    the others, in output order. *)
Theorem zoom_level_clamped (x y key state : Z) (outputs : list zoom_output) :
  Forall2 (fun o o' =>
             (contains_pointer o = false -> o' = o) /\
             (contains_pointer o = true ->
              zoom_increment o' = zoom_increment o /\
              SFltb (zoom_level o') (zoom_increment o) = false /\
              (SFltb zoom_one (zoom_increment o) = false ->
               SFltb zoom_one (zoom_level o') = false)))
          outputs (fst (zoom_binding x y key state outputs)) /\
  snd (zoom_binding x y key state outputs)
  = map (fun o => weston_output_update_zoom (zo_id o) x y)
        (filter contains_pointer outputs).
Proof.
  unfold zoom_binding. simpl fst. simpl snd. split.
  - induction outputs as [| o rest IH]; simpl; constructor; [| exact IH].
    destruct (contains_pointer o) eqn:C; split; intro H; try discriminate;
      [| reflexivity].
    unfold zoom_step.
    cbn [zoom_level zoom_increment zoom_active zo_id contains_pointer].
    set (level2 := if negb (state =? 0) && (key =? KEY_DOWN) then _ else _).
    split; [reflexivity|].
    destruct (SFleb zoom_one level2) eqn:High.
    + destruct (SFltb zoom_one (zoom_increment o)) eqn:Inc.
      * split; [apply SFltb_irrefl | discriminate].
      * split; [exact Inc | intros _; apply SFltb_irrefl].
    + destruct (SFltb level2 (zoom_increment o)) eqn:Low.
      * split; [apply SFltb_irrefl | intro I; exact I].
      * split; [exact Low | intros _; apply SFleb_false_SFltb; exact High].
  - induction outputs as [| o rest IH]; simpl; [reflexivity|].
    destruct (contains_pointer o); simpl; rewrite IH; reflexivity.
Qed.

End KeyBindings.

(** Brightness-down (code 224 in linux/input.h) at the lowest level. *)
Lemma backlight_stays_in_range_witness :
  exists w',
    backlight_binding 67 68 224 225 0 224 0 1
      {| bl_output := 0%nat; has_set_backlight := true;
         backlight_current := 1; bl_calls := [] |} = Done (tt, w') /\
    1 <= backlight_current w' <= 10 /\
    bl_calls w' = [set_backlight 0 (backlight_current w')].
Proof.
  destruct (@backlight_stays_in_range 67 68 224 225 0 224 0 1
              {| bl_output := 0%nat; has_set_backlight := true;
                 backlight_current := 1; bl_calls := [] |})
    as (w' & E & R & _ & C & _); [simpl; lia|].
  exists w'. split; [exact E|]. split; [exact R|]. exact (C eq_refl).
Defined.

(** On a binary32 level of 0.9 with increment 0.2, zooming out reaches
    one and switches the zoom off; zooming in from 0.3 stops at the
    increment. *)
Example zoom_reaches_bounds :
  let tenth (n : Z) := fdiv (float_of_int n) (float_of_int 10) in
  let out level := {| zo_id := 0%nat; contains_pointer := true;
                      zoom_active := 1; zoom_increment := tenth 2;
                      zoom_level := level |} in
  (zoom_active (zoom_step 103 108 prec32 emax32 108 1 (out (tenth 9))),
   zoom_level (zoom_step 103 108 prec32 emax32 108 1 (out (tenth 9))),
   zoom_level (zoom_step 103 108 prec32 emax32 103 1 (out (tenth 3))))
  = (0, f1, tenth 2).
Proof. vm_compute. reflexivity. Qed.

(** ** One shell-surface per surface *)

(** The destroy listeners of a [wl_surface]: the shell's own
    ([shell_handle_surface_destroy], with the shell-surface it belongs
    to) and any other. *)
Inductive destroy_listener : Type :=
| shell_handle_surface_destroy (shsurf : nat)
| other_listener.

(** A surface with its destroy listener list, the shell-surfaces that
    exist for it, and the trace. *)
Record surface_world : Type := {
  sw_surface_resource : nat;
  destroy_listener_list : list destroy_listener;
  shell_surfaces : list shell_surface;
  sw_trace : list effect
}.

Fixpoint get_shell_surface (l : list destroy_listener) : option nat :=
  match l with
  | [] => None
  | shell_handle_surface_destroy shsurf :: _ => Some shsurf
  | other_listener :: rest => get_shell_surface rest
  end.

(** [resource] is the wl_shell object the request came in on, [id] the
    new object's id, [calloc_ok] whether the allocation succeeds. The new
    record is the one [new_shell_surface] describes; its listener goes to
    the end of the surface's list. (The hand-over of the new resource to
    the client, [wl_client_add_resource], is not traced.) *)
Definition shell_get_shell_surface (resource id : nat) (calloc_ok : bool)
  : M surface_world unit :=
  modify (fun w =>
    match get_shell_surface (destroy_listener_list w) with
    | Some _ =>
        {| sw_surface_resource := sw_surface_resource w;
           destroy_listener_list := destroy_listener_list w;
           shell_surfaces := shell_surfaces w;
           sw_trace := sw_trace w ++
             [wl_resource_post_error (sw_surface_resource w)
                WL_DISPLAY_ERROR_INVALID_OBJECT
                "wl_shell::get_shell_surface already requested"] |}
    | None =>
        if negb calloc_ok then
          {| sw_surface_resource := sw_surface_resource w;
             destroy_listener_list := destroy_listener_list w;
             shell_surfaces := shell_surfaces w;
             sw_trace := sw_trace w ++ [wl_resource_post_no_memory resource] |}
        else
          {| sw_surface_resource := sw_surface_resource w;
             destroy_listener_list :=
               destroy_listener_list w ++ [shell_handle_surface_destroy id];
             shell_surfaces := new_shell_surface id :: shell_surfaces w;
             sw_trace := sw_trace w |}
    end).

Fixpoint remove_shell_listener (id : nat) (l : list destroy_listener)
  : list destroy_listener :=
  match l with
  | [] => []
  | shell_handle_surface_destroy s :: rest =>
      if Nat.eqb s id then rest
      else shell_handle_surface_destroy s :: remove_shell_listener id rest
  | other_listener :: rest => other_listener :: remove_shell_listener id rest
  end.

(** [destroy_shell_surface] for shell-surface [id] while its surface is
    alive and no popup grab is running: the listener is unhooked, a
    backdrop that exists is destroyed, the record is freed. (The link on
    the shell's role lists, which is unhooked too, is not part of this
    world.) *)
Definition destroy_shell_surface (id : nat) : M surface_world unit :=
  modify (fun w =>
    {| sw_surface_resource := sw_surface_resource w;
       destroy_listener_list := remove_shell_listener id (destroy_listener_list w);
       shell_surfaces :=
         filter (fun s => negb (Nat.eqb (resource s) id)) (shell_surfaces w);
       sw_trace := sw_trace w ++
         flat_map (fun s => if Nat.eqb (resource s) id then
                              match black_surface s with
                              | Some b => [weston_surface_destroyed b]
                              | None => []
                              end
                            else [])
                  (shell_surfaces w) |}).

Definition shell_listeners (l : list destroy_listener) : nat :=
  List.length (filter (fun d => match d with
                                | shell_handle_surface_destroy _ => true
                                | other_listener => false
                                end) l).

Fixpoint get_shell_surface_requests (rs : list (nat * nat * bool))
  : M surface_world unit :=
  match rs with
  | [] => ret tt
  | (resource, id, calloc_ok) :: rest =>
      shell_get_shell_surface resource id calloc_ok ;;;
      get_shell_surface_requests rest
  end.

Lemma get_shell_surface_none (l : list destroy_listener) :
  get_shell_surface l = None <-> shell_listeners l = 0%nat.
Proof.
  unfold shell_listeners. induction l as [| [s|] rest IH]; simpl.
  - tauto.
  - split; discriminate.
  - exact IH.
Qed.

Lemma shell_listeners_app (l m : list destroy_listener) :
  shell_listeners (l ++ m) = (shell_listeners l + shell_listeners m)%nat.
Proof. unfold shell_listeners. rewrite filter_app, length_app. reflexivity. Qed.

(** X23. However many [get_shell_surface] requests a surface receives, it
    never has more than one shell-surface: the surface's listener list
    holds at most one shell listener and the number of shell-surfaces
    equals it. Once one exists, every further request only posts the
    "already requested" error. *)
Theorem at_most_one_shell_surface (rs : list (nat * nat * bool)) :
  forall w : surface_world,
    (shell_listeners (destroy_listener_list w) <= 1)%nat ->
    List.length (shell_surfaces w) = shell_listeners (destroy_listener_list w) ->
    exists w',
      get_shell_surface_requests rs w = Done (tt, w') /\
      (shell_listeners (destroy_listener_list w') <= 1)%nat /\
      List.length (shell_surfaces w')
      = shell_listeners (destroy_listener_list w') /\
      (shell_listeners (destroy_listener_list w) = 1%nat ->
       destroy_listener_list w' = destroy_listener_list w /\
       shell_surfaces w' = shell_surfaces w /\
       sw_trace w'
       = sw_trace w ++
         repeat (wl_resource_post_error (sw_surface_resource w)
                   WL_DISPLAY_ERROR_INVALID_OBJECT
                   "wl_shell::get_shell_surface already requested")
                (List.length rs)).
Proof.
  induction rs as [| [[resource id] ok] rest IH]; intros w Le Hlen.
  - exists w. simpl. repeat split; try assumption.
    rewrite app_nil_r. reflexivity.
  - simpl. unfold shell_get_shell_surface at 1. unfold bind, modify.
    destruct (get_shell_surface (destroy_listener_list w)) as [existing|] eqn:Gs.
    + assert (One : shell_listeners (destroy_listener_list w) = 1%nat).
      { destruct (shell_listeners (destroy_listener_list w)) as [| n] eqn:N.
        - apply get_shell_surface_none in N. congruence.
        - lia. }
      match goal with
      | |- exists w', get_shell_surface_requests rest ?x = _ /\ _ =>
          destruct (IH x) as (w' & E & Le' & Hlen' & Same)
      end; [exact Le | exact Hlen |].
      exists w'. split; [exact E|]. split; [exact Le'|]. split; [exact Hlen'|].
      intros _. destruct (Same One) as (A & B & C). simpl in A, B, C.
      repeat split; try assumption.
      rewrite C. rewrite <- app_assoc. reflexivity.
    + assert (Zero : shell_listeners (destroy_listener_list w) = 0%nat)
        by (apply get_shell_surface_none; exact Gs).
      destruct ok; simpl.
      * match goal with
        | |- exists w', get_shell_surface_requests rest ?x = _ /\ _ =>
            destruct (IH x) as (w' & E & Le' & Hlen' & _)
        end.
        -- simpl. rewrite shell_listeners_app, Zero.
           unfold shell_listeners. simpl. lia.
        -- simpl. rewrite shell_listeners_app, Zero, Hlen, Zero. reflexivity.
        -- exists w'. split; [exact E|]. split; [exact Le'|].
           split; [exact Hlen'|]. intro One. congruence.
      * match goal with
        | |- exists w', get_shell_surface_requests rest ?x = _ /\ _ =>
            destruct (IH x) as (w' & E & Le' & Hlen' & _)
        end; [exact Le | exact Hlen |].
        exists w'. split; [exact E|]. split; [exact Le'|].
        split; [exact Hlen'|]. intro One. congruence.
Qed.

(** X24. Destroying the shell-surface frees the surface for a new role record:
    a [get_shell_surface] after [destroy_shell_surface] succeeds again. *)
Theorem shell_surface_can_be_recreated (resource id id2 : nat) (w : surface_world) :
  get_shell_surface (destroy_listener_list w) = None ->
  shell_surfaces w = [] ->
  (shell_get_shell_surface resource id true ;;;
   destroy_shell_surface id ;;;
   shell_get_shell_surface resource id2 true) w
  = Done (tt, {| sw_surface_resource := sw_surface_resource w;
                 destroy_listener_list :=
                   destroy_listener_list w ++ [shell_handle_surface_destroy id2];
                 shell_surfaces := [new_shell_surface id2];
                 sw_trace := sw_trace w |}).
Proof.
  intros Gs Nil. destruct w as [sr l ss tr]. cbn in Gs, Nil. subst ss.
  unfold shell_get_shell_surface, destroy_shell_surface. unfold_M. cbn.
  rewrite Gs. cbn. rewrite Nat.eqb_refl. cbn.
  assert (R : remove_shell_listener id (l ++ [shell_handle_surface_destroy id]) = l).
  { clear - Gs. induction l as [| [s|] rest IH]; simpl.
    - rewrite Nat.eqb_refl. reflexivity.
    - simpl in Gs. discriminate.
    - simpl in Gs. rewrite (IH Gs). reflexivity. }
  rewrite R, Gs. cbn. rewrite app_nil_r. reflexivity.
Qed.

Definition bare_surface : surface_world :=
  {| sw_surface_resource := 4%nat; destroy_listener_list := [other_listener];
     shell_surfaces := []; sw_trace := [] |}.

Lemma at_most_one_shell_surface_witness :
  exists w',
    get_shell_surface_requests [(1%nat, 7%nat, true); (1%nat, 8%nat, true)]
      bare_surface = Done (tt, w') /\
    (shell_listeners (destroy_listener_list w') <= 1)%nat /\
    List.length (shell_surfaces w') = shell_listeners (destroy_listener_list w').
Proof.
  destruct (@at_most_one_shell_surface
              [(1%nat, 7%nat, true); (1%nat, 8%nat, true)] bare_surface)
    as (w' & E & Le & Hlen & _);
    [unfold shell_listeners; simpl; lia | reflexivity |].
  exists w'. auto.
Defined.

Lemma shell_surface_can_be_recreated_witness :
  (shell_get_shell_surface 1 7 true ;;;
   destroy_shell_surface 7 ;;;
   shell_get_shell_surface 1 8 true) bare_surface
  = Done (tt, {| sw_surface_resource := 4%nat;
                 destroy_listener_list :=
                   [other_listener; shell_handle_surface_destroy 8];
                 shell_surfaces := [new_shell_surface 8];
                 sw_trace := [] |}).
Proof.
  apply (@shell_surface_can_be_recreated 1%nat 7%nat 8%nat bare_surface);
    reflexivity.
Defined.

(** ** The keyboard switcher *)

(** A surface of [compositor->surface_list] as the switcher sees it: its
    role ([get_shell_surface_type]), whether its destroy listener list is
    initialised (it is not for cursor surfaces), its alpha and its dirty
    flag. Surfaces are told apart by [sws_id]. *)
Record switch_surface : Type := {
  sws_id : nat;
  sws_type : shell_surface_type;
  sws_listed : bool;
  sws_alpha : Z;
  sws_dirty : Z
}.

(** [struct switcher] with the compositor's surface list: the current
    surface, the surface whose destroy list holds the switcher's listener,
    and the calls made. *)
Record switcher : Type := {
  surface_list : list switch_surface;
  switcher_current : option nat;
  listener_on : option nat;
  switcher_calls : list input_call
}.

Definition switchable (s : switch_surface) : bool :=
  sws_listed s &&
  match sws_type s with
  | SHELL_SURFACE_TOPLEVEL
  | SHELL_SURFACE_FULLSCREEN
  | SHELL_SURFACE_MAXIMIZED => true
  | _ => false
  end.

Definition with_alpha (a : Z) (s : switch_surface) : switch_surface :=
  {| sws_id := sws_id s; sws_type := sws_type s; sws_listed := sws_listed s;
     sws_alpha := a; sws_dirty := sws_dirty s |}.

Definition dimmed (s : switch_surface) : switch_surface :=
  {| sws_id := sws_id s; sws_type := sws_type s; sws_listed := sws_listed s;
     sws_alpha := 64; sws_dirty := 1 |}.

Definition pointer_eqb (a b : option nat) : bool :=
  match a, b with
  | None, None => true
  | Some x, Some y => Nat.eqb x y
  | _, _ => false
  end.

(** The loop of [switcher_next]: the surfaces after it, and the final
    [first], [prev] and [next]. *)
Fixpoint switcher_scan (cur : option nat) (l : list switch_surface)
  (first prev next : option nat)
  : list switch_surface * (option nat * option nat * option nat) :=
  match l with
  | [] => ([], (first, prev, next))
  | s :: rest =>
      if switchable s then
        let first' := match first with
                      | None => Some (sws_id s)
                      | Some _ => first
                      end in
        let next' := if pointer_eqb prev cur then Some (sws_id s) else next in
        let '(rest', r) :=
          switcher_scan cur rest first' (Some (sws_id s)) next' in
        (dimmed s :: rest', r)
      else
        let '(rest', r) := switcher_scan cur rest first prev next in
        (s :: rest', r)
  end.

Definition switcher_next : M switcher unit :=
  w <- get ;;
  let '(surfaces, (first, _, next)) :=
    switcher_scan (switcher_current w) (surface_list w) None None None in
  let next := match next with
              | None => first
              | Some _ => next
              end in
  n <- deref "next->surface" next ;;
  modify (fun w =>
    {| surface_list :=
         map (fun s => if Nat.eqb (sws_id s) n then with_alpha 255 s else s)
             surfaces;
       switcher_current := Some n;
       listener_on := Some n;
       switcher_calls :=
         switcher_calls w ++
         map (fun s => weston_surface_damage (sws_id s))
             (filter switchable (surface_list w)) |}).


Definition switchable_ids (l : list switch_surface) : list nat :=
  map sws_id (filter switchable l).

(** The element after the first occurrence of [c]. *)
Fixpoint after (c : nat) (l : list nat) : option nat :=
  match l with
  | [] => None
  | a :: rest => if Nat.eqb a c then hd_error rest else after c rest
  end.

(** The next surface in list order, wrapping to the first. *)
Definition cyclic_next (cur : option nat) (ids : list nat) : option nat :=
  match cur with
  | None => hd_error ids
  | Some c => match after c ids with
              | Some n => Some n
              | None => hd_error ids
              end
  end.

(** The loop on the ids of the switchable surfaces alone. *)
Fixpoint scan_ids (cur : option nat) (ids : list nat) (first prev next : option nat)
  : option nat * option nat * option nat :=
  match ids with
  | [] => (first, prev, next)
  | a :: rest =>
      scan_ids cur rest
        (match first with None => Some a | Some _ => first end)
        (Some a)
        (if pointer_eqb prev cur then Some a else next)
  end.

Lemma switcher_scan_ids (cur : option nat) (l : list switch_surface) :
  forall first prev next,
    switcher_scan cur l first prev next
    = (map (fun s => if switchable s then dimmed s else s) l,
       scan_ids cur (switchable_ids l) first prev next).
Proof.
  unfold switchable_ids.
  induction l as [| s rest IH]; intros first prev next; simpl; [reflexivity|].
  destruct (switchable s); simpl; rewrite IH; reflexivity.
Qed.

Lemma scan_ids_first (cur : option nat) (ids : list nat) :
  forall first prev next,
    fst (fst (scan_ids cur ids first prev next))
    = match first with
      | Some _ => first
      | None => hd_error ids
      end.
Proof.
  induction ids as [| a rest IH]; intros first prev next; simpl.
  - destruct first; reflexivity.
  - rewrite IH. destruct first; reflexivity.
Qed.

Lemma scan_ids_absent (c : nat) (ids : list nat) :
  forall first prev next,
    ~ In c ids -> prev <> Some c ->
    snd (scan_ids (Some c) ids first prev next) = next.
Proof.
  induction ids as [| a rest IH]; intros first prev next Hin Hp; simpl;
    [reflexivity|].
  rewrite IH.
  - destruct prev as [p|]; simpl; [| reflexivity].
    destruct (Nat.eqb p c) eqn:X; [| reflexivity].
    apply Nat.eqb_eq in X. congruence.
  - intro H. apply Hin. right. exact H.
  - intro H. inversion H. apply Hin. left. assumption.
Qed.

Lemma scan_ids_next (c : nat) (ids : list nat) :
  forall first prev next,
    NoDup ids -> prev <> Some c ->
    snd (scan_ids (Some c) ids first prev next)
    = match after c ids with
      | Some n => Some n
      | None => next
      end.
Proof.
  induction ids as [| a rest IH]; intros first prev next Nd Hp; simpl;
    [reflexivity|].
  inversion Nd as [| a' rest' Hnot Nd']; subst.
  assert (Pe : pointer_eqb prev (Some c) = false).
  { destruct prev as [p|]; simpl; [| reflexivity].
    apply Nat.eqb_neq. congruence. }
  rewrite Pe. destruct (Nat.eqb a c) eqn:X.
  - apply Nat.eqb_eq in X. subst a.
    destruct rest as [| b rest2]; simpl; [reflexivity|].
    rewrite Nat.eqb_refl.
    rewrite scan_ids_absent; [reflexivity | |].
    + intro H. apply Hnot. right. exact H.
    + intro H. inversion H. subst. apply Hnot. left. reflexivity.
  - apply IH; [exact Nd'|].
    intro H. inversion H. subst. rewrite Nat.eqb_refl in X. discriminate.
Qed.

Lemma scan_ids_next_none (ids : list nat) :
  forall first prev next,
    prev <> None ->
    snd (scan_ids None ids first prev next) = next.
Proof.
  induction ids as [| a rest IH]; intros first prev next Hp; simpl;
    [reflexivity|].
  rewrite IH by discriminate.
  destruct prev; [reflexivity | congruence].
Qed.

Lemma switchable_ids_NoDup (l : list switch_surface) :
  NoDup (map sws_id l) -> NoDup (switchable_ids l).
Proof.
  unfold switchable_ids. induction l as [| s rest IH]; simpl; intro Nd;
    [constructor|].
  inversion Nd as [| a r Hnot Nd']; subst.
  destruct (switchable s); simpl; [| exact (IH Nd')].
  constructor; [| exact (IH Nd')].
  intro H. apply Hnot. apply in_map_iff in H. destruct H as (x & E & Hin).
  apply in_map_iff. exists x. split; [exact E|].
  apply filter_In in Hin. tauto.
Qed.

(** What the scan leaves in [next], once the fallback to [first] is
    applied: the cyclic successor of the current surface. *)
Lemma scan_ids_cyclic (cur : option nat) (ids : list nat) :
  NoDup ids ->
  match snd (scan_ids cur ids None None None) with
  | None => fst (fst (scan_ids cur ids None None None))
  | Some n => Some n
  end = cyclic_next cur ids.
Proof.
  intro Nd. rewrite scan_ids_first. unfold cyclic_next.
  destruct cur as [c|].
  - rewrite scan_ids_next by (assumption || discriminate).
    destruct (after c ids); reflexivity.
  - destruct ids as [| a rest]; simpl; [reflexivity|].
    rewrite scan_ids_next_none by discriminate. reflexivity.
Qed.

Lemma after_In (c n : nat) (ids : list nat) : after c ids = Some n -> In n ids.
Proof.
  induction ids as [| a rest IH]; simpl; [discriminate|].
  destruct (Nat.eqb a c).
  - destruct rest as [| b rest2]; simpl; [discriminate|].
    intro H. inversion H. subst. right. left. reflexivity.
  - intro H. right. exact (IH H).
Qed.

Lemma cyclic_next_In (cur : option nat) (n : nat) (ids : list nat) :
  cyclic_next cur ids = Some n -> In n ids.
Proof.
  unfold cyclic_next. intro H.
  assert (Hd : hd_error ids = Some n -> In n ids).
  { destruct ids; simpl; [discriminate|]. intro E. inversion E. left; reflexivity. }
  destruct cur as [c|]; [| exact (Hd H)].
  destruct (after c ids) eqn:A; [| exact (Hd H)].
  inversion H. subst. exact (after_In _ _ A).
Qed.

Lemma cyclic_next_some (cur : option nat) (ids : list nat) :
  ids <> [] -> exists n, cyclic_next cur ids = Some n.
Proof.
  intro Ne. unfold cyclic_next.
  destruct ids as [| a rest]; [congruence|].
  destruct cur as [c|]; [| exists a; reflexivity].
  destruct (after c (a :: rest)) as [n|]; [exists n | exists a]; reflexivity.
Qed.

Lemma unique_id (l : list switch_surface) (a b : switch_surface) :
  NoDup (map sws_id l) -> In a l -> In b l -> sws_id a = sws_id b -> a = b.
Proof.
  induction l as [| s rest IH]; simpl; intros Nd Ha Hb E; [contradiction|].
  inversion Nd as [| x r Hnot Nd']; subst.
  destruct Ha as [Ha | Ha]; destruct Hb as [Hb | Hb].
  - congruence.
  - subst a. exfalso. apply Hnot. rewrite E. apply in_map. exact Hb.
  - subst b. exfalso. apply Hnot. rewrite <- E. apply in_map. exact Ha.
  - exact (IH Nd' Ha Hb E).
Qed.

(** The surfaces after a [switcher_next] that made [n] current. *)
Definition highlighted (n : nat) (s : switch_surface) : switch_surface :=
  if switchable s then
    if Nat.eqb (sws_id s) n then with_alpha 255 (dimmed s) else dimmed s
  else s.

(** One Tab press, in full. *)
Lemma switcher_next_step (w : switcher) :
  NoDup (map sws_id (surface_list w)) ->
  switchable_ids (surface_list w) <> [] ->
  exists n,
    cyclic_next (switcher_current w) (switchable_ids (surface_list w)) = Some n /\
    In n (switchable_ids (surface_list w)) /\
    switcher_next w
    = Done (tt, {| surface_list := map (highlighted n) (surface_list w);
                   switcher_current := Some n;
                   listener_on := Some n;
                   switcher_calls :=
                     switcher_calls w ++
                     map (fun s => weston_surface_damage (sws_id s))
                         (filter switchable (surface_list w)) |}).
Proof.
  intros Nd Ne.
  destruct (cyclic_next_some (switcher_current w) Ne) as (n & Cn).
  pose proof (cyclic_next_In _ _ Cn) as Hin.
  exists n. split; [exact Cn|]. split; [exact Hin|].
  unfold switcher_next. unfold bind at 1. unfold get.
  rewrite switcher_scan_ids.
  pose proof (scan_ids_cyclic (switcher_current w)
                (switchable_ids_NoDup _ Nd)) as Cy.
  rewrite Cn in Cy.
  destruct (scan_ids (switcher_current w) (switchable_ids (surface_list w))
              None None None) as [[first prev] next].
  simpl in Cy.
  assert (Nx : match next with None => first | Some _ => next end = Some n)
    by (destruct next; exact Cy).
  rewrite Nx. unfold_M. simpl.
  f_equal. f_equal. f_equal.
  rewrite map_map. apply map_ext_in. intros s Hs.
  unfold highlighted. destruct (switchable s) eqn:Sw; [reflexivity|].
  destruct (Nat.eqb (sws_id s) n) eqn:X; [| reflexivity].
  exfalso. apply Nat.eqb_eq in X.
  unfold switchable_ids in Hin. apply in_map_iff in Hin.
  destruct Hin as (s' & E & Hf). apply filter_In in Hf. destruct Hf as [Hs' Sw'].
  assert (s' = s) by (apply (@unique_id (surface_list w) s' s Nd Hs' Hs); congruence).
  subst s'. congruence.
Qed.

(** X25. Tab moves to the next switchable surface in the order of the
    compositor's surface list and wraps around at the end; with no
    current surface, or one that is no longer switchable, it takes the
    first. The new current surface is opaque (alpha 255), every other
    switchable surface is dimmed (alpha 64), all other surfaces are left
    alone, and the destroy listener moves to the new current surface. *)
Theorem switcher_next_advances (w : switcher) :
  NoDup (map sws_id (surface_list w)) ->
  switchable_ids (surface_list w) <> [] ->
  exists n,
    cyclic_next (switcher_current w) (switchable_ids (surface_list w)) = Some n /\
    In n (switchable_ids (surface_list w)) /\
    switcher_next w
    = Done (tt, {| surface_list := map (highlighted n) (surface_list w);
                   switcher_current := Some n;
                   listener_on := Some n;
                   switcher_calls :=
                     switcher_calls w ++
                     map (fun s => weston_surface_damage (sws_id s))
                         (filter switchable (surface_list w)) |}).
Proof. exact (switcher_next_step w). Qed.

(** X26. With no switchable surface at all there is nothing to make current:
    [next] stays [NULL] and [switcher_next] reads through it. *)
Theorem switcher_next_without_candidates (w : switcher) :
  switchable_ids (surface_list w) = [] ->
  switcher_next w = Fault "next->surface".
Proof.
  intro E. unfold switcher_next. unfold bind at 1. unfold get.
  rewrite switcher_scan_ids, E. reflexivity.
Qed.


(** *** A full round of Tab presses *)

Fixpoint tab_presses (k : nat) : M switcher unit :=
  match k with
  | O => ret tt
  | S j => switcher_next ;;; tab_presses j
  end.

Lemma after_nth (ids : list nat) :
  forall i, NoDup ids -> (i < List.length ids)%nat ->
    after (nth i ids O) ids
    = if Nat.ltb (S i) (List.length ids) then Some (nth (S i) ids O) else None.
Proof.
  induction ids as [| a rest IH]; intros i Nd Hi; simpl in Hi; [lia|].
  inversion Nd as [| x r Hnot Nd']; subst.
  destruct i as [| j].
  - simpl. rewrite Nat.eqb_refl. destruct rest; reflexivity.
  - change (nth (S j) (a :: rest) O) with (nth j rest O).
    simpl after.
    assert (Hj : (j < List.length rest)%nat) by lia.
    assert (Ne : Nat.eqb a (nth j rest O) = false).
    { apply Nat.eqb_neq. intro E. apply Hnot. rewrite E. apply nth_In. exact Hj. }
    rewrite Ne, (IH j Nd' Hj).
    change (List.length (a :: rest)) with (S (List.length rest)).
    change (nth (S (S j)) (a :: rest) O) with (nth (S j) rest O).
    destruct (Nat.ltb (S j) (List.length rest)) eqn:L1;
      destruct (Nat.ltb (S (S j)) (S (List.length rest))) eqn:L2;
      try reflexivity;
      [apply Nat.ltb_lt in L1; apply Nat.ltb_ge in L2
      | apply Nat.ltb_ge in L1; apply Nat.ltb_lt in L2]; lia.
Qed.

Lemma cyclic_next_nth (ids : list nat) (i : nat) :
  NoDup ids -> (i < List.length ids)%nat ->
  cyclic_next (Some (nth i ids O)) ids
  = Some (nth (Nat.modulo (S i) (List.length ids)) ids O).
Proof.
  intros Nd Hi. unfold cyclic_next. rewrite (after_nth Nd Hi).
  destruct (Nat.ltb (S i) (List.length ids)) eqn:L.
  - apply Nat.ltb_lt in L. rewrite Nat.mod_small by exact L. reflexivity.
  - apply Nat.ltb_ge in L.
    assert (E : S i = List.length ids) by lia.
    rewrite E, Nat.Div0.mod_same.
    destruct ids; [simpl in Hi; lia | reflexivity].
Qed.

Lemma highlighted_keeps (n : nat) (l : list switch_surface) :
  map sws_id (map (highlighted n) l) = map sws_id l /\
  switchable_ids (map (highlighted n) l) = switchable_ids l.
Proof.
  unfold switchable_ids. induction l as [| s rest [IH1 IH2]]; simpl;
    [split; reflexivity|].
  assert (Id : sws_id (highlighted n s) = sws_id s).
  { unfold highlighted. destruct (switchable s); [| reflexivity].
    destruct (Nat.eqb (sws_id s) n); reflexivity. }
  assert (Sw : switchable (highlighted n s) = switchable s).
  { unfold highlighted. destruct (switchable s) eqn:X; [| exact X].
    destruct (Nat.eqb (sws_id s) n); exact X. }
  rewrite Id, Sw, IH1. split; [reflexivity|].
  destruct (switchable s); simpl; rewrite ?Id, IH2; reflexivity.
Qed.

Lemma tab_presses_position (k : nat) :
  forall (w : switcher) (i : nat),
    NoDup (map sws_id (surface_list w)) ->
    (i < List.length (switchable_ids (surface_list w)))%nat ->
    switcher_current w = Some (nth i (switchable_ids (surface_list w)) O) ->
    exists w',
      tab_presses k w = Done (tt, w') /\
      switchable_ids (surface_list w') = switchable_ids (surface_list w) /\
      switcher_current w'
      = Some (nth (Nat.modulo (i + k) (List.length (switchable_ids (surface_list w))))
                  (switchable_ids (surface_list w)) O).
Proof.
  induction k as [| j IH]; intros w i Nd Hi Cur.
  - exists w. simpl. repeat split.
    rewrite Nat.add_0_r, Nat.mod_small by exact Hi. exact Cur.
  - assert (Ne : switchable_ids (surface_list w) <> []).
    { intro E. rewrite E in Hi. simpl in Hi. lia. }
    destruct (switcher_next_step w Nd Ne) as (n & Cn & _ & E).
    rewrite Cur, (cyclic_next_nth (switchable_ids_NoDup _ Nd) Hi) in Cn.
    inversion Cn as [Hn]. clear Cn.
    simpl. rewrite (bind_done _ E).
    destruct (highlighted_keeps n (surface_list w)) as [Ids Sws].
    match goal with
    | |- exists w', tab_presses j ?x = _ /\ _ =>
        destruct (IH x (Nat.modulo (S i) (List.length (switchable_ids (surface_list w)))))
          as (w' & E' & Sw' & Cur')
    end.
    + simpl. rewrite Ids. exact Nd.
    + simpl. rewrite Sws. apply Nat.mod_upper_bound. lia.
    + simpl. rewrite Sws. rewrite Hn. reflexivity.
    + exists w'. split; [exact E'|]. simpl in Sw', Cur'. rewrite Sws in Sw', Cur'.
      split; [exact Sw'|]. rewrite Cur'. f_equal. f_equal.
      rewrite Nat.Div0.add_mod_idemp_l. f_equal. lia.
Qed.

(** X28. Pressing Tab as many times as there are switchable surfaces goes once
    round: the surface that was current is current again. *)
Theorem switcher_full_round (w : switcher) (i : nat) :
  NoDup (map sws_id (surface_list w)) ->
  (i < List.length (switchable_ids (surface_list w)))%nat ->
  switcher_current w = Some (nth i (switchable_ids (surface_list w)) O) ->
  exists w',
    tab_presses (List.length (switchable_ids (surface_list w))) w = Done (tt, w') /\
    switcher_current w' = switcher_current w.
Proof.
  intros Nd Hi Cur.
  destruct (tab_presses_position (List.length (switchable_ids (surface_list w)))
              w Nd Hi Cur) as (w' & E & _ & C).
  exists w'. split; [exact E|]. rewrite C, Cur. f_equal. f_equal.
  rewrite <- Nat.Div0.add_mod_idemp_r, Nat.Div0.mod_same, Nat.add_0_r.
  apply Nat.mod_small. exact Hi.
Qed.

(** Three toplevel windows 1, 2, 3 among a cursor surface (9, without a
    listener list) and a panel (5); window 2 is current. *)
Definition demo_switcher : switcher :=
  {| surface_list :=
       [{| sws_id := 9%nat; sws_type := SHELL_SURFACE_NONE; sws_listed := false;
           sws_alpha := 255; sws_dirty := 0 |};
        {| sws_id := 5%nat; sws_type := SHELL_SURFACE_PANEL; sws_listed := true;
           sws_alpha := 255; sws_dirty := 0 |};
        {| sws_id := 1%nat; sws_type := SHELL_SURFACE_TOPLEVEL; sws_listed := true;
           sws_alpha := 64; sws_dirty := 1 |};
        {| sws_id := 2%nat; sws_type := SHELL_SURFACE_TOPLEVEL; sws_listed := true;
           sws_alpha := 255; sws_dirty := 1 |};
        {| sws_id := 3%nat; sws_type := SHELL_SURFACE_MAXIMIZED; sws_listed := true;
           sws_alpha := 64; sws_dirty := 1 |}];
     switcher_current := Some 2%nat;
     listener_on := Some 2%nat;
     switcher_calls := [] |}.

Lemma demo_switcher_NoDup : NoDup (map sws_id (surface_list demo_switcher)).
Proof.
  simpl. repeat constructor; simpl; intuition discriminate.
Defined.

Lemma switcher_next_advances_witness :
  exists n,
    cyclic_next (switcher_current demo_switcher)
      (switchable_ids (surface_list demo_switcher)) = Some n /\
    In n (switchable_ids (surface_list demo_switcher)) /\
    switcher_next demo_switcher
    = Done (tt, {| surface_list :=
                     map (highlighted n) (surface_list demo_switcher);
                   switcher_current := Some n;
                   listener_on := Some n;
                   switcher_calls :=
                     switcher_calls demo_switcher ++
                     map (fun s => weston_surface_damage (sws_id s))
                         (filter switchable (surface_list demo_switcher)) |}).
Proof.
  apply switcher_next_advances; [exact demo_switcher_NoDup | discriminate].
Defined.

Lemma switcher_next_without_candidates_witness :
  switcher_next {| surface_list := firstn 2 (surface_list demo_switcher);
                   switcher_current := None; listener_on := None;
                   switcher_calls := [] |}
  = Fault "next->surface".
Proof.
  apply switcher_next_without_candidates. reflexivity.
Defined.


Lemma switcher_full_round_witness :
  exists w',
    tab_presses 3 demo_switcher = Done (tt, w') /\
    switcher_current w' = switcher_current demo_switcher.
Proof.
  apply (@switcher_full_round demo_switcher 1%nat);
    [exact demo_switcher_NoDup | simpl; lia | reflexivity].
Defined.

(** The switcher scenario: from window 2, Tab goes to 3, then wraps to 1;
    window 1 is opaque, 2 and 3 are dimmed, cursor and panel keep their
    alpha. *)
Example switcher_two_tabs :
  option_map (fun w => (switcher_current w,
                        map (fun s => (sws_id s, sws_alpha s)) (surface_list w)))
    (exec (tab_presses 2) demo_switcher)
  = Some (Some 1%nat,
          [(9%nat, 255); (5%nat, 255); (1%nat, 255); (2%nat, 64); (3%nat, 64)]).
Proof. reflexivity. Qed.

(** ** Releasing a rotate grab *)

Section RotateRelease.

Variable weston_matrix_multiply : weston_matrix -> weston_matrix -> weston_matrix.
Variable weston_matrix_translate :
  weston_matrix -> GLfloat -> GLfloat -> GLfloat -> weston_matrix.

(** [button_count] is the device's count of pressed buttons. The result
    says whether the grab was released (the pointer grab ended and the
    grab freed); on release the grab's rotation is folded into the
    committed one. *)
Definition rotate_grab_button (button_count time button state : Z)
  : M rotate_world bool :=
  if (button_count =? 0) && (state =? 0) then
    modify (fun w =>
      {| pointer_x := pointer_x w; pointer_y := pointer_y w;
         surface_width := surface_width w; surface_height := surface_height w;
         geometry_dirty := geometry_dirty w;
         transformation_list := transformation_list w;
         rotation_transform_matrix := rotation_transform_matrix w;
         rotation_rotation :=
           weston_matrix_multiply (rotation_rotation w) (grab_rotation w);
         grab_rotation := grab_rotation w;
         center_x := center_x w; center_y := center_y w;
         rotate_trace := rotate_trace w |}) ;;;
    ret true
  else ret false.

(** X29. A rotation that is let go within 20 pixels of the centre leaves the
    surface unrotated for good: after the last motion and the release of
    the last button the committed rotation is the identity and no rotation
    transform is on the surface. (The matrix product of the compositor
    maps two identities to the identity.) *)
Theorem rotate_released_near_centre (t1 t2 x y button : Z) (w : rotate_world) :
  weston_matrix_multiply weston_matrix_init weston_matrix_init
  = weston_matrix_init ->
  (pointer_x w - center_x w) * (pointer_x w - center_x w) +
  (pointer_y w - center_y w) * (pointer_y w - center_y w) <= 400 ->
  exists w',
    (rotate_grab_motion weston_matrix_multiply weston_matrix_translate t1 x y ;;;
     rotate_grab_button 0 t2 button 0) w = Done (true, w') /\
    rotation_rotation w' = weston_matrix_init /\
    ~ In rotation_transform (transformation_list w').
Proof.
  intros Hid H.
  assert (Hx : -20 <= pointer_x w - center_x w <= 20)
    by (apply (square_sum_bound _ (pointer_y w - center_y w)); lia).
  assert (Hy : -20 <= pointer_y w - center_y w <= 20)
    by (apply (square_sum_bound _ (pointer_x w - center_x w)); lia).
  pose proof (near_centre_guard _ _ H) as Gd. unfold far_from_centre in Gd.
  unfold rotate_grab_motion, rotate_grab_button, rotate_distance. unfold_M.
  rewrite !wrap_int32_small by (unfold is_int32; lia).
  rewrite Gd. simpl. rewrite Hid.
  eexists. split; [reflexivity|]. simpl. split; [reflexivity|].
  unfold remove_rotation_link. intro Hin. apply filter_In in Hin.
  destruct Hin as [_ Hin]. discriminate.
Qed.

End RotateRelease.

Lemma rotate_released_near_centre_witness :
  exists w',
    (rotate_grab_motion matrix_multiply matrix_translate 0 212 166 ;;;
     rotate_grab_button matrix_multiply 0 1 272 0) (rotated_world 212 166)
    = Done (true, w') /\
    rotation_rotation w' = weston_matrix_init /\
    ~ In rotation_transform (transformation_list w').
Proof.
  apply (@rotate_released_near_centre matrix_multiply matrix_translate
           0 1 212 166 272 (rotated_world 212 166)).
  - vm_compute. reflexivity.
  - vm_compute. discriminate.
Defined.

(** ** Locking with screensaver surfaces *)

Lemma resume_desktop_wakes (s : wl_shell) :
  layer_list (compositor s) = locked_layer_order ->
  exists s',
    resume_desktop s = Done (tt, s') /\
    idle_time (compositor s') = option_idle_time (compositor s) /\
    state (compositor s') = WESTON_COMPOSITOR_ACTIVE.
Proof.
  intro L.
  destruct s as [[ll it oit st outs devs] ch lk pes ls [sp sd sb sss spid] tr].
  cbn in L. subst ll.
  unfold resume_desktop. unfold bind at 1; unfold get.
  cbn [screensaver ss_surfaces].
  rewrite (bind_done _ (hide_loop _ _)).
  unfold terminate_screensaver, wl_list_remove, wl_list_insert, set_locked,
    compositor_wake, on_compositor, call.
  unfold_M. cbn.
  destruct (spid =? 0); cbn; eexists; (split; [reflexivity | split; reflexivity]).
Qed.

(** X30. What [lock()] does to the idle timer: when screensaver surfaces
    are registered, the compositor's idle time becomes the screensaver
    duration and the compositor is put into the idle state; with none
    registered both stay as they were. The helper's [unlock] afterwards
    restores the configured idle time in either case. *)
Theorem lock_sets_screensaver_idle_time (launched_pid now : Z) (s : wl_shell) :
  locked s = false ->
  layer_list (compositor s) = initial_layer_order ->
  exists s1 s2,
    lock launched_pid now s = Done (tt, s1) /\
    (ss_surfaces (screensaver s) = [] ->
     idle_time (compositor s1) = idle_time (compositor s) /\
     state (compositor s1) = state (compositor s)) /\
    (ss_surfaces (screensaver s) <> [] ->
     idle_time (compositor s1) = ss_duration (screensaver s) /\
     state (compositor s1) = WESTON_COMPOSITOR_IDLE) /\
    option_idle_time (compositor s1) = option_idle_time (compositor s) /\
    desktop_shell_unlock s1 = Done (tt, s2) /\
    idle_time (compositor s2) = option_idle_time (compositor s) /\
    state (compositor s2) = WESTON_COMPOSITOR_ACTIVE.
Proof.
  intros K L.
  assert (Hs1 : exists s1,
             lock launched_pid now s = Done (tt, s1) /\
             (ss_surfaces (screensaver s) = [] ->
              idle_time (compositor s1) = idle_time (compositor s) /\
              state (compositor s1) = state (compositor s)) /\
             (ss_surfaces (screensaver s) <> [] ->
              idle_time (compositor s1) = ss_duration (screensaver s) /\
              state (compositor s1) = WESTON_COMPOSITOR_IDLE) /\
             option_idle_time (compositor s1) = option_idle_time (compositor s) /\
             locked s1 = true /\
             layer_list (compositor s1) = locked_layer_order).
  { destruct s as [[ll it oit st outs devs] ch lk pes ls [sp sd sb sss spid] tr].
    cbn in K, L. subst ll lk.
    unfold lock. unfold bind at 1; unfold get. cbn [locked].
    unfold wl_list_remove, wl_list_insert, set_locked, launch_screensaver,
      compositor_wake, on_compositor, on_screensaver, call.
    unfold_M. cbn.
    destruct sb as [b|]; [| destruct sp as [p|]; [destruct (spid =? 0)|]]; cbn;
      rewrite show_loop; cbn;
      (destruct sss as [| x rest]; cbn -[flat_map]);
      rewrite keyboard_loop; cbn -[flat_map];
      eexists; (split; [reflexivity|]); cbn -[flat_map];
      repeat split; try reflexivity; intros; congruence. }
  destruct Hs1 as (s1 & E1 & A & B & C & K1 & L1).
  assert (Hs2 : exists s2,
             desktop_shell_unlock s1 = Done (tt, s2) /\
             idle_time (compositor s2) = option_idle_time (compositor s1) /\
             state (compositor s2) = WESTON_COMPOSITOR_ACTIVE).
  { unfold desktop_shell_unlock, set_prepare_event_sent. unfold_M. simpl.
    rewrite K1.
    match goal with
    | |- exists s2, resume_desktop ?x = _ /\ _ =>
        destruct (resume_desktop_wakes x L1) as (s2 & E2 & I2 & St2)
    end.
    exists s2. auto. }
  destruct Hs2 as (s2 & E2 & I2 & St2).
  exists s1, s2. rewrite C in I2. auto 10.
Qed.

Definition saver_surfaces_shell : wl_shell :=
  {| compositor := compositor demo_shell; child := child demo_shell;
     locked := false; prepare_event_sent := false; lock_surface := None;
     screensaver := {| ss_path := Some "/usr/bin/ss"; ss_duration := 120;
                       ss_binding := Some 52%nat; ss_surfaces := [21%nat];
                       ss_pid := 500 |};
     shell_trace := [] |}.

Lemma lock_sets_screensaver_idle_time_witness :
  exists s1 s2,
    lock 0 2000 saver_surfaces_shell = Done (tt, s1) /\
    idle_time (compositor s1) = 120 /\
    state (compositor s1) = WESTON_COMPOSITOR_IDLE /\
    desktop_shell_unlock s1 = Done (tt, s2) /\
    idle_time (compositor s2) = 300.
Proof.
  destruct (@lock_sets_screensaver_idle_time 0 2000 saver_surfaces_shell
              eq_refl eq_refl)
    as (s1 & s2 & E1 & _ & B & _ & E2 & I2 & _).
  exists s1, s2. destruct B as [B1 B2]; [simpl; discriminate|].
  repeat split; assumption.
Defined.
